(** * Practice sessions, bookmarks and cascade delete of the quiz client

    A shallow embedding of the logic of [components/MCQPractice.tsx]
    (session builder, session runner, bookmark toggle, score rendering) and
    of [handleDeleteChapter] of the admin panel, with the properties of the
    specification stated over it.

    The JavaScript runtime pieces the component relies on are modelled
    first: IEEE doubles (kernel floats), [Math.random], arrays living in a
    heap of mutable cells, [Array.prototype.filter/sort/slice],
    [Number.prototype.toFixed], and the document store with its batched
    writes. *)

From Stdlib Require Import ZArith String List Floats Uint63 DecimalString.
From stdpp Require Import gmap strings list.

Local Open Scope string_scope.
Local Open Scope list_scope.
Local Open Scope Z_scope.

(** ** The JavaScript runtime *)

Module JS.

(** *** Numbers *)

(** The source of randomness: the successive results of [Math.random()].
    An exhausted tape keeps answering [0]. *)
Definition Tape := list float.

Definition Math_random (t : Tape) : float * Tape :=
  match t with
  | [] => (0%float, [])
  | r :: t' => (r, t')
  end.

(** An integer-valued JS number as a double (array lengths and counts). *)
Definition Number_of_Z (z : Z) : float :=
  if z <? 0 then PrimFloat.opp (PrimFloat.of_uint63 (Uint63.of_Z (- z)))
  else PrimFloat.of_uint63 (Uint63.of_Z z).

(** [Math.min] and [Math.max] on integer-valued numbers. *)
Definition Math_min (a b : Z) : Z := Z.min a b.
Definition Math_max (a b : Z) : Z := Z.max a b.

(** [parseInt(s)] yields an integer or [NaN] ([None]); [x || d] takes [d]
    when [x] is falsy, that is [NaN] or [0]. *)
Definition or_default (x : option Z) (d : Z) : Z :=
  match x with
  | None => d
  | Some 0 => d
  | Some n => n
  end.

(** *** Arrays *)

(** [Array.prototype.slice(start, end)] on the contents of an array:
    negative indices count from the end, everything is clipped to the
    length. *)
Definition slice {A} (l : list A) (start end_ : Z) : list A :=
  let len := Z.of_nat (length l) in
  let k := if start <? 0 then Z.max (len + start) 0 else Z.min start len in
  let final := if end_ <? 0 then Z.max (len + end_) 0 else Z.min end_ len in
  take (Z.to_nat (final - k)) (drop (Z.to_nat k) l).

(** [Array.prototype.sort(comparefn)].  The comparator may consume
    randomness, so it threads the tape.  A negative result puts the first
    argument first, a positive one the second, zero or [NaN] keeps them.
    The engine's algorithm is implementation-defined; an insertion sort
    is taken here, and the theorems below hold for every tape, using only
    that elements are moved, never created or dropped. *)
Section Sort.
Context {A : Type}.
Variable comparefn : A -> A -> Tape -> float * Tape.

Fixpoint sort_insert (x : A) (l : list A) (t : Tape) : list A * Tape :=
  match l with
  | [] => ([x], t)
  | y :: l' =>
      let (v, t1) := comparefn x y t in
      if PrimFloat.ltb 0%float v
      then let (r, t2) := sort_insert x l' t1 in (y :: r, t2)
      else (x :: y :: l', t1)
  end.

Fixpoint sort (l : list A) (t : Tape) : list A * Tape :=
  match l with
  | [] => ([], t)
  | x :: l' => let (s, t1) := sort l' t in sort_insert x s t1
  end.
End Sort.

(** *** The heap of arrays

    Arrays are objects: a variable holds a reference, and [sort] mutates
    the array in place while [filter] and [slice] allocate a new one. *)
Definition ref := nat.

Section Heap.
Context {A : Type}.

Definition alloc (h : gmap ref (list A)) (l : list A) : ref * gmap ref (list A) :=
  let r := fresh (dom h) in (r, <[r := l]> h).

(** The contents of an array; a dangling reference reads as empty. *)
Definition deref (h : gmap ref (list A)) (r : ref) : list A :=
  default [] (h !! r).

Definition Array_length (h : gmap ref (list A)) (r : ref) : Z :=
  Z.of_nat (length (deref h r)).

Definition Array_filter (p : A -> bool) (r : ref) (h : gmap ref (list A))
  : ref * gmap ref (list A) :=
  alloc h (List.filter p (deref h r)).

Definition Array_slice (start end_ : Z) (r : ref) (h : gmap ref (list A))
  : ref * gmap ref (list A) :=
  alloc h (slice (deref h r) start end_).

(** Sorts in place and returns the same reference. *)
Definition Array_sort (comparefn : A -> A -> Tape -> float * Tape)
    (r : ref) (h : gmap ref (list A)) (t : Tape)
  : ref * gmap ref (list A) * Tape :=
  let (s, t') := sort comparefn (deref h r) t in
  (r, <[r := s]> h, t').
End Heap.

(** *** [Number.prototype.toFixed(1)]

    For a finite [x] below [10^21] the result is the decimal expansion of
    the integer [n] for which [n / 10 - x] is closest to zero, the larger
    one on a tie, with a point before the last digit.  The value of a
    double is [m * 2^e] exactly, so [n] is computed in integers. *)
Definition string_of_N (n : N) : string :=
  NilZero.string_of_uint (N.to_uint n).

Definition nearest_tenths (m : positive) (e : Z) : Z :=
  if 0 <=? e then 10 * Z.pos m * 2 ^ e
  else (20 * Z.pos m + 2 ^ (- e)) / 2 ^ (1 - e).

Definition point_before_last (digits : string) : string :=
  let padded := if (String.length digits <=? 1)%nat then "0" +:+ digits else digits in
  let k := String.length padded in
  substring 0 (k - 1) padded +:+ "." +:+ substring (k - 1) 1 padded.

Definition toFixed1 (x : float) : option string :=
  match Prim2SF x with
  | S754_nan => Some "NaN"
  | S754_infinity false => Some "Infinity"
  | S754_infinity true => Some "-Infinity"
  | S754_zero _ => Some "0.0"
  | S754_finite s m e =>
      let n := nearest_tenths m e in
      if 10 ^ 22 <=? n then None
      else Some ((if s then "-" else "") +:+ point_before_last (string_of_N (Z.to_N n)))
  end.

End JS.

(** ** The document store

    Collections of schemaless documents, addressed by collection path and
    document id.  Every remote operation is logged, may fail (the next
    entry of the [network] oracle says so) and takes effect only when it
    succeeds. *)

Module Firestore.

Inductive Value :=
| VString (s : string)
| VNumber (z : Z)
| VBoolean (b : bool)
| VTimestamp (t : Z)
| VStrings (l : list string).

#[global] Instance Value_eq_dec : EqDecision Value.
Proof. solve_decision. Defined.

(** A document: field name to value.  A collection: document id to
    document.  The database: collection path to collection. *)
Abbreviation Doc := (gmap string Value).
Abbreviation Collection := (gmap string Doc).
Abbreviation Db := (gmap string Collection).

Record DocRef := { path : string; docId : string }.

#[global] Instance DocRef_eq_dec : EqDecision DocRef.
Proof. solve_decision. Defined.

Definition collection (db : Db) (p : string) : Collection :=
  default ∅ (db !! p).

Definition doc (p i : string) : DocRef := {| path := p; docId := i |}.

Inductive Request :=
| GetDocs (p field : string) (v : Value)
| SetDoc (r : DocRef) (d : Doc) (merge : bool)
| DeleteDoc (r : DocRef)
| Commit (deletes : list DocRef).

(** The requests that write. *)
Definition is_write (q : Request) : bool :=
  match q with
  | GetDocs _ _ _ => false
  | _ => true
  end.

(** What a handler sees of the outside: the database, the outcome of the
    remote calls still to come ([true] succeeds; an exhausted oracle
    succeeds), and the calls issued so far (latest first). *)
Record Remote := {
  db : Db;
  network : list bool;
  requests : list Request;
}.

Inductive Result (A : Type) :=
| Ok (a : A)
| Rejected.
Arguments Ok {A} a.
Arguments Rejected {A}.

Definition next_outcome (r : Remote) : bool * list bool :=
  match network r with
  | [] => (true, [])
  | b :: n => (b, n)
  end.

(** One remote call: log it, consume an outcome, and on success apply
    [effect] to the database and answer with [answer]. *)
Definition call {A} (q : Request) (effect : Db -> Db) (answer : Db -> A)
    (r : Remote) : Result A * Remote :=
  let (ok, n) := next_outcome r in
  if ok
  then (Ok (answer (db r)),
        {| db := effect (db r); network := n; requests := q :: requests r |})
  else (Rejected,
        {| db := db r; network := n; requests := q :: requests r |}).

Definition delete_ref (ref : DocRef) (d : Db) : Db :=
  <[path ref := delete (docId ref) (collection d (path ref))]> d.

Definition write_ref (ref : DocRef) (data : Doc) (merge : bool) (d : Db) : Db :=
  let c := collection d (path ref) in
  let old := if merge then default ∅ (c !! docId ref) else ∅ in
  <[path ref := <[docId ref := data ∪ old]> c]> d.

(** [getDocs(query(collection(db, p), where(field, '==', v)))]: the
    matching documents with their ids. *)
Definition matches (field : string) (v : Value) (entry : string * Doc) : bool :=
  bool_decide (entry.2 !! field = Some v).

Definition getDocs (p field : string) (v : Value) : Remote -> Result (list (string * Doc)) * Remote :=
  call (GetDocs p field v) (fun d => d)
       (fun d => List.filter (matches field v) (map_to_list (collection d p))).

Definition setDoc (ref : DocRef) (data : Doc) (merge : bool) : Remote -> Result unit * Remote :=
  call (SetDoc ref data merge) (write_ref ref data merge) (fun _ => tt).

Definition deleteDoc (ref : DocRef) : Remote -> Result unit * Remote :=
  call (DeleteDoc ref) (delete_ref ref) (fun _ => tt).

(** [writeBatch(db)]: deletes are queued locally by [batch.delete] and
    sent by [batch.commit], which applies all of them or none. *)
Definition WriteBatch := list DocRef.

Definition writeBatch : WriteBatch := [].

Definition batch_delete (b : WriteBatch) (ref : DocRef) : WriteBatch := b ++ [ref].

Definition batch_commit (b : WriteBatch) : Remote -> Result unit * Remote :=
  call (Commit b) (fun d => foldl (fun acc ref => delete_ref ref acc) d b) (fun _ => tt).

End Firestore.

(** ** The application's record types (the [MCQ] and [Chapter] interfaces) *)

Module Types.

Record MCQ := {
  id : string;
  chapterId : string;
  topicId : option string;
  question : string;
  options : list string;
  correctAnswer : Z;            (* 1-based index from the store *)
  explanation : option string;
}.

Record Chapter := {
  chapter_id : string;
  subjectId : string;
  title : string;
}.

Definition field_string (d : Firestore.Doc) (f : string) : option string :=
  match d !! f with
  | Some (Firestore.VString s) => Some s
  | _ => None
  end.

(** [{ id: doc.id, ...doc.data() } as MCQ]: the cast trusts the stored
    document to follow the interface; a field that is absent reads as
    empty, and an [id] field of the document itself, spread after
    [doc.id], takes its place. *)
Definition MCQ_of_doc (entry : string * Firestore.Doc) : MCQ :=
  let (i, d) := entry in
  {| id := default i (field_string d "id");
     chapterId := default "" (field_string d "chapterId");
     topicId := field_string d "topicId";
     question := default "" (field_string d "question");
     options := match d !! "options" with
                | Some (Firestore.VStrings l) => l
                | _ => []
                end;
     correctAnswer := match d !! "correctAnswer" with
                      | Some (Firestore.VNumber z) => z
                      | _ => 0
                      end;
     explanation := field_string d "explanation" |}.

End Types.

(** ** The practice component ([MCQPractice.tsx]) *)

Module MCQPractice.
Import JS.

Definition MAX_QUESTIONS_PER_SESSION : Z := 20.

Inductive FilterMode := all | new | bookmarked.

#[global] Instance FilterMode_eq_dec : EqDecision FilterMode.
Proof. solve_decision. Defined.

Record UserAnswerResult := {
  r_questionId : string;
  r_question : string;
  r_options : list string;
  r_correctAnswer : Z;     (* 1-based, as stored *)
  r_selectedOption : Z;    (* 0-based, from the UI *)
  isCorrect : bool;
  r_explanation : option string;
}.

Inductive MsgType := success | error.

Record Msg := { type : MsgType; text : string }.

(** The component's props. *)
Record Props := {
  chapter : Types.Chapter;
  uid : string;
  isQuickRevision : bool;
}.

(** The component's state, one field per [useState].  Arrays are held by
    reference. *)
Record State := {
  allQuestions : ref;
  questions : ref;
  selectedTopicId : option string;
  showFilterModal : bool;
  loading : bool;
  tempTopicId : option string;
  tempLimit : Z;
  tempFilterMode : FilterMode;
  currentQuestionIndex : Z;
  selectedOption : option Z;
  isAnswerChecked : bool;
  sessionResults : list UserAnswerResult;
  isSessionComplete : bool;
  userBookmarks : gset string;
  msg : option Msg;
}.

(** The timers armed by [setTimeout]; the only callback is
    [() => setMsg(null)]. *)
Inductive Callback := ClearMsg.

(** Everything outside the component's state. *)
Record World := {
  remote : Firestore.Remote;
  heap : gmap ref (list Types.MCQ);
  random : Tape;
  clock : Z;
  timers : list (Z * Callback);
  console : list string;
}.

(** *** State setters *)

Definition setAllQuestions (v : ref) (s : State) : State :=
  {| allQuestions := v; questions := questions s;
     selectedTopicId := selectedTopicId s; showFilterModal := showFilterModal s;
     loading := loading s; tempTopicId := tempTopicId s; tempLimit := tempLimit s;
     tempFilterMode := tempFilterMode s;
     currentQuestionIndex := currentQuestionIndex s;
     selectedOption := selectedOption s; isAnswerChecked := isAnswerChecked s;
     sessionResults := sessionResults s; isSessionComplete := isSessionComplete s;
     userBookmarks := userBookmarks s; msg := msg s |}.

Definition setQuestions (v : ref) (s : State) : State :=
  {| allQuestions := allQuestions s; questions := v;
     selectedTopicId := selectedTopicId s; showFilterModal := showFilterModal s;
     loading := loading s; tempTopicId := tempTopicId s; tempLimit := tempLimit s;
     tempFilterMode := tempFilterMode s;
     currentQuestionIndex := currentQuestionIndex s;
     selectedOption := selectedOption s; isAnswerChecked := isAnswerChecked s;
     sessionResults := sessionResults s; isSessionComplete := isSessionComplete s;
     userBookmarks := userBookmarks s; msg := msg s |}.

Definition setSelectedTopicId (v : option string) (s : State) : State :=
  {| allQuestions := allQuestions s; questions := questions s;
     selectedTopicId := v; showFilterModal := showFilterModal s;
     loading := loading s; tempTopicId := tempTopicId s; tempLimit := tempLimit s;
     tempFilterMode := tempFilterMode s;
     currentQuestionIndex := currentQuestionIndex s;
     selectedOption := selectedOption s; isAnswerChecked := isAnswerChecked s;
     sessionResults := sessionResults s; isSessionComplete := isSessionComplete s;
     userBookmarks := userBookmarks s; msg := msg s |}.

Definition setShowFilterModal (v : bool) (s : State) : State :=
  {| allQuestions := allQuestions s; questions := questions s;
     selectedTopicId := selectedTopicId s; showFilterModal := v;
     loading := loading s; tempTopicId := tempTopicId s; tempLimit := tempLimit s;
     tempFilterMode := tempFilterMode s;
     currentQuestionIndex := currentQuestionIndex s;
     selectedOption := selectedOption s; isAnswerChecked := isAnswerChecked s;
     sessionResults := sessionResults s; isSessionComplete := isSessionComplete s;
     userBookmarks := userBookmarks s; msg := msg s |}.

Definition setLoading (v : bool) (s : State) : State :=
  {| allQuestions := allQuestions s; questions := questions s;
     selectedTopicId := selectedTopicId s; showFilterModal := showFilterModal s;
     loading := v; tempTopicId := tempTopicId s; tempLimit := tempLimit s;
     tempFilterMode := tempFilterMode s;
     currentQuestionIndex := currentQuestionIndex s;
     selectedOption := selectedOption s; isAnswerChecked := isAnswerChecked s;
     sessionResults := sessionResults s; isSessionComplete := isSessionComplete s;
     userBookmarks := userBookmarks s; msg := msg s |}.

Definition setTempTopicId (v : option string) (s : State) : State :=
  {| allQuestions := allQuestions s; questions := questions s;
     selectedTopicId := selectedTopicId s; showFilterModal := showFilterModal s;
     loading := loading s; tempTopicId := v; tempLimit := tempLimit s;
     tempFilterMode := tempFilterMode s;
     currentQuestionIndex := currentQuestionIndex s;
     selectedOption := selectedOption s; isAnswerChecked := isAnswerChecked s;
     sessionResults := sessionResults s; isSessionComplete := isSessionComplete s;
     userBookmarks := userBookmarks s; msg := msg s |}.

Definition setTempLimit (v : Z) (s : State) : State :=
  {| allQuestions := allQuestions s; questions := questions s;
     selectedTopicId := selectedTopicId s; showFilterModal := showFilterModal s;
     loading := loading s; tempTopicId := tempTopicId s; tempLimit := v;
     tempFilterMode := tempFilterMode s;
     currentQuestionIndex := currentQuestionIndex s;
     selectedOption := selectedOption s; isAnswerChecked := isAnswerChecked s;
     sessionResults := sessionResults s; isSessionComplete := isSessionComplete s;
     userBookmarks := userBookmarks s; msg := msg s |}.

Definition setTempFilterMode (v : FilterMode) (s : State) : State :=
  {| allQuestions := allQuestions s; questions := questions s;
     selectedTopicId := selectedTopicId s; showFilterModal := showFilterModal s;
     loading := loading s; tempTopicId := tempTopicId s; tempLimit := tempLimit s;
     tempFilterMode := v;
     currentQuestionIndex := currentQuestionIndex s;
     selectedOption := selectedOption s; isAnswerChecked := isAnswerChecked s;
     sessionResults := sessionResults s; isSessionComplete := isSessionComplete s;
     userBookmarks := userBookmarks s; msg := msg s |}.

Definition setCurrentQuestionIndex (v : Z) (s : State) : State :=
  {| allQuestions := allQuestions s; questions := questions s;
     selectedTopicId := selectedTopicId s; showFilterModal := showFilterModal s;
     loading := loading s; tempTopicId := tempTopicId s; tempLimit := tempLimit s;
     tempFilterMode := tempFilterMode s;
     currentQuestionIndex := v;
     selectedOption := selectedOption s; isAnswerChecked := isAnswerChecked s;
     sessionResults := sessionResults s; isSessionComplete := isSessionComplete s;
     userBookmarks := userBookmarks s; msg := msg s |}.

Definition setSelectedOption (v : option Z) (s : State) : State :=
  {| allQuestions := allQuestions s; questions := questions s;
     selectedTopicId := selectedTopicId s; showFilterModal := showFilterModal s;
     loading := loading s; tempTopicId := tempTopicId s; tempLimit := tempLimit s;
     tempFilterMode := tempFilterMode s;
     currentQuestionIndex := currentQuestionIndex s;
     selectedOption := v; isAnswerChecked := isAnswerChecked s;
     sessionResults := sessionResults s; isSessionComplete := isSessionComplete s;
     userBookmarks := userBookmarks s; msg := msg s |}.

Definition setIsAnswerChecked (v : bool) (s : State) : State :=
  {| allQuestions := allQuestions s; questions := questions s;
     selectedTopicId := selectedTopicId s; showFilterModal := showFilterModal s;
     loading := loading s; tempTopicId := tempTopicId s; tempLimit := tempLimit s;
     tempFilterMode := tempFilterMode s;
     currentQuestionIndex := currentQuestionIndex s;
     selectedOption := selectedOption s; isAnswerChecked := v;
     sessionResults := sessionResults s; isSessionComplete := isSessionComplete s;
     userBookmarks := userBookmarks s; msg := msg s |}.

Definition setSessionResults (v : list UserAnswerResult) (s : State) : State :=
  {| allQuestions := allQuestions s; questions := questions s;
     selectedTopicId := selectedTopicId s; showFilterModal := showFilterModal s;
     loading := loading s; tempTopicId := tempTopicId s; tempLimit := tempLimit s;
     tempFilterMode := tempFilterMode s;
     currentQuestionIndex := currentQuestionIndex s;
     selectedOption := selectedOption s; isAnswerChecked := isAnswerChecked s;
     sessionResults := v; isSessionComplete := isSessionComplete s;
     userBookmarks := userBookmarks s; msg := msg s |}.

Definition setIsSessionComplete (v : bool) (s : State) : State :=
  {| allQuestions := allQuestions s; questions := questions s;
     selectedTopicId := selectedTopicId s; showFilterModal := showFilterModal s;
     loading := loading s; tempTopicId := tempTopicId s; tempLimit := tempLimit s;
     tempFilterMode := tempFilterMode s;
     currentQuestionIndex := currentQuestionIndex s;
     selectedOption := selectedOption s; isAnswerChecked := isAnswerChecked s;
     sessionResults := sessionResults s; isSessionComplete := v;
     userBookmarks := userBookmarks s; msg := msg s |}.

Definition setUserBookmarks (v : gset string) (s : State) : State :=
  {| allQuestions := allQuestions s; questions := questions s;
     selectedTopicId := selectedTopicId s; showFilterModal := showFilterModal s;
     loading := loading s; tempTopicId := tempTopicId s; tempLimit := tempLimit s;
     tempFilterMode := tempFilterMode s;
     currentQuestionIndex := currentQuestionIndex s;
     selectedOption := selectedOption s; isAnswerChecked := isAnswerChecked s;
     sessionResults := sessionResults s; isSessionComplete := isSessionComplete s;
     userBookmarks := v; msg := msg s |}.

Definition setMsg (v : option Msg) (s : State) : State :=
  {| allQuestions := allQuestions s; questions := questions s;
     selectedTopicId := selectedTopicId s; showFilterModal := showFilterModal s;
     loading := loading s; tempTopicId := tempTopicId s; tempLimit := tempLimit s;
     tempFilterMode := tempFilterMode s;
     currentQuestionIndex := currentQuestionIndex s;
     selectedOption := selectedOption s; isAnswerChecked := isAnswerChecked s;
     sessionResults := sessionResults s; isSessionComplete := isSessionComplete s;
     userBookmarks := userBookmarks s; msg := v |}.

(** *** World updates *)

Definition with_remote (r : Firestore.Remote) (w : World) : World :=
  {| remote := r; heap := heap w; random := random w; clock := clock w;
     timers := timers w; console := console w |}.

Definition with_heap (h : gmap ref (list Types.MCQ)) (w : World) : World :=
  {| remote := remote w; heap := h; random := random w; clock := clock w;
     timers := timers w; console := console w |}.

Definition with_random (t : Tape) (w : World) : World :=
  {| remote := remote w; heap := heap w; random := t; clock := clock w;
     timers := timers w; console := console w |}.

Definition console_error (line : string) (w : World) : World :=
  {| remote := remote w; heap := heap w; random := random w; clock := clock w;
     timers := timers w; console := console w ++ [line] |}.

Definition setTimeout (c : Callback) (delay : Z) (w : World) : World :=
  {| remote := remote w; heap := heap w; random := random w; clock := clock w;
     timers := timers w ++ [(clock w + delay, c)]; console := console w |}.

(** *** Session setup and filtering *)

(** The comparator of the shuffle, [() => Math.random() - 0.5]. *)
Definition random_order (_ _ : Types.MCQ) (t : Tape) : float * Tape :=
  let (r, t') := Math_random t in (PrimFloat.sub r 0.5%float, t').

(** [topicId && topicId !== 'all']: [null] and the empty string are
    falsy. *)
Definition topic_selected (topicId : option string) : option string :=
  match topicId with
  | Some t => if bool_decide (t = "") || bool_decide (t = "all") then None else Some t
  | None => None
  end.

Definition setupSession (p : Props) (sourceQuestions : ref)
    (bookmarks : gset string) (mode : FilterMode) (topicId : option string)
    (limit : Z) (s : State) (w : World) : State * World :=
  let filtered := sourceQuestions in
  let h := heap w in
  (* 1. Filter by topic *)
  let '(filtered, h) :=
    match topic_selected topicId with
    | Some t => Array_filter (fun q => bool_decide (Types.topicId q = Some t)) filtered h
    | None => (filtered, h)
    end in
  (* 2. Filter by mode; the 'new' branch is empty *)
  let '(filtered, h) :=
    if isQuickRevision p || bool_decide (mode = bookmarked)
    then Array_filter (fun q => bool_decide (Types.id q ∈ bookmarks)) filtered h
    else (filtered, h) in
  (* 3. Shuffle *)
  let '(shuffled, h, t) := Array_sort random_order filtered h (random w) in
  (* 4. Slice to limit *)
  let '(finalQuestions, h) := Array_slice 0 limit shuffled h in
  let s := setQuestions finalQuestions s in
  let s := setCurrentQuestionIndex 0 s in
  let s := setSelectedOption None s in
  let s := setIsAnswerChecked false s in
  let s := setSessionResults [] s in
  let s := setIsSessionComplete (Array_length h finalQuestions =? 0) s in
  (s, with_random t (with_heap h w)).

(** *** Data fetching *)

Definition bookmarksPath (p : Props) : string := "users/" +:+ uid p +:+ "/bookmarks".
Definition progressPath (p : Props) : string := "users/" +:+ uid p +:+ "/progress".

Definition chapterIs (p : Props) : Firestore.Value :=
  Firestore.VString (Types.chapter_id (chapter p)).

Definition fetchQuestions (p : Props) (s : State) (w : World) : State * World :=
  let s := setLoading true s in
  let failed (s : State) (w : World) :=
    (setLoading false s, console_error "Error fetching data:" w) in
  (* 1. Fetch all questions for the chapter *)
  match Firestore.getDocs "mcqs" "chapterId" (chapterIs p) (remote w) with
  | (Firestore.Rejected, r) => failed s (with_remote r w)
  | (Firestore.Ok docs, r) =>
      let w := with_remote r w in
      let (fetchedQuestions, h) := alloc (heap w) (List.map Types.MCQ_of_doc docs) in
      let w := with_heap h w in
      let s := setAllQuestions fetchedQuestions s in
      (* 2. Fetch user bookmarks *)
      match Firestore.getDocs (bookmarksPath p) "chapterId" (chapterIs p) (remote w) with
      | (Firestore.Rejected, r) => failed s (with_remote r w)
      | (Firestore.Ok bdocs, r) =>
          let w := with_remote r w in
          let bookmarks : gset string := list_to_set (List.map fst bdocs) in
          let s := setUserBookmarks bookmarks s in
          let (s, w) := setupSession p fetchedQuestions bookmarks
                          (tempFilterMode s) (tempTopicId s) (tempLimit s) s w in
          (setLoading false s, w)
      end
  end.

(** *** The filter panel *)

(** [onChange] of the limit input; [parsed] is [parseInt(e.target.value)]. *)
Definition onLimitChange (parsed : option Z) (s : State) : State :=
  setTempLimit (Math_min 100 (Math_max 1 (or_default parsed 1))) s.

Definition onTopicChange (value : string) (s : State) : State :=
  setTempTopicId (Some value) s.

Definition handleApplyFilter (p : Props) (s : State) (w : World) : State * World :=
  let s1 := setSelectedTopicId (tempTopicId s) s in
  let s1 := setTempLimit (tempLimit s) s1 in
  let s1 := setTempFilterMode (tempFilterMode s) s1 in
  let (s1, w) := setupSession p (allQuestions s) (userBookmarks s)
                   (tempFilterMode s) (tempTopicId s) (tempLimit s) s1 w in
  (setShowFilterModal false s1, w).

Definition handleOpenFilter (s : State) (w : World) : State :=
  let len := Array_length (heap w) (questions s) in
  let s1 := setTempTopicId (selectedTopicId s) s in
  let s1 := setTempLimit (if 0 <? len then len else MAX_QUESTIONS_PER_SESSION) s1 in
  setShowFilterModal true s1.

(** *** The session runner *)

(** [questions[currentQuestionIndex]]; [None] is [undefined]. *)
Definition currentQuestion (s : State) (w : World) : option Types.MCQ :=
  if currentQuestionIndex s <? 0 then None
  else deref (heap w) (questions s) !! Z.to_nat (currentQuestionIndex s).

(** Clicking option [index]. *)
Definition selectOption (index : Z) (s : State) : State :=
  if isAnswerChecked s then s else setSelectedOption (Some index) s.

Definition progressRecord (p : Props) (q : Types.MCQ) (correct : bool) (now : Z)
  : Firestore.Doc :=
  {[ "isCorrect" := Firestore.VBoolean correct;
     "chapterId" := Firestore.VString (Types.chapterId q);
     "subjectId" := Firestore.VString (Types.subjectId (chapter p));
     "timestamp" := Firestore.VTimestamp now;
     "attemptCount" := Firestore.VNumber 1 ]}.

(** With no current question, reading [currentQ.correctAnswer] throws
    before any state is set: nothing changes. *)
Definition handleCheckAnswer (p : Props) (s : State) (w : World) : State * World :=
  match selectedOption s with
  | None => (s, w)
  | Some selected =>
      if isAnswerChecked s then (s, w)
      else
        match currentQuestion s w with
        | None => (s, w)
        | Some currentQ =>
            let correct := selected =? Types.correctAnswer currentQ - 1 in
            let s := setIsAnswerChecked true s in
            let result :=
              {| r_questionId := Types.id currentQ;
                 r_question := Types.question currentQ;
                 r_options := Types.options currentQ;
                 r_correctAnswer := Types.correctAnswer currentQ;
                 r_selectedOption := selected;
                 isCorrect := correct;
                 r_explanation := Types.explanation currentQ |} in
            let s := setSessionResults (sessionResults s ++ [result]) s in
            (* Update user progress *)
            let statsRef := Firestore.doc (progressPath p) (Types.id currentQ) in
            match Firestore.setDoc statsRef (progressRecord p currentQ correct (clock w))
                    true (remote w) with
            | (Firestore.Ok _, r) => (s, with_remote r w)
            | (Firestore.Rejected, r) =>
                (s, console_error "Error saving progress:" (with_remote r w))
            end
        end
  end.

Definition handleNext (s : State) (w : World) : State :=
  if currentQuestionIndex s <? Array_length (heap w) (questions s) - 1
  then setIsAnswerChecked false
         (setSelectedOption None
            (setCurrentQuestionIndex (currentQuestionIndex s + 1) s))
  else setIsSessionComplete true s.

Definition handleResetSession (p : Props) (s : State) (w : World) : State * World :=
  let (s1, w) := setupSession p (allQuestions s) (userBookmarks s)
                   (tempFilterMode s) (tempTopicId s) (tempLimit s) s w in
  (setIsSessionComplete false s1, w).

(** *** Bookmarks *)

Definition bookmarkRecord (p : Props) (now : Z) : Firestore.Doc :=
  {[ "chapterId" := chapterIs p;
     "subjectId" := Firestore.VString (Types.subjectId (chapter p));
     "timestamp" := Firestore.VTimestamp now ]}.

Definition handleToggleBookmark (p : Props) (questionId : string)
    (isBookmarked : bool) (s : State) (w : World) : State * World :=
  let bookmarkRef := Firestore.doc (bookmarksPath p) questionId in
  let done_ (s : State) (w : World) :=
    (setMsg (Some {| type := success;
                     text := if isBookmarked then "Bookmark Removed"
                             else "Question Bookmarked!" |}) s,
     setTimeout ClearMsg 2000 w) in
  let failed (s : State) (w : World) :=
    (setMsg (Some {| type := error; text := "Failed to update bookmark." |}) s,
     setTimeout ClearMsg 2000 (console_error "Error toggling bookmark:" w)) in
  if isBookmarked then
    match Firestore.deleteDoc bookmarkRef (remote w) with
    | (Firestore.Ok _, r) =>
        done_ (setUserBookmarks (userBookmarks s ∖ {[questionId]}) s) (with_remote r w)
    | (Firestore.Rejected, r) => failed s (with_remote r w)
    end
  else
    match Firestore.setDoc bookmarkRef (bookmarkRecord p (clock w)) false (remote w) with
    | (Firestore.Ok _, r) =>
        done_ (setUserBookmarks (userBookmarks s ∪ {[questionId]}) s) (with_remote r w)
    | (Firestore.Rejected, r) => failed s (with_remote r w)
    end.

(** The bookmark button of the question card passes
    [userBookmarks.has(currentQuestion.id)]. *)
Definition clickBookmark (p : Props) (questionId : string) (s : State) (w : World)
  : State * World :=
  handleToggleBookmark p questionId (bool_decide (questionId ∈ userBookmarks s)) s w.

(** Time passes: the timers that are due run, in the order they were
    armed. *)
Definition runCallback (c : Callback) (s : State) : State :=
  match c with
  | ClearMsg => setMsg None s
  end.

Definition elapse (ms : Z) (s : State) (w : World) : State * World :=
  let now := clock w + ms in
  let due := List.filter (fun t => t.1 <=? now) (timers w) in
  let later := List.filter (fun t => negb (t.1 <=? now)) (timers w) in
  (foldl (fun s t => runCallback t.2 s) s due,
   {| remote := remote w; heap := heap w; random := random w; clock := now;
      timers := later; console := console w |}).

(** *** The completion screen *)

Definition totalCorrect (s : State) : Z :=
  Z.of_nat (length (List.filter isCorrect (sessionResults s))).

Definition totalAttempted (s : State) : Z :=
  Z.of_nat (length (sessionResults s)).

(** What a JSX expression slot holds: a string or a number. *)
Inductive Rendered :=
| Text (t : option string)
| Num (n : Z).

(** [questions.length > 0 ? ((totalCorrect / questions.length) * 100).toFixed(1) : 0].
    [Text None] stands for the exponent notation of values from [10^21]
    on, which is not modelled. *)
Definition score (s : State) (w : World) : Rendered :=
  let len := Array_length (heap w) (questions s) in
  if 0 <? len
  then Text (toFixed1 (PrimFloat.mul
                         (PrimFloat.div (Number_of_Z (totalCorrect s)) (Number_of_Z len))
                         (Number_of_Z 100)))
  else Num 0.

(** The initial render: two distinct empty arrays and the default
    filters. *)
Definition initialWorld (r : Firestore.Remote) (t : Tape) (now : Z) : World :=
  {| remote := r; heap := {[ 0%nat := []; 1%nat := [] ]}; random := t;
     clock := now; timers := []; console := [] |}.

Definition initialState : State :=
  {| allQuestions := 0%nat; questions := 1%nat;
     selectedTopicId := None; showFilterModal := false; loading := true;
     tempTopicId := None; tempLimit := MAX_QUESTIONS_PER_SESSION;
     tempFilterMode := all;
     currentQuestionIndex := 0; selectedOption := None;
     isAnswerChecked := false; sessionResults := [];
     isSessionComplete := false; userBookmarks := ∅; msg := None |}.

End MCQPractice.

(** ** The admin panel: deleting a chapter with everything under it *)

Module AdminPanel.
Import Firestore.

Inductive MsgType := success | error.

Record Msg := { type : MsgType; text : string }.

(** The part of the panel's state the chapter handlers touch. *)
Record State := {
  loading : bool;
  msg : option Msg;
  chapters : list (string * Doc);
  selectedSubjectId : string;
}.

Definition setLoading (v : bool) (s : State) : State :=
  {| loading := v; msg := msg s; chapters := chapters s;
     selectedSubjectId := selectedSubjectId s |}.

Definition setMsg (v : option Msg) (s : State) : State :=
  {| loading := loading s; msg := v; chapters := chapters s;
     selectedSubjectId := selectedSubjectId s |}.

Definition setChapters (v : list (string * Doc)) (s : State) : State :=
  {| loading := loading s; msg := msg s; chapters := v;
     selectedSubjectId := selectedSubjectId s |}.

Definition order (c : string * Doc) : Z :=
  match c.2 !! "order" with
  | Some (VNumber z) => z
  | _ => 0
  end.

(** [(a, b) => a.order - b.order] *)
Definition by_order (a b : string * Doc) (t : JS.Tape) : float * JS.Tape :=
  (JS.Number_of_Z (order a - order b), t).

Definition fetchChapters (subjectId : string) (s : State) (r : Remote)
  : State * Remote :=
  if bool_decide (subjectId = "") then (setChapters [] s, r)
  else
    let s := setLoading true s in
    match getDocs "chapters" "subjectId" (VString subjectId) r with
    | (Ok docs, r) =>
        (setLoading false (setChapters (JS.sort by_order docs []).1 s), r)
    | (Rejected, r) =>
        (setLoading false
           (setMsg (Some {| type := error; text := "Failed to load chapters." |}) s), r)
    end.

(** The double-quote character of the success message. *)
Definition dquote : string := String (Ascii.ascii_of_nat 34) EmptyString.

(** [snapshot.docs.forEach(d => batch.delete(d.ref))] *)
Definition delete_all (p : string) (docs : list (string * Doc)) (batch : WriteBatch)
  : WriteBatch :=
  foldl (fun b d => batch_delete b (doc p d.1)) batch docs.

(** [confirmed] is the answer to [window.confirm].  The refresh of the
    chapter list is started without being awaited; it only reads. *)
Definition handleDeleteChapter (confirmed : bool) (chapterId chapterTitle : string)
    (s : State) (r : Remote) : State * Remote :=
  if negb confirmed then (s, r)
  else
    let s := setLoading true s in
    let failed (s : State) (r : Remote) :=
      (setLoading false
         (setMsg (Some {| type := error;
                          text := "Failed to delete chapter and related data." |}) s),
       r) in
    let batch := writeBatch in
    let chapterRef := doc "chapters" chapterId in
    let batch := batch_delete batch chapterRef in
    (* Delete associated Topics *)
    match getDocs "topics" "chapterId" (VString chapterId) r with
    | (Rejected, r) => failed s r
    | (Ok topicsSnapshot, r) =>
        let batch := delete_all "topics" topicsSnapshot batch in
        (* Delete associated MCQs *)
        match getDocs "mcqs" "chapterId" (VString chapterId) r with
        | (Rejected, r) => failed s r
        | (Ok mcqsSnapshot, r) =>
            let batch := delete_all "mcqs" mcqsSnapshot batch in
            (* Delete associated Formulas *)
            match getDocs "formulas" "chapterId" (VString chapterId) r with
            | (Rejected, r) => failed s r
            | (Ok formulasSnapshot, r) =>
                let batch := delete_all "formulas" formulasSnapshot batch in
                match batch_commit batch r with
                | (Rejected, r) => failed s r
                | (Ok _, r) =>
                    let s :=
                      setMsg (Some {| type := success;
                                      text := "Chapter " +:+ dquote +:+ chapterTitle +:+ dquote
                                              +:+ " and all related data deleted successfully!" |}) s in
                    let (s, r) := fetchChapters (selectedSubjectId s) s r in
                    (setLoading false s, r)
                end
            end
        end
    end.

(** The records a cascade delete of [chapterId] is to remove: the chapter
    itself and the topics, questions and formulas that reference it. *)
Definition references (chapterId : string) (d : Doc) : bool :=
  bool_decide (d !! "chapterId" = Some (VString chapterId)).

Definition in_cascade (d : Db) (chapterId p i : string) : bool :=
  (bool_decide (p = "chapters") && bool_decide (i = chapterId))
  || ((bool_decide (p = "topics") || bool_decide (p = "mcqs")
       || bool_decide (p = "formulas"))
      && from_option (references chapterId) false (collection d p !! i)).

(** The deletes queued for [chapterId] over database [d], in the order the
    handler queues them. *)
Definition cascade_batch (d : Db) (chapterId : string) : WriteBatch :=
  let found (p : string) :=
    List.map (fun e => doc p e.1)
      (List.filter (matches "chapterId" (VString chapterId)) (map_to_list (collection d p))) in
  doc "chapters" chapterId :: found "topics" ++ found "mcqs" ++ found "formulas".

End AdminPanel.

(** ** Notions the properties are stated with *)

Module Spec.
Import JS MCQPractice.

(** The filtered set of the session builder: the topic filter applies
    unless the topic is unset or the "all topics" sentinel, the bookmark
    filter applies in bookmarked mode and in the quick-revision
    context. *)
Definition filteredSet (p : Props) (bookmarks : gset string) (mode : FilterMode)
    (topicId : option string) (l : list Types.MCQ) : list Types.MCQ :=
  let byTopic :=
    match topicId with
    | None => l
    | Some t =>
        if bool_decide (t = "") || bool_decide (t = "all") then l
        else List.filter (fun q => bool_decide (Types.topicId q = Some t)) l
    end in
  if isQuickRevision p || bool_decide (mode = bookmarked)
  then List.filter (fun q => bool_decide (Types.id q ∈ bookmarks)) byTopic
  else byTopic.

(** The shuffled filtered set, as the engine's sort leaves it. *)
Definition shuffled (p : Props) (bookmarks : gset string) (mode : FilterMode)
    (topicId : option string) (l : list Types.MCQ) (t : Tape) : list Types.MCQ :=
  (sort random_order (filteredSet p bookmarks mode topicId l) t).1.

(** The limit as the filter panel clamps it. *)
Definition clamp (n : Z) : Z := Z.min 100 (Z.max 1 n).

(** The score text for [c] correct answers out of [n] questions. *)
Definition score_text (c n : Z) : option string :=
  toFixed1 (PrimFloat.mul (PrimFloat.div (Number_of_Z c) (Number_of_Z n))
                          (Number_of_Z 100)).

(** A text of one decimal place standing for [t] tenths. *)
Definition one_decimal (t : Z) : string := point_before_last (string_of_N (Z.to_N t)).

(** [t] tenths is a nearest one-decimal value of the exact percentage
    [100 c / n]: they differ by at most half a tenth. *)
Definition nearest_to_percentage (t c n : Z) : bool :=
  (0 <=? t) && (2 * Z.abs (t * n - 1000 * c) <=? n).

Definition score_tenths (c n : Z) : option Z :=
  match Prim2SF (PrimFloat.mul (PrimFloat.div (Number_of_Z c) (Number_of_Z n))
                               (Number_of_Z 100)) with
  | S754_zero _ => Some 0
  | S754_finite false m e => Some (nearest_tenths m e)
  | _ => None
  end.

(** The check of one score, and of every score of a session of up to
    [bound] questions. *)
Definition score_checked (c n : Z) : bool :=
  match score_tenths c n with
  | Some t => bool_decide (score_text c n = Some (one_decimal t))
              && nearest_to_percentage t c n
  | None => false
  end.

Definition scores_checked (bound : nat) : bool :=
  forallb (fun n => forallb (fun c => score_checked (Z.of_nat c) (Z.of_nat n))
                            (seq 0 (S n)))
          (seq 1 bound).

(** The events the component reacts to, and its reaction to each.  No
    guard of the user interface is assumed: every handler may run in every
    state. *)
Inductive Event :=
| Fetch
| LimitChange (parsed : option Z)
| TopicChange (value : string)
| ModeChange (mode : FilterMode)
| CloseFilter
| ApplyFilter
| OpenFilter
| SelectOption (index : Z)
| CheckAnswer
| Next
| ResetSession
| ClickBookmark (questionId : string)
| Elapse (ms : Z).

Definition handle (p : Props) (x : State * World) (e : Event) : State * World :=
  match e with
  | Fetch => fetchQuestions p x.1 x.2
  | LimitChange parsed => (onLimitChange parsed x.1, x.2)
  | TopicChange value => (onTopicChange value x.1, x.2)
  | ModeChange mode => (setTempFilterMode mode x.1, x.2)
  | CloseFilter => (setShowFilterModal false x.1, x.2)
  | ApplyFilter => handleApplyFilter p x.1 x.2
  | OpenFilter => (handleOpenFilter x.1 x.2, x.2)
  | SelectOption index => (selectOption index x.1, x.2)
  | CheckAnswer => handleCheckAnswer p x.1 x.2
  | Next => (handleNext x.1 x.2, x.2)
  | ResetSession => handleResetSession p x.1 x.2
  | ClickBookmark questionId => clickBookmark p questionId x.1 x.2
  | Elapse ms => elapse ms x.1 x.2
  end.

Definition run (p : Props) (events : list Event) (x : State * World) : State * World :=
  foldl (handle p) x events.

(** The stored questions, and what the admin panel guarantees of them:
    it writes no [id] field into a question document, so a fetched
    question is known by its document id. *)
Definition stored_questions (w : World) : Firestore.Collection :=
  Firestore.collection (Firestore.db (remote w)) "mcqs".

Definition plain_ids (c : Firestore.Collection) : Prop :=
  map_Forall (fun (_ : string) (e : Firestore.Doc) => e !! "id" = None) c.

(** The states the component can be in: what a run of events makes of the
    initial render, over a store of such questions. *)
Definition reachable (p : Props) (x : State * World) : Prop :=
  exists remote0 tape now events,
    plain_ids (Firestore.collection (Firestore.db remote0) "mcqs")
    /\ x = run p events (initialState, initialWorld remote0 tape now).


(** A later heap extends an earlier one when the arrays of the earlier one
    are still there, each holding a permutation of what it held. *)
Definition heap_extends (h h' : gmap ref (list Types.MCQ)) : Prop :=
  forall r, r ∈ dom h -> r ∈ dom h' /\ deref h' r ≡ₚ deref h r.

(** The fields of the state the invariant reads. *)
Definition view (s : State) : Z * ref * ref * Z * bool * list UserAnswerResult :=
  (tempLimit s, allQuestions s, questions s, currentQuestionIndex s,
   isAnswerChecked s, sessionResults s).

(** What holds in every reachable state: the stored questions carry no id
    of their own, the limit is within 1..100, the cached questions have
    distinct ids, the session has at most 100 questions, and the results
    never outnumber the questions reached. *)
Definition invariant (x : State * World) : Prop :=
  let s := x.1 in
  let h := heap x.2 in
  let len := Array_length h (questions s) in
  plain_ids (stored_questions x.2)
  /\ 1 <= tempLimit s <= 100
  /\ allQuestions s ∈ dom h
  /\ questions s ∈ dom h
  /\ NoDup (Types.id <$> deref h (allQuestions s))
  /\ len <= 100
  /\ 0 <= currentQuestionIndex s
  /\ Z.of_nat (length (sessionResults s))
     <= currentQuestionIndex s + (if isAnswerChecked s then 1 else 0)
  /\ (currentQuestionIndex s < len
      \/ (len = 0 /\ currentQuestionIndex s = 0 /\ isAnswerChecked s = false)).

(** The filter values a session is built with. *)
Definition filters (s : State) : FilterMode * option string * Z :=
  (tempFilterMode s, tempTopicId s, tempLimit s).

End Spec.

(** ** Sample data *)

Module Sample.
Import Firestore MCQPractice.

Definition mcq (chapter topic : string) (answer : Z) : Doc :=
  {[ "chapterId" := VString chapter; "topicId" := VString topic;
     "question" := VString "2 + 2 = ?";
     "options" := VStrings ["3"; "4"; "5"; "6"];
     "correctAnswer" := VNumber answer ]}.

Definition topic (chapter name : string) : Doc :=
  {[ "chapterId" := VString chapter; "title" := VString name ]}.

Definition formula (chapter : string) : Doc :=
  {[ "chapterId" := VString chapter; "title" := VString "sum" ]}.

Definition chapterDoc (subject : string) (n : Z) : Doc :=
  {[ "subjectId" := VString subject; "order" := VNumber n ]}.

(** Two chapters; chapter [c1] has two topics, three questions and a
    formula, and user [u1] has bookmarked question [q2]. *)
Definition database : Db :=
  {[ "chapters" := {[ "c1" := chapterDoc "s1" 1; "c2" := chapterDoc "s1" 2 ]};
     "topics" := {[ "t1" := topic "c1" "adding"; "t2" := topic "c1" "more";
                    "t3" := topic "c2" "other" ]};
     "mcqs" := {[ "q1" := mcq "c1" "t1" 2; "q2" := mcq "c1" "t1" 2;
                  "q3" := mcq "c1" "t2" 2; "q4" := mcq "c2" "t3" 1 ]};
     "formulas" := {[ "f1" := formula "c1"; "f2" := formula "c2" ]};
     "users/u1/bookmarks" := {[ "q2" := {[ "chapterId" := VString "c1" ]} ]} ]}.

Definition online (net : list bool) : Remote :=
  {| db := database; network := net; requests := [] |}.

Definition props (user : string) (revision : bool) : Props :=
  {| chapter := {| Types.chapter_id := "c1"; Types.subjectId := "s1";
                   Types.title := "Arithmetic" |};
     uid := user; isQuickRevision := revision |}.

(** A tape on which the comparator of the shuffle is positive six times. *)
Definition tape_swap : JS.Tape := [0.75; 0.75; 0.75; 0.75; 0.75; 0.75]%float.

(** The component after its first load. *)
Definition loaded (user : string) (revision : bool) (net : list bool) (t : JS.Tape)
  : State * World :=
  fetchQuestions (props user revision) initialState (initialWorld (online net) t 1000).

(** Practice of user [u1], all questions. *)
Definition practice : State * World := loaded "u1" false [] tape_swap.

(** Quick revision of user [u1], who has one bookmark, and of user [u2],
    who has none: the latter starts on the completion screen. *)
Definition revision : State * World := loaded "u1" true [] tape_swap.
Definition revision_without_bookmarks : State * World := loaded "u2" true [] tape_swap.

(** Practice with the second option of the first question selected. *)
Definition answering : State * World :=
  (selectOption 1 practice.1, practice.2).

(** The question that is current then. *)
Definition current : Types.MCQ :=
  {| Types.id := "q2"; Types.chapterId := "c1"; Types.topicId := Some "t1";
     Types.question := "2 + 2 = ?"; Types.options := ["3"; "4"; "5"; "6"];
     Types.correctAnswer := 2; Types.explanation := None |}.

(** The sample practice, with the network down for the next remote
    call. *)
Definition offline : State * World :=
  (practice.1,
   with_remote {| db := database; network := [false]; requests := [] |} practice.2).

End Sample.

(** ** What a load finds *)

Module Walkthrough.
Import MCQPractice Spec.

(** What the two queries of a load find: the question documents of the
    chapter, and the ids of the user's bookmark documents of the chapter. *)
Definition chapterQuestions (p : Props) (d : Firestore.Db) : list Types.MCQ :=
  List.map Types.MCQ_of_doc
    (List.filter (Firestore.matches "chapterId" (chapterIs p))
       (map_to_list (Firestore.collection d "mcqs"))).

Definition chapterBookmarks (p : Props) (d : Firestore.Db) : gset string :=
  list_to_set
    (List.map fst
       (List.filter (Firestore.matches "chapterId" (chapterIs p))
          (map_to_list (Firestore.collection d (bookmarksPath p))))).

End Walkthrough.

(** ** Text

    Strings are kept as the bytes of their UTF-8 encoding.
    [String.prototype.trim] removes the white space and line terminators
    of the language from both ends: U+0009 to U+000D, U+0020, U+00A0,
    U+1680, U+2000 to U+200A, U+2028, U+2029, U+202F, U+205F, U+3000 and
    U+FEFF. *)

Module Text.

Definition bytes (codes : list nat) : list Ascii.ascii := List.map Ascii.ascii_of_nat codes.

Definition whiteSpace : list (list Ascii.ascii) :=
  List.map bytes
    [ [9]; [10]; [11]; [12]; [13]; [32]; [194; 160]; [225; 154; 128];
      [226; 128; 128]; [226; 128; 129]; [226; 128; 130]; [226; 128; 131];
      [226; 128; 132]; [226; 128; 133]; [226; 128; 134]; [226; 128; 135];
      [226; 128; 136]; [226; 128; 137]; [226; 128; 138];
      [226; 128; 168]; [226; 128; 169]; [226; 128; 175]; [226; 129; 159];
      [227; 128; 128]; [239; 187; 191] ]%nat.

(** [l] without the prefix [pre], when it starts with it. *)
Fixpoint strip_prefix (pre l : list Ascii.ascii) : option (list Ascii.ascii) :=
  match pre, l with
  | [], _ => Some l
  | a :: pre', b :: l' => if bool_decide (a = b) then strip_prefix pre' l' else None
  | _ :: _, [] => None
  end.

(** [l] without one leading character of [ws], when it starts with one. *)
Fixpoint strip_one (ws : list (list Ascii.ascii)) (l : list Ascii.ascii)
  : option (list Ascii.ascii) :=
  match ws with
  | [] => None
  | w :: ws' =>
      match strip_prefix w l with
      | Some rest => Some rest
      | None => strip_one ws' l
      end
  end.

Fixpoint strip_all (ws : list (list Ascii.ascii)) (fuel : nat) (l : list Ascii.ascii)
  : list Ascii.ascii :=
  match fuel with
  | O => l
  | S fuel' =>
      match strip_one ws l with
      | Some rest => strip_all ws fuel' rest
      | None => l
      end
  end.

Definition trimStart (l : list Ascii.ascii) : list Ascii.ascii :=
  strip_all whiteSpace (length l) l.

(** The encoding is self-synchronising, so the end is trimmed on the
    reversed bytes. *)
Definition trimEnd (l : list Ascii.ascii) : list Ascii.ascii :=
  rev (strip_all (List.map (@rev Ascii.ascii) whiteSpace) (length l) (rev l)).

Definition trim (s : string) : string :=
  string_of_list_ascii (trimEnd (trimStart (list_ascii_of_string s))).

(** [!s.trim()] *)
Definition blank (s : string) : bool := bool_decide (trim s = "").

End Text.

(** ** The sign-in screen ([AuthScreen]) *)

Module AuthScreen.

(** What a rejected call of the identity provider carries: [err.code],
    [err.message] and [String(err)]. *)
Record AuthError := {
  code : option string;
  message : option string;
  asString : string;
}.

Inductive Outcome :=
| Resolves
| Rejects (err : AuthError).

Inductive Call :=
| SignIn (email password : string)
| CreateUser (email password : string)
| UpdateProfile (displayName : string).

(** The identity provider as the screen sees it: the outcomes of the
    calls still to come (an exhausted list resolves), the calls made so
    far (latest first), and the console. *)
Record Provider := {
  outcomes : list Outcome;
  calls : list Call;
  console : list string;
}.

Record State := {
  isLogin : bool;
  email : string;
  password : string;
  name : string;
  loading : bool;
  error : string;
}.

Definition setLoading (v : bool) (s : State) : State :=
  {| isLogin := isLogin s; email := email s; password := password s;
     name := name s; loading := v; error := error s |}.

Definition setError (v : string) (s : State) : State :=
  {| isLogin := isLogin s; email := email s; password := password s;
     name := name s; loading := loading s; error := v |}.

Definition initialState : State :=
  {| isLogin := true; email := ""; password := ""; name := "";
     loading := false; error := "" |}.

Definition request (c : Call) (pr : Provider) : Outcome * Provider :=
  match outcomes pr with
  | [] => (Resolves, {| outcomes := []; calls := c :: calls pr; console := console pr |})
  | o :: rest => (o, {| outcomes := rest; calls := c :: calls pr; console := console pr |})
  end.

Definition console_error (line : string) (pr : Provider) : Provider :=
  {| outcomes := outcomes pr; calls := calls pr; console := console pr ++ [line] |}.

Definition nameMissing : string := "দয়া করে আপনার নাম লিখুন।".

Definition genericError : string := "একটি ত্রুটি হয়েছে। আবার চেষ্টা করুন।".

(** The message of a failure: the generic one unless one of the seven
    known codes replaces it. *)
Definition errorMessage (code : option string) : string :=
  let msg := genericError in
  let msg := if bool_decide (code = Some "auth/invalid-email")
             then "ইমেইল ঠিকানাটি সঠিক নয়" else msg in
  let msg := if bool_decide (code = Some "auth/user-disabled")
             then "ব্যবহারকারী অ্যাকাউন্ট নিষ্ক্রিয় করা হয়েছে" else msg in
  let msg := if bool_decide (code = Some "auth/user-not-found")
             then "এই ইমেইলে কোনো অ্যাকাউন্ট পাওয়া যায়নি" else msg in
  let msg := if bool_decide (code = Some "auth/wrong-password")
             then "ভুল পাসওয়ার্ড দেওয়া হয়েছে" else msg in
  let msg := if bool_decide (code = Some "auth/email-already-in-use")
             then "এই ইমেইলটি ইতিমধ্যেই ব্যবহৃত হয়েছে। লগ ইন করুন।" else msg in
  let msg := if bool_decide (code = Some "auth/weak-password")
             then "পাসওয়ার্ডটি কমপক্ষে ৬ অক্ষরের হতে হবে" else msg in
  let msg := if bool_decide (code = Some "auth/operation-not-allowed")
             then "অ্যাকাউন্ট তৈরি বন্ধ আছে। দয়া করে অ্যাডমিনকে যোগাযোগ করুন।" else msg in
  msg.

(** [err.message || String(err)] *)
Definition describe (err : AuthError) : string :=
  match message err with
  | Some m => if bool_decide (m = "") then asString err else m
  | None => asString err
  end.

Definition handleAuth (s : State) (pr : Provider) : State * Provider :=
  let s := setError "" (setLoading true s) in
  let failed (err : AuthError) (s : State) (pr : Provider) :=
    (setLoading false (setError (errorMessage (code err)) s),
     console_error (describe err) pr) in
  if isLogin s then
    match request (SignIn (email s) (password s)) pr with
    | (Resolves, pr) => (setLoading false s, pr)
    | (Rejects err, pr) => failed err s pr
    end
  else if Text.blank (name s) then
    (setLoading false (setLoading false (setError nameMissing s)), pr)
  else
    match request (CreateUser (email s) (password s)) pr with
    | (Rejects err, pr) => failed err s pr
    | (Resolves, pr) =>
        match request (UpdateProfile (name s)) pr with
        | (Resolves, pr) => (setLoading false s, pr)
        | (Rejects err, pr) => failed err s pr
        end
    end.

(** A call that resolves: the [k]-th of the outcomes to come. *)
Definition resolves (k : nat) (pr : Provider) : bool :=
  match outcomes pr !! k with
  | Some (Rejects _) => false
  | _ => true
  end.

(** The codes with a message of their own. *)
Definition knownCodes : list string :=
  ["auth/invalid-email"; "auth/user-disabled"; "auth/user-not-found"; "auth/wrong-password"; "auth/email-already-in-use"; "auth/weak-password"; "auth/operation-not-allowed"].

End AuthScreen.

(** ** The admin panel: the forms that add records *)

Module AdminForms.
Import Firestore AdminPanel.

(** [addDoc(collection(db, p), data)]: the SDK generates the id [autoId] of
    a new reference and sends a set of [data] to it that is to create the
    document, so that it is rejected when the id is taken.  It is logged
    as the set it sends. *)
Definition addDoc (p : string) (data : Doc) (autoId : string) (r : Remote)
  : Result DocRef * Remote :=
  let ref := doc p autoId in
  let (ok, n) := next_outcome r in
  if ok && negb (bool_decide (is_Some (collection (db r) p !! autoId)))
  then (Ok ref,
        {| db := write_ref ref data false (db r); network := n;
           requests := SetDoc ref data false :: requests r |})
  else (Rejected,
        {| db := db r; network := n;
           requests := SetDoc ref data false :: requests r |}).

(** The state of the chapter, topic and formula forms. *)
Record Forms := {
  topics : list (string * Doc);
  selectedChapterId : string;
  newChapterTitle : string;
  newTopicTitle : string;
  newFormulaTitle : string;
  newFormulaLatex : string;
  newFormulaDescription : string;
}.

Definition setTopics (v : list (string * Doc)) (f : Forms) : Forms :=
  {| topics := v; selectedChapterId := selectedChapterId f;
     newChapterTitle := newChapterTitle f; newTopicTitle := newTopicTitle f;
     newFormulaTitle := newFormulaTitle f; newFormulaLatex := newFormulaLatex f;
     newFormulaDescription := newFormulaDescription f |}.

Definition setNewChapterTitle (v : string) (f : Forms) : Forms :=
  {| topics := topics f; selectedChapterId := selectedChapterId f;
     newChapterTitle := v; newTopicTitle := newTopicTitle f;
     newFormulaTitle := newFormulaTitle f; newFormulaLatex := newFormulaLatex f;
     newFormulaDescription := newFormulaDescription f |}.

Definition setNewTopicTitle (v : string) (f : Forms) : Forms :=
  {| topics := topics f; selectedChapterId := selectedChapterId f;
     newChapterTitle := newChapterTitle f; newTopicTitle := v;
     newFormulaTitle := newFormulaTitle f; newFormulaLatex := newFormulaLatex f;
     newFormulaDescription := newFormulaDescription f |}.

Definition setNewFormulaTitle (v : string) (f : Forms) : Forms :=
  {| topics := topics f; selectedChapterId := selectedChapterId f;
     newChapterTitle := newChapterTitle f; newTopicTitle := newTopicTitle f;
     newFormulaTitle := v; newFormulaLatex := newFormulaLatex f;
     newFormulaDescription := newFormulaDescription f |}.

Definition setNewFormulaLatex (v : string) (f : Forms) : Forms :=
  {| topics := topics f; selectedChapterId := selectedChapterId f;
     newChapterTitle := newChapterTitle f; newTopicTitle := newTopicTitle f;
     newFormulaTitle := newFormulaTitle f; newFormulaLatex := v;
     newFormulaDescription := newFormulaDescription f |}.

Definition setNewFormulaDescription (v : string) (f : Forms) : Forms :=
  {| topics := topics f; selectedChapterId := selectedChapterId f;
     newChapterTitle := newChapterTitle f; newTopicTitle := newTopicTitle f;
     newFormulaTitle := newFormulaTitle f; newFormulaLatex := newFormulaLatex f;
     newFormulaDescription := v |}.

Definition failure (t : string) (s : State) : State :=
  setMsg (Some {| type := error; text := t |}) s.

Definition succeeded (t : string) (s : State) : State :=
  setMsg (Some {| type := success; text := t |}) s.

Definition fetchTopics (chapterId : string) (s : State) (f : Forms) (r : Remote)
  : State * Forms * Remote :=
  if bool_decide (chapterId = "") then (s, setTopics [] f, r)
  else
    let s := setLoading true s in
    match getDocs "topics" "chapterId" (VString chapterId) r with
    | (Ok docs, r) => (setLoading false s, setTopics docs f, r)
    | (Rejected, r) => (setLoading false (failure "Failed to load topics." s), f, r)
    end.

(** [chapters.length > 0 ? Math.max(...chapters.map(c => c.order)) + 1 : 1],
    on the integers: what the code computes when every chapter of the list
    carries an integer [order] below [2^53], as the form writes them,
    where the doubles of the code are exact. *)
Definition nextOrder (chapters : list (string * Doc)) : Z :=
  match List.map order chapters with
  | [] => 1
  | o :: os => foldl JS.Math_max o os + 1
  end.

Definition chapterRecord (subjectId title : string) (n now : Z) : Doc :=
  {[ "subjectId" := VString subjectId;
     "title" := VString title;
     "order" := VNumber n;
     "isLocked" := VBoolean true;
     "mcqCount" := VNumber 0;
     "formulaCount" := VNumber 0;
     "createdAt" := VTimestamp now ]}.

(** [autoId] is the id the SDK generates and [now] is [new Date()].  The
    refresh of the list is started without being awaited; it only reads. *)
Definition handleAddChapter (autoId : string) (now : Z)
    (s : State) (f : Forms) (r : Remote) : State * Forms * Remote :=
  if bool_decide (selectedSubjectId s = "") || Text.blank (newChapterTitle f)
  then (failure "Subject selection and chapter title are required." s, f, r)
  else
    let s := setLoading true s in
    (* Determine the next order number *)
    let n := nextOrder (chapters s) in
    match addDoc "chapters"
            (chapterRecord (selectedSubjectId s) (Text.trim (newChapterTitle f)) n now)
            autoId r with
    | (Ok _, r) =>
        let f := setNewChapterTitle "" f in
        let s := succeeded "Chapter added successfully!" s in
        let (s, r) := fetchChapters (selectedSubjectId s) s r in
        (setLoading false s, f, r)
    | (Rejected, r) => (setLoading false (failure "Failed to add chapter." s), f, r)
    end.

Definition topicRecord (chapterId title : string) (now : Z) : Doc :=
  {[ "chapterId" := VString chapterId;
     "title" := VString title;
     "createdAt" := VTimestamp now ]}.

Definition handleAddTopic (autoId : string) (now : Z)
    (s : State) (f : Forms) (r : Remote) : State * Forms * Remote :=
  if bool_decide (selectedChapterId f = "") || Text.blank (newTopicTitle f)
  then (failure "Chapter selection and topic title are required." s, f, r)
  else
    let s := setLoading true s in
    match addDoc "topics"
            (topicRecord (selectedChapterId f) (Text.trim (newTopicTitle f)) now)
            autoId r with
    | (Ok _, r) =>
        let f := setNewTopicTitle "" f in
        let s := succeeded "Topic added successfully!" s in
        let '(s, f, r) := fetchTopics (selectedChapterId f) s f r in
        (setLoading false s, f, r)
    | (Rejected, r) => (setLoading false (failure "Failed to add topic." s), f, r)
    end.

Definition formulaRecord (chapterId title latex description : string) (now : Z) : Doc :=
  {[ "chapterId" := VString chapterId;
     "title" := VString title;
     "formula_latex" := VString latex;
     "description" := VString description;
     "createdAt" := VTimestamp now ]}.

Definition handleAddFormula (autoId : string) (now : Z)
    (s : State) (f : Forms) (r : Remote) : State * Forms * Remote :=
  if bool_decide (selectedChapterId f = "") || Text.blank (newFormulaTitle f)
     || Text.blank (newFormulaLatex f)
  then (failure "Chapter, title, and formula (LaTeX) are required." s, f, r)
  else
    let s := setLoading true s in
    match addDoc "formulas"
            (formulaRecord (selectedChapterId f) (Text.trim (newFormulaTitle f))
               (Text.trim (newFormulaLatex f)) (Text.trim (newFormulaDescription f)) now)
            autoId r with
    | (Ok _, r) =>
        let f := setNewFormulaTitle "" f in
        let f := setNewFormulaLatex "" f in
        let f := setNewFormulaDescription "" f in
        let s := succeeded "Formula added successfully!" s in
        (setLoading false s, f, r)
    | (Rejected, r) => (setLoading false (failure "Failed to add formula." s), f, r)
    end.

End AdminForms.

(** ** Choosing a chapter ([ChapterSelection]) *)

Module ChapterSelection.
Import Firestore.

Record Props := {
  isQuickRevision : bool;
  isFormulaMode : bool;
}.

(** A chapter of the list is [{ id: doc.id, ...doc.data() }]: its fields
    are read from the document. *)
Definition Chapter : Type := string * Doc.

(** Whether a field, in a condition, counts as true. *)
Definition truthy (v : option Value) : bool :=
  match v with
  | None => false
  | Some (VString s) => negb (bool_decide (s = ""))
  | Some (VNumber z) => negb (z =? 0)
  | Some (VBoolean b) => b
  | Some (VTimestamp _) => true
  | Some (VStrings _) => true
  end.

(** [v === 0] *)
Definition is_zero (v : option Value) : bool :=
  bool_decide (v = Some (VNumber 0)).

Record State := {
  chapters : list Chapter;
  loading : bool;
}.

Definition initialState : State := {| chapters := []; loading := true |}.

(** The effect that loads the chapters of the subject; [console] is the
    log of [console.error]. *)
Definition fetchChapters (subjectId : string) (s : State) (r : Remote)
    (console : list string) : State * Remote * list string :=
  let s := {| chapters := chapters s; loading := true |} in
  match getDocs "chapters" "subjectId" (VString subjectId) r with
  | (Ok fetchedChapters, r) =>
      (* Sort chapters by order property *)
      let fetchedChapters := (JS.sort AdminPanel.by_order fetchedChapters []).1 in
      ({| chapters := fetchedChapters; loading := false |}, r, console)
  | (Rejected, r) =>
      ({| chapters := chapters s; loading := false |}, r,
       console ++ ["Error fetching chapters:"])
  end.

Inductive Effect :=
| Alert (text : string)
| SelectChapter (chapter : Chapter).

(** What a click on a chapter does: nothing, an alert, or
    [onSelectChapter(chapter)]. *)
Definition handleChapterClick (p : Props) (chapter : Chapter) : option Effect :=
  (* Prevent action if chapter is locked and not in formula/revision mode *)
  if negb (isQuickRevision p) && negb (isFormulaMode p) && truthy (chapter.2 !! "isLocked")
  then None
  (* Check for content availability in specific modes *)
  else if isFormulaMode p && is_zero (chapter.2 !! "formulaCount")
  then Some (Alert "Sorry, no formulas available for this chapter yet.")
  else if isQuickRevision p && is_zero (chapter.2 !! "revisionCount")
  then Some (Alert "You have no bookmarked questions for this chapter.")
  else Some (SelectChapter chapter).

End ChapterSelection.

(** ** Further sample states *)

Module Scenario.
Import Firestore.

(** The practice component about to load, with the network up, and with
    the network failing at the second query. *)
Definition starting : MCQPractice.World :=
  MCQPractice.initialWorld (Sample.online []) Sample.tape_swap 1000.

Definition failing : MCQPractice.World :=
  MCQPractice.initialWorld (Sample.online [true; false]) Sample.tape_swap 1000.

(** A sign-up form with a name of two spaces. *)
Definition signup : AuthScreen.State :=
  {| AuthScreen.isLogin := false; AuthScreen.email := "a@b.c";
     AuthScreen.password := "secret"; AuthScreen.name := "  ";
     AuthScreen.loading := false; AuthScreen.error := "" |}.

Definition provider : AuthScreen.Provider :=
  {| AuthScreen.outcomes := []; AuthScreen.calls := []; AuthScreen.console := [] |}.

(** The admin panel with subject [s1] selected and its two chapters
    listed, and the forms filled in for a third chapter and a formula of
    it. *)
Definition panel : AdminPanel.State :=
  {| AdminPanel.loading := false; AdminPanel.msg := None;
     AdminPanel.chapters := [("c1", Sample.chapterDoc "s1" 1); ("c2", Sample.chapterDoc "s1" 2)];
     AdminPanel.selectedSubjectId := "s1" |}.

Definition forms : AdminForms.Forms :=
  {| AdminForms.topics := []; AdminForms.selectedChapterId := "c3";
     AdminForms.newChapterTitle := " Fractions "; AdminForms.newTopicTitle := "";
     AdminForms.newFormulaTitle := "sum"; AdminForms.newFormulaLatex := "a + b";
     AdminForms.newFormulaDescription := "" |}.

(** The panel after the chapter form is sent. *)
Definition added : AdminPanel.State * AdminForms.Forms * Remote :=
  AdminForms.handleAddChapter "c3" 1000 panel forms (Sample.online []).

End Scenario.

(** * Properties *)

(** ** The runtime model *)

Section SortFacts.
Context {A : Type}.
Variable comparefn : A -> A -> JS.Tape -> float * JS.Tape.

(** Inserting moves elements only. *)
Lemma sort_insert_perm (x : A) (l : list A) (t : JS.Tape) :
  (JS.sort_insert comparefn x l t).1 ≡ₚ x :: l.
Proof.
  revert t. induction l as [|y l IH]; intros t; simpl; [done|].
  destruct (comparefn x y t) as [v t1].
  destruct (PrimFloat.ltb 0 v); [|done].
  specialize (IH t1). destruct (JS.sort_insert comparefn x l t1) as [r t2].
  simpl in *. rewrite IH. apply Permutation_swap.
Qed.

(** Whatever the comparator answers, sorting permutes. *)
Lemma sort_perm (l : list A) (t : JS.Tape) :
  (JS.sort comparefn l t).1 ≡ₚ l.
Proof.
  revert t. induction l as [|x l IH]; intros t; simpl; [done|].
  specialize (IH t). destruct (JS.sort comparefn l t) as [s t1]. simpl in IH.
  rewrite sort_insert_perm. by rewrite IH.
Qed.
End SortFacts.

Section SliceFacts.
Context {A : Type}.

(** From the start, a slice is the prefix of the clipped length. *)
Lemma slice_from_start (l : list A) (limit : Z) :
  0 <= limit ->
  JS.slice l 0 limit = take (Z.to_nat (Z.min limit (Z.of_nat (length l)))) l.
Proof.
  intros Hl. unfold JS.slice.
  replace (0 <? 0) with false by done.
  destruct (Z.ltb_spec limit 0) as [?|_]; [lia|].
  rewrite (Z.min_l 0) by lia. simpl. rewrite drop_0. f_equal. lia.
Qed.

Lemma slice_length (l : list A) (limit : Z) :
  0 <= limit ->
  Z.of_nat (length (JS.slice l 0 limit)) = Z.min limit (Z.of_nat (length l)).
Proof.
  intros Hl. rewrite slice_from_start by done. rewrite length_take. lia.
Qed.

Lemma slice_sublist (l : list A) (start end_ : Z) :
  JS.slice l start end_ `sublist_of` l.
Proof.
  unfold JS.slice. etrans; [apply sublist_take|apply sublist_drop].
Qed.
End SliceFacts.

Section HeapFacts.
Context {A : Type}.
Implicit Types (h : gmap JS.ref (list A)) (l : list A) (r : JS.ref).

Lemma deref_insert h r l : JS.deref (<[r := l]> h) r = l.
Proof. unfold JS.deref. by rewrite lookup_insert_eq. Qed.

Lemma deref_insert_ne h r r' l : r ≠ r' -> JS.deref (<[r := l]> h) r' = JS.deref h r'.
Proof. intros. unfold JS.deref. by rewrite lookup_insert_ne. Qed.

(** A new array holds what it was created with ... *)
Lemma deref_alloc h l : JS.deref (JS.alloc h l).2 (JS.alloc h l).1 = l.
Proof. apply deref_insert. Qed.

(** ... and leaves the live arrays alone. *)
Lemma deref_alloc_live h l r :
  r ∈ dom h -> JS.deref (JS.alloc h l).2 r = JS.deref h r.
Proof.
  intros Hr. simpl. apply deref_insert_ne. intros <-.
  by apply (is_fresh (dom h)).
Qed.

End HeapFacts.

Lemma filter_sublist {A} (f : A -> bool) (l : list A) : List.filter f l `sublist_of` l.
Proof.
  induction l as [|x l IH]; simpl; [done|].
  destruct (f x); by constructor.
Qed.

Lemma filter_all {A} (f : A -> bool) (l : list A) (x : A) :
  x ∈ List.filter f l -> f x = true.
Proof. rewrite list_elem_of_In, filter_In. tauto. Qed.

(** ** The session builder *)

Section SetupSession.
Import JS MCQPractice Spec.
Variable p : Props.
Implicit Types (s : State) (w : World) (src : ref) (bookmarks : gset string)
  (mode : FilterMode) (topicId : option string) (limit : Z).

(** The session is the slice of the shuffled filtered set of the source
    array as it was on entry. *)
Lemma setupSession_questions src bookmarks mode topicId limit s w :
  deref (heap (setupSession p src bookmarks mode topicId limit s w).2)
        (questions (setupSession p src bookmarks mode topicId limit s w).1)
  = slice (shuffled p bookmarks mode topicId (deref (heap w) src) (random w)) 0 limit.
Proof.
  unfold shuffled, setupSession, filteredSet, topic_selected, Array_sort,
    Array_slice, Array_filter.
  destruct topicId as [t|]; [destruct (bool_decide (t = "") || bool_decide (t = "all"))|];
    destruct (isQuickRevision p || bool_decide (mode = bookmarked));
    cbn [fst snd alloc];
    rewrite ?deref_insert;
    repeat match goal with
           | |- context [sort ?c ?l ?t] => destruct (sort c l t) eqn:?
           end;
    cbn [fst snd heap questions setQuestions setCurrentQuestionIndex
         setSelectedOption setIsAnswerChecked setSessionResults
         setIsSessionComplete with_heap with_random];
    by rewrite !deref_insert.
Qed.

(** The shuffle permutes the filtered set. *)
Lemma shuffled_perm bookmarks mode topicId (l : list Types.MCQ) (t : Tape) :
  shuffled p bookmarks mode topicId l t ≡ₚ filteredSet p bookmarks mode topicId l.
Proof. apply sort_perm. Qed.

(** The filtered set keeps questions of the source, in their order. *)
Lemma filteredSet_sublist bookmarks mode topicId (l : list Types.MCQ) :
  filteredSet p bookmarks mode topicId l `sublist_of` l.
Proof.
  unfold filteredSet.
  destruct topicId as [t|]; [destruct (bool_decide (t = "") || bool_decide (t = "all"))|];
    destruct (isQuickRevision p || bool_decide (mode = bookmarked));
    repeat (etrans; [apply filter_sublist|]); done.
Qed.

(** What [setupSession] sets and what it leaves. *)
Lemma setupSession_state src bookmarks mode topicId limit s w :
  (setupSession p src bookmarks mode topicId limit s w).1
  = setIsSessionComplete
      (bool_decide (slice (shuffled p bookmarks mode topicId (deref (heap w) src)
                             (random w)) 0 limit = []))
      (setSessionResults [] (setIsAnswerChecked false (setSelectedOption None
         (setCurrentQuestionIndex 0
            (setQuestions
               (questions (setupSession p src bookmarks mode topicId limit s w).1) s))))).
Proof.
  assert (Hlen : forall l : list Types.MCQ,
             (Z.of_nat (length l) =? 0) = bool_decide (l = [])).
  { intros [|x l]; [done|]. simpl length.
    rewrite bool_decide_eq_false_2 by done. apply Z.eqb_neq. lia. }
  pose proof (setupSession_questions src bookmarks mode topicId limit s w) as Hq.
  revert Hq.
  unfold shuffled, setupSession, filteredSet, topic_selected, Array_sort,
    Array_slice, Array_filter, Array_length.
  destruct topicId as [t|]; [destruct (bool_decide (t = "") || bool_decide (t = "all"))|];
    destruct (isQuickRevision p || bool_decide (mode = bookmarked));
    cbn [fst snd alloc];
    rewrite ?deref_insert;
    repeat match goal with
           | |- context [sort ?c ?l ?t] => destruct (sort c l t) eqn:?
           end;
    cbn [fst snd heap questions setQuestions setCurrentQuestionIndex
         setSelectedOption setIsAnswerChecked setSessionResults
         setIsSessionComplete with_heap with_random];
    intros Hq; rewrite Hlen, Hq; reflexivity.
Qed.

(** Building a session touches the heap and the random source only. *)
Lemma setupSession_frame src bookmarks mode topicId limit s w :
  let w' := (setupSession p src bookmarks mode topicId limit s w).2 in
  remote w' = remote w /\ clock w' = clock w /\ timers w' = timers w
  /\ console w' = console w.
Proof.
  unfold setupSession, topic_selected, Array_sort, Array_slice, Array_filter.
  destruct topicId as [t|]; [destruct (bool_decide (t = "") || bool_decide (t = "all"))|];
    destruct (isQuickRevision p || bool_decide (mode = bookmarked));
    cbn [fst snd alloc];
    repeat match goal with
           | |- context [sort ?c ?l ?t] => destruct (sort c l t) eqn:?
           end;
    done.
Qed.

(** With neither filter in force the sort runs on the source array
    itself. *)
Lemma setupSession_aliases src bookmarks mode topicId limit s w :
  topic_selected topicId = None ->
  isQuickRevision p || bool_decide (mode = bookmarked) = false ->
  deref (heap (setupSession p src bookmarks mode topicId limit s w).2) src
  = (sort random_order (deref (heap w) src) (random w)).1.
Proof.
  intros Ht Hm. unfold setupSession, Array_sort, Array_slice.
  rewrite Ht, Hm.
  destruct (sort random_order (deref (heap w) src) (random w)) as [sorted t'].
  cbn [fst snd alloc with_heap with_random heap].
  rewrite deref_insert.
  rewrite deref_insert_ne; [apply deref_insert|].
  intros Heq.
  apply (is_fresh (dom (<[src := sorted]> (heap w)))).
  rewrite Heq, dom_insert. set_solver.
Qed.
End SetupSession.

Lemma submseteq_fmap_NoDup {A B} (f : A -> B) (l k : list A) :
  l ⊆+ k -> NoDup (f <$> k) -> NoDup (f <$> l).
Proof.
  intros [k' Hk]%submseteq_Permutation Hnd.
  rewrite Hk, fmap_app in Hnd. by apply NoDup_app in Hnd as [? _].
Qed.

Section SessionBuilder.
Import JS MCQPractice Spec.
Variable p : Props.

(** Every session is drawn from the filtered set, each question at most as
    often as it occurs there. *)
Lemma session_drawn_from_filtered src bookmarks mode topicId limit s w :
  deref (heap (setupSession p src bookmarks mode topicId limit s w).2)
        (questions (setupSession p src bookmarks mode topicId limit s w).1)
  ⊆+ filteredSet p bookmarks mode topicId (deref (heap w) src).
Proof.
  rewrite setupSession_questions, <- shuffled_perm.
  apply sublist_submseteq, slice_sublist.
Qed.

(** A limit that is not negative bounds the session; a shorter filtered
    set is taken whole. *)
Lemma session_length src bookmarks mode topicId limit s w :
  0 <= limit ->
  Z.of_nat (length (deref (heap (setupSession p src bookmarks mode topicId limit s w).2)
                      (questions (setupSession p src bookmarks mode topicId limit s w).1)))
  = Z.min limit
      (Z.of_nat (length (filteredSet p bookmarks mode topicId (deref (heap w) src)))).
Proof.
  intros Hl. rewrite setupSession_questions, slice_length by done.
  by rewrite (Permutation_length (shuffled_perm p bookmarks mode topicId _ _)).
Qed.

(** The filter panel keeps the limit within 1..100, whatever is typed. *)
Lemma onLimitChange_clamps (parsed : option Z) s :
  1 <= tempLimit (onLimitChange parsed s) <= 100.
Proof. simpl. unfold Math_min, Math_max. lia. Qed.

Lemma onLimitChange_limit (limit : Z) s :
  tempLimit (onLimitChange (Some limit) s) = clamp limit.
Proof.
  simpl. unfold Math_min, Math_max, clamp, or_default.
  destruct limit; lia.
Qed.

(** C2. In bookmarked mode or in the quick-revision context every question
    of the session built by [setupSession] has its id in the bookmark set
    that was passed. *)
Theorem bookmarked_session_within_bookmarks src bookmarks mode topicId limit s w :
  isQuickRevision p = true \/ mode = bookmarked ->
  forall q,
    q ∈ deref (heap (setupSession p src bookmarks mode topicId limit s w).2)
              (questions (setupSession p src bookmarks mode topicId limit s w).1) ->
    Types.id q ∈ bookmarks.
Proof.
  intros Hmode q Hq.
  eapply elem_of_submseteq in Hq; [|apply session_drawn_from_filtered].
  unfold filteredSet in Hq.
  assert (isQuickRevision p || bool_decide (mode = bookmarked) = true) as Hb.
  { destruct Hmode as [->| ->]; [done|]. by rewrite orb_true_r. }
  rewrite Hb in Hq. apply filter_all in Hq. by apply bool_decide_eq_true in Hq.
Qed.
End SessionBuilder.

(** ** The session runner *)

Section SessionRunner.
Import JS MCQPractice Spec.
Variable p : Props.

(** The guard of [handleCheckAnswer]. *)
Lemma handleCheckAnswer_guard s w :
  selectedOption s = None \/ isAnswerChecked s = true ->
  handleCheckAnswer p s w = (s, w).
Proof.
  unfold handleCheckAnswer. intros [-> | Hc]; [done|].
  rewrite Hc. by destruct (selectedOption s).
Qed.

(** An effective check: the question is marked checked, one result is
    appended, one progress write is issued, and the session goes on
    whether or not the write succeeds. *)
Lemma handleCheckAnswer_effective s w selected currentQ :
  selectedOption s = Some selected ->
  isAnswerChecked s = false ->
  currentQuestion s w = Some currentQ ->
  let correct := selected =? Types.correctAnswer currentQ - 1 in
  let result :=
    {| r_questionId := Types.id currentQ; r_question := Types.question currentQ;
       r_options := Types.options currentQ;
       r_correctAnswer := Types.correctAnswer currentQ;
       r_selectedOption := selected; isCorrect := correct;
       r_explanation := Types.explanation currentQ |} in
  (handleCheckAnswer p s w).1
  = setSessionResults (sessionResults s ++ [result]) (setIsAnswerChecked true s)
  /\ Firestore.requests (remote (handleCheckAnswer p s w).2)
     = Firestore.SetDoc (Firestore.doc (progressPath p) (Types.id currentQ))
         (progressRecord p currentQ correct (clock w)) true
       :: Firestore.requests (remote w)
  /\ heap (handleCheckAnswer p s w).2 = heap w.
Proof.
  intros Hs Hc Hq correct result. unfold handleCheckAnswer.
  rewrite Hs, Hc, Hq. fold correct. fold result.
  unfold Firestore.setDoc, Firestore.call.
  destruct (Firestore.next_outcome (remote w)) as [[] n]; done.
Qed.

(** C3. [handleCheckAnswer] does nothing when no option is selected or the
    question is already checked; and invoking it again after any
    invocation changes nothing: the state and the world stay as the first
    invocation left them, so no result is appended and no remote call is
    issued. *)
Theorem handleCheckAnswer_noop_and_idempotent (s : State) (w : World) :
  (selectedOption s = None \/ isAnswerChecked s = true ->
   handleCheckAnswer p s w = (s, w))
  /\ (let once := handleCheckAnswer p s w in
      let twice := handleCheckAnswer p once.1 once.2 in
      twice = once
      /\ sessionResults twice.1 = sessionResults once.1
      /\ Firestore.requests (remote twice.2) = Firestore.requests (remote once.2)).
Proof.
  split; [apply handleCheckAnswer_guard|].
  cut (handleCheckAnswer p (handleCheckAnswer p s w).1 (handleCheckAnswer p s w).2
       = handleCheckAnswer p s w).
  { intros Heq. cbv zeta. by rewrite Heq. }
  destruct (selectedOption s) as [selected|] eqn:Hs.
  2: { rewrite !(handleCheckAnswer_guard s w) by auto. simpl.
       apply handleCheckAnswer_guard; auto. }
  destruct (isAnswerChecked s) eqn:Hc.
  { rewrite !(handleCheckAnswer_guard s w) by auto. simpl.
    apply handleCheckAnswer_guard; auto. }
  destruct (currentQuestion s w) as [currentQ|] eqn:Hq.
  - destruct (handleCheckAnswer_effective s w selected currentQ Hs Hc Hq) as (Hst & _).
    destruct (handleCheckAnswer p s w) as [s1 w1]. simpl in *. subst s1.
    apply handleCheckAnswer_guard. by right.
  - assert (handleCheckAnswer p s w = (s, w)) as Hsame.
    { unfold handleCheckAnswer. by rewrite Hs, Hc, Hq. }
    by rewrite !Hsame.
Qed.

(** C4. A checked answer is recorded with the 0-based selection and the
    1-based correct answer as they are, and it counts as correct exactly
    when the selection equals the correct answer minus one. *)
Theorem recorded_correctness_off_by_one s w selected currentQ :
  selectedOption s = Some selected ->
  isAnswerChecked s = false ->
  currentQuestion s w = Some currentQ ->
  exists result,
    sessionResults (handleCheckAnswer p s w).1 = sessionResults s ++ [result]
    /\ (isCorrect result = true <-> selected = Types.correctAnswer currentQ - 1)
    /\ r_selectedOption result = selected
    /\ r_correctAnswer result = Types.correctAnswer currentQ
    /\ r_questionId result = Types.id currentQ.
Proof.
  intros Hs Hc Hq.
  destruct (handleCheckAnswer_effective s w selected currentQ Hs Hc Hq) as (Hst & _).
  eexists. rewrite Hst. split; [reflexivity|]. simpl.
  repeat split; try apply Z.eqb_eq; done.
Qed.
End SessionRunner.

(** ** The completion screen *)

Section Score.
Import JS MCQPractice Spec.

(** Every score of a session of 1 to 100 questions, computed on doubles as
    the screen does, has been evaluated. *)
Lemma scores_checked_100 : scores_checked 100 = true.
Proof. vm_compute. reflexivity. Qed.

Lemma scores_checked_all (bound n c : nat) :
  scores_checked bound = true -> (1 <= n <= bound)%nat -> (c <= n)%nat ->
  score_checked (Z.of_nat c) (Z.of_nat n) = true.
Proof.
  unfold scores_checked. intros H Hn Hc.
  rewrite forallb_forall in H. specialize (H n ltac:(apply in_seq; lia)).
  rewrite forallb_forall in H. apply H, in_seq. lia.
Qed.

Lemma score_checked_in_range (c n : Z) :
  1 <= n <= 100 -> 0 <= c <= n -> score_checked c n = true.
Proof.
  intros Hn Hc.
  rewrite <- (Z2Nat.id c), <- (Z2Nat.id n) by lia.
  apply (scores_checked_all 100); [apply scores_checked_100|lia|lia].
Qed.
End Score.

(** ** Restarting a session *)

Section Reset.
Import JS MCQPractice Spec.
Variable p : Props.






End Reset.

(** ** Bookmarks *)

Section Bookmarks.
Import JS MCQPractice Spec.
Variable p : Props.

Lemma next_outcome_succeeds (k : nat) (r : Firestore.Remote) :
  Forall (fun ok => ok = true) (take (S k) (Firestore.network r)) ->
  (Firestore.next_outcome r).1 = true
  /\ Forall (fun ok => ok = true) (take k (Firestore.next_outcome r).2).
Proof.
  unfold Firestore.next_outcome. destruct (Firestore.network r) as [|b n]; simpl.
  - intros _. split; [done|]. by rewrite take_nil.
  - intros [-> Hn]%Forall_cons. done.
Qed.

Lemma timers_clear_msg (due : list (Z * Callback)) (c : Z * Callback) s :
  msg (foldl (fun s t => runCallback t.2 s) s (due ++ [c])) = None.
Proof. rewrite foldl_app. simpl. by destruct c as [? []]. Qed.

(** The banner of a toggle goes away once its two seconds have passed. *)
Lemma banner_is_transient s w ms :
  2000 <= ms ->
  msg (elapse ms s (setTimeout ClearMsg 2000 w)).1 = None.
Proof.
  intros Hms. unfold elapse, setTimeout. cbn [fst timers clock].
  rewrite List.filter_app. simpl.
  destruct (Z.leb_spec (clock w + 2000) (clock w + ms)); [|lia].
  apply timers_clear_msg.
Qed.

(** C7. When both remote operations succeed, toggling a question that is
    not bookmarked adds its id to the local set and creates its record;
    toggling it again removes the id and deletes the record; and the local
    set is then what it was before.  The two calls are the ones the
    bookmark button makes. *)
Theorem bookmark_toggle_round_trip (questionId : string) (s : State) (w : World) :
  questionId ∉ userBookmarks s ->
  Forall (fun ok => ok = true) (take 2 (Firestore.network (remote w))) ->
  let first := handleToggleBookmark p questionId false s w in
  let second := handleToggleBookmark p questionId true first.1 first.2 in
  let record (x : World) :=
    Firestore.collection (Firestore.db (remote x)) (bookmarksPath p) !! questionId in
  questionId ∈ userBookmarks first.1
  /\ record first.2 = Some (bookmarkRecord p (clock w))
  /\ (questionId ∉ userBookmarks second.1)
  /\ record second.2 = None
  /\ userBookmarks second.1 = userBookmarks s
  /\ clickBookmark p questionId s w = first
  /\ clickBookmark p questionId first.1 first.2 = second.
Proof.
  intros Hfresh Hnet first second record.
  destruct (next_outcome_succeeds 1 (remote w) Hnet) as [Hok1 Hnet1].
  assert (first = (setMsg (Some {| type := success; text := "Question Bookmarked!" |})
                     (setUserBookmarks (userBookmarks s ∪ {[questionId]}) s),
                   setTimeout ClearMsg 2000
                     (with_remote
                        {| Firestore.db :=
                             Firestore.write_ref (Firestore.doc (bookmarksPath p) questionId)
                               (bookmarkRecord p (clock w)) false (Firestore.db (remote w));
                           Firestore.network := (Firestore.next_outcome (remote w)).2;
                           Firestore.requests :=
                             Firestore.SetDoc (Firestore.doc (bookmarksPath p) questionId)
                               (bookmarkRecord p (clock w)) false
                             :: Firestore.requests (remote w) |} w))) as Hfirst.
  { subst first. unfold handleToggleBookmark, Firestore.setDoc, Firestore.call.
    destruct (Firestore.next_outcome (remote w)) as [ok n]. simpl in Hok1. by subst ok. }
  assert (Hok2 : (Firestore.next_outcome (remote first.2)).1 = true).
  { rewrite Hfirst. cbn [snd setTimeout with_remote remote].
    apply (next_outcome_succeeds 0). exact Hnet1. }
  assert (second.1 = setMsg (Some {| type := success; text := "Bookmark Removed" |})
                       (setUserBookmarks (userBookmarks first.1 ∖ {[questionId]}) first.1)
          /\ Firestore.db (remote second.2)
             = Firestore.delete_ref (Firestore.doc (bookmarksPath p) questionId)
                 (Firestore.db (remote first.2))) as [Hs2 Hdb2].
  { subst second. unfold handleToggleBookmark, Firestore.deleteDoc, Firestore.call.
    destruct (Firestore.next_outcome (remote first.2)) as [ok n]. simpl in Hok2.
    by subst ok. }
  assert (Hclick1 : clickBookmark p questionId s w = first).
  { unfold clickBookmark. by rewrite bool_decide_eq_false_2. }
  assert (Hclick2 : clickBookmark p questionId first.1 first.2 = second).
  { unfold clickBookmark. rewrite bool_decide_eq_true_2; [done|].
    rewrite Hfirst. simpl. set_solver. }
  split; [|split; [|split; [|split; [|split; [|split; done]]]]].
  - rewrite Hfirst. simpl. clear. set_solver.
  - subst record. cbv beta. rewrite Hfirst.
    cbn [snd setTimeout with_remote remote Firestore.db].
    unfold Firestore.write_ref, Firestore.collection, Firestore.doc.
    cbn [Firestore.path Firestore.docId].
    rewrite lookup_insert_eq. cbn [from_option id].
    by rewrite lookup_insert_eq, (right_id_L ∅ (∪)).
  - rewrite Hs2, Hfirst. simpl.
    rewrite elem_of_difference, elem_of_singleton. by intros [_ ?].
  - subst record. cbv beta. rewrite Hdb2.
    unfold Firestore.delete_ref, Firestore.collection, Firestore.doc.
    cbn [Firestore.path Firestore.docId].
    rewrite lookup_insert_eq. cbn [from_option id].
    by rewrite lookup_delete_eq.
  - rewrite Hs2, Hfirst. simpl. apply set_eq. intros x.
    rewrite elem_of_difference, elem_of_union, elem_of_singleton.
    split; [by intros [[?|?] ?]|].
    intros Hx. split; [by left|]. by intros ->.
Qed.

(** C8. When the remote create or delete fails, the local bookmark set and
    the database are as before, the error banner is shown and the timer
    that takes it away after two seconds is armed, and the failed call is
    the only remote call made: nothing is retried. *)
Theorem bookmark_toggle_failure (questionId : string) (isBookmarked : bool)
    (s : State) (w : World) (rest : list bool) :
  Firestore.network (remote w) = false :: rest ->
  let r := handleToggleBookmark p questionId isBookmarked s w in
  userBookmarks r.1 = userBookmarks s
  /\ r.1 = setMsg (Some {| type := error; text := "Failed to update bookmark." |}) s
  /\ timers r.2 = timers w ++ [(clock w + 2000, ClearMsg)]
  /\ (forall ms, 2000 <= ms -> msg (elapse ms r.1 r.2).1 = None)
  /\ Firestore.db (remote r.2) = Firestore.db (remote w)
  /\ (exists call, Firestore.requests (remote r.2) = call :: Firestore.requests (remote w))
  /\ Firestore.network (remote r.2) = rest.
Proof.
  intros Hnet r. subst r.
  unfold handleToggleBookmark, Firestore.setDoc, Firestore.deleteDoc, Firestore.call,
    Firestore.next_outcome.
  rewrite Hnet.
  destruct isBookmarked; cbn [fst snd];
    (repeat split; try done;
     [intros ms Hms; by apply banner_is_transient | by eexists]).
Qed.
End Bookmarks.

(** ** Cascade delete *)

Section CascadeDelete.
Import Firestore AdminPanel.

Lemma collection_delete_ref (ref : DocRef) (d : Db) (p i : string) :
  collection (delete_ref ref d) p !! i
  = if bool_decide (doc p i = ref) then None else collection d p !! i.
Proof.
  unfold delete_ref, collection, doc. destruct ref as [rp ri]. simpl.
  destruct (decide (rp = p)) as [->|Hp].
  - rewrite lookup_insert_eq. simpl.
    destruct (decide (ri = i)) as [->|Hi].
    + by rewrite lookup_delete_eq, bool_decide_eq_true_2.
    + rewrite lookup_delete_ne by done.
      rewrite bool_decide_eq_false_2; [done|]. by intros [= ->].
  - rewrite lookup_insert_ne by done.
    rewrite bool_decide_eq_false_2; [done|]. by intros [= ->].
Qed.

(** A committed batch removes exactly the documents it names. *)
Lemma collection_commit (b : WriteBatch) (d : Db) (p i : string) :
  collection (foldl (fun acc ref => delete_ref ref acc) d b) p !! i
  = if bool_decide (doc p i ∈ b) then None else collection d p !! i.
Proof.
  revert d. induction b as [|ref b IH]; intros d.
  - case_bool_decide as Hin; [by apply elem_of_nil in Hin|done].
  - simpl. rewrite IH, collection_delete_ref.
    repeat case_bool_decide; try done;
      match goal with
      | H : ¬ _ ∈ _ :: _ |- _ => exfalso; apply H; rewrite elem_of_cons; auto
      | H : _ ∈ _ :: _ |- _ => apply elem_of_cons in H as [?|?]; done
      end.
Qed.

Lemma delete_all_queue (p : string) (docs : list (string * Doc)) (b : WriteBatch) :
  delete_all p docs b = b ++ List.map (fun e => doc p e.1) docs.
Proof.
  unfold delete_all, batch_delete. revert b.
  induction docs as [|e docs IH]; intros b; simpl; [by rewrite app_nil_r|].
  by rewrite IH, <- app_assoc.
Qed.

(** The batch names the documents of the cascade and no other. *)
Lemma cascade_batch_names (d : Db) (chapterId p i : string) :
  doc p i ∈ cascade_batch d chapterId <-> in_cascade d chapterId p i = true.
Proof.
  assert (Hfound : forall q : string,
    doc p i ∈ List.map (fun e : string * Doc => doc q e.1)
                (List.filter (matches "chapterId" (VString chapterId))
                   (map_to_list (collection d q)))
    <-> p = q /\ from_option (references chapterId) false (collection d p !! i) = true).
  { intros q. rewrite list_elem_of_In, in_map_iff. split.
    - intros ([j e] & [= <- <-] & [Hin Hm]%filter_In).
      apply list_elem_of_In, elem_of_map_to_list in Hin.
      split; [done|]. by rewrite Hin.
    - intros [<- Href].
      destruct (collection d p !! i) as [e|] eqn:He; [|done].
      exists (i, e). split; [done|]. apply filter_In. split; [|done].
      by apply list_elem_of_In, elem_of_map_to_list. }
  unfold cascade_batch, in_cascade.
  rewrite elem_of_cons, !elem_of_app, !Hfound.
  rewrite orb_true_iff, !andb_true_iff, !orb_true_iff, !bool_decide_eq_true.
  split.
  - intros [[= -> ->]|[[-> ?]|[[-> ?]|[-> ?]]]]; auto 6.
  - intros [[-> ->]|[[[->| ->]| ->] ?]]; auto 6.
Qed.

(** Refreshing the chapter list only reads. *)
Lemma fetchChapters_reads (subjectId : string) (s : State) (r : Remote) :
  db (fetchChapters subjectId s r).2 = db r
  /\ List.filter is_write (requests (fetchChapters subjectId s r).2)
     = List.filter is_write (requests r).
Proof.
  unfold fetchChapters, getDocs, call.
  destruct (bool_decide (subjectId = "")); [done|].
  by destruct (next_outcome r) as [[] n].
Qed.

Lemma handleDeleteChapter_batch (chapterId : string) (d : Db) :
  delete_all "formulas"
    (List.filter (matches "chapterId" (VString chapterId)) (map_to_list (collection d "formulas")))
    (delete_all "mcqs"
       (List.filter (matches "chapterId" (VString chapterId)) (map_to_list (collection d "mcqs")))
       (delete_all "topics"
          (List.filter (matches "chapterId" (VString chapterId))
             (map_to_list (collection d "topics")))
          (batch_delete writeBatch (doc "chapters" chapterId))))
  = cascade_batch d chapterId.
Proof.
  rewrite !delete_all_queue. unfold cascade_batch, batch_delete, writeBatch.
  simpl. by rewrite <- !app_assoc.
Qed.

(** What a delete leaves in the database and which writes it issues,
    by the outcomes of its four remote calls. *)
Lemma handleDeleteChapter_outcome (confirmed : bool) (chapterId chapterTitle : string)
    (s : State) (r : Remote) :
  let out := handleDeleteChapter confirmed chapterId chapterTitle s r in
  db out.2
  = (if confirmed && forallb id (take 4 (network r))
     then foldl (fun acc ref => delete_ref ref acc) (db r) (cascade_batch (db r) chapterId)
     else db r)
  /\ List.filter is_write (requests out.2)
     = (if confirmed && forallb id (take 3 (network r))
        then [Commit (cascade_batch (db r) chapterId)] else [])
       ++ List.filter is_write (requests r).
Proof.
  destruct confirmed; [|done].
  unfold handleDeleteChapter, getDocs, batch_commit, call, next_outcome.
  cbn [negb andb].
  destruct (network r) as [|[] [|[] [|[] [|[] n]]]];
    cbn [network db requests fst snd take forallb id andb List.filter is_write app];
    rewrite ?handleDeleteChapter_batch; try done;
    match goal with
    | |- context [fetchChapters ?a ?b ?c] =>
        destruct (fetchChapters_reads a b c) as [Hdb Hw];
        destruct (fetchChapters a b c) as [s5 r5]
    end;
    cbn [fst snd] in *; by rewrite Hdb, Hw.
Qed.

Lemma all_succeed (l : list bool) :
  forallb id l = true <-> Forall (fun ok => ok = true) l.
Proof.
  induction l as [|b l IH]; simpl; [by split|].
  rewrite andb_true_iff, Forall_cons, IH. by destruct b.
Qed.

Lemma one_fails (l : list bool) :
  forallb id l = false <-> Exists (fun ok => ok = false) l.
Proof.
  induction l as [|b l IH]; simpl.
  - split; [done|]. by intros ?%Exists_nil.
  - rewrite andb_false_iff, Exists_cons, IH. by destruct b.
Qed.

Lemma first_three_of_four (l : list bool) :
  forallb id (take 4 l) = true -> forallb id (take 3 l) = true.
Proof. by destruct l as [|[] [|[] [|[] [|[] ?]]]]. Qed.

(** C9. Deleting a chapter is all or nothing.  Either the database is
    left exactly as it was, or the chapter record and every topic,
    question and formula record that references the chapter are gone and
    every other record is as before.  The removal happens when the deletion
    is confirmed and the three queries and the commit succeed, and then by
    one committed batch naming all these records; when the deletion is
    declined or any of the four remote calls fails, nothing is removed.
    No write other than that one batch is ever issued. *)
Theorem cascade_delete_all_or_nothing (confirmed : bool)
    (chapterId chapterTitle : string) (s : State) (r : Remote) :
  let out := handleDeleteChapter confirmed chapterId chapterTitle s r in
  let removed :=
    forall p i, collection (db out.2) p !! i
                = if in_cascade (db r) chapterId p i then None
                  else collection (db r) p !! i in
  let writes := List.filter is_write (requests out.2) in
  let before := List.filter is_write (requests r) in
  let batch := Commit (cascade_batch (db r) chapterId) in
  (db out.2 = db r \/ (removed /\ writes = batch :: before))
  /\ (confirmed = true -> Forall (fun ok => ok = true) (take 4 (network r)) ->
      removed /\ writes = batch :: before)
  /\ (confirmed = false \/ Exists (fun ok => ok = false) (take 4 (network r)) ->
      db out.2 = db r)
  /\ (writes = before \/ writes = batch :: before).
Proof.
  intros out removed writes before batch.
  destruct (handleDeleteChapter_outcome confirmed chapterId chapterTitle s r)
    as [Hdb Hw].
  fold out in Hdb, Hw. fold writes before in Hw.
  assert (Hall : confirmed && forallb id (take 4 (network r)) = true ->
                 removed /\ writes = batch :: before).
  { intros [-> Hnet]%andb_true_iff. split.
    - intros p i. rewrite Hdb. cbn [andb]. rewrite Hnet, collection_commit.
      destruct (in_cascade (db r) chapterId p i) eqn:Hc.
      + by rewrite bool_decide_eq_true_2 by by apply cascade_batch_names.
      + rewrite bool_decide_eq_false_2; [done|].
        rewrite cascade_batch_names. by rewrite Hc.
    - rewrite Hw. cbn [andb]. by rewrite (first_three_of_four _ Hnet). }
  assert (Hnone : confirmed && forallb id (take 4 (network r)) = false ->
                  db out.2 = db r).
  { intros Hf. by rewrite Hdb, Hf. }
  split; [|split; [|split]].
  - destruct (confirmed && forallb id (take 4 (network r))) eqn:Hc; auto.
  - intros -> Hnet%all_succeed. apply Hall. by rewrite Hnet.
  - intros [->|Hnet%one_fails]; apply Hnone; [done|].
    rewrite Hnet. apply andb_false_r.
  - rewrite Hw. destruct (confirmed && forallb id (take 3 (network r))); auto.
Qed.
End CascadeDelete.

(** ** The shuffle and the cached question list *)

Section InPlaceShuffle.
Import JS MCQPractice Spec.
Variable p : Props.

(** The comparator at work: a draw above one half puts the first argument
    behind the second, and a draw of zero, as of an exhausted tape, leaves
    them. *)
Lemma sort_swaps_the_last_two (pre : list Types.MCQ) (a b : Types.MCQ) :
  sort random_order (pre ++ [a; b]) [0.75%float] = (pre ++ [b; a], []).
Proof.
  induction pre as [|x pre IH].
  - reflexivity.
  - change (sort random_order ((x :: pre) ++ [a; b]) [0.75%float])
      with (let (sorted, t1) := sort random_order (pre ++ [a; b]) [0.75%float] in
            sort_insert random_order x sorted t1).
    rewrite IH. by destruct pre.
Qed.

Lemma ends_differ (l : list Types.MCQ) :
  (2 <= length l)%nat ->
  NoDup (Types.id <$> l) ->
  exists pre a b, l = pre ++ [a; b] /\ a <> b.
Proof.
  intros Hlen Hnd.
  destruct l as [|b l _] using rev_ind; [simpl in Hlen; lia|].
  destruct l as [|a l _] using rev_ind.
  { simpl in Hlen. lia. }
  exists l, a, b. split; [by rewrite <- app_assoc|].
  intros ->. rewrite <- app_assoc, fmap_app in Hnd.
  apply NoDup_app in Hnd as (_ & _ & Hnd). cbn in Hnd.
  apply NoDup_cons in Hnd as [Hin _]. apply Hin. by left.
Qed.

(** C10. With no topic filter and no bookmark filter in force,
    [setupSession] sorts the very array it was given: after the call the
    source array holds the shuffled order, a permutation of what it held,
    while the state still refers to the same cached array.  Resetting the
    session or applying such filters therefore reorders the cached list
    [allQuestions] in place; and reordered it is: for a cached list of two
    or more questions there are draws of the random comparator after which
    the list is not in the order it was in. *)
Theorem shuffle_reorders_cached_list (src : ref) (bookmarks : gset string)
    (mode : FilterMode) (topicId : option string) (limit : Z) (s : State) (w : World) :
  topic_selected topicId = None ->
  isQuickRevision p = false ->
  mode <> bookmarked ->
  let built := setupSession p src bookmarks mode topicId limit s w in
  let sorted := (sort random_order (deref (heap w) src) (random w)).1 in
  deref (heap built.2) src = sorted
  /\ sorted ≡ₚ deref (heap w) src
  /\ allQuestions built.1 = allQuestions s
  /\ (src = allQuestions s -> bookmarks = userBookmarks s -> mode = tempFilterMode s ->
      topicId = tempTopicId s -> limit = tempLimit s ->
      deref (heap (handleResetSession p s w).2) (allQuestions (handleResetSession p s w).1)
      = sorted
      /\ deref (heap (handleApplyFilter p s w).2) (allQuestions (handleApplyFilter p s w).1)
         = sorted)
  /\ ((2 <= length (deref (heap w) src))%nat ->
      NoDup (Types.id <$> deref (heap w) src) ->
      exists t,
        deref (heap (setupSession p src bookmarks mode topicId limit s
                       (with_random t w)).2) src
        <> deref (heap w) src
        /\ (src = allQuestions s -> bookmarks = userBookmarks s ->
            mode = tempFilterMode s -> topicId = tempTopicId s -> limit = tempLimit s ->
            deref (heap (handleResetSession p s (with_random t w)).2)
                  (allQuestions (handleResetSession p s (with_random t w)).1)
            <> deref (heap w) (allQuestions s))).
Proof.
  intros Ht Hq Hm built sorted.
  assert (Hnone : isQuickRevision p || bool_decide (mode = bookmarked) = false).
  { rewrite Hq. by apply bool_decide_eq_false_2. }
  assert (Hsrc : forall s' w',
             deref (heap (setupSession p src bookmarks mode topicId limit s' w').2) src
             = (sort random_order (deref (heap w') src) (random w')).1).
  { intros s' w'. by apply setupSession_aliases. }
  assert (Hall : forall s' w',
             allQuestions (setupSession p src bookmarks mode topicId limit s' w').1
             = allQuestions s').
  { intros s' w'. by rewrite setupSession_state. }
  assert (Hreset : forall w',
             src = allQuestions s -> bookmarks = userBookmarks s ->
             mode = tempFilterMode s -> topicId = tempTopicId s -> limit = tempLimit s ->
             deref (heap (handleResetSession p s w').2)
                   (allQuestions (handleResetSession p s w').1)
             = (sort random_order (deref (heap w') src) (random w')).1).
  { intros w' -> -> -> -> ->. unfold handleResetSession.
    specialize (Hsrc s w'). specialize (Hall s w').
    destruct (setupSession _ _ _ _ _ _ _ _) as [s1 w1]. simpl in *. by rewrite Hall. }
  split; [apply Hsrc|]. split; [apply sort_perm|]. split; [apply Hall|].
  split.
  - intros H1 H2 H3 H4 H5. split; [by apply Hreset|].
    clear Hreset. revert H1 H2 H3 H4 H5. intros -> -> -> -> ->.
    unfold handleApplyFilter.
    match goal with
    | |- context [setupSession _ _ _ _ _ _ ?s' _] =>
        specialize (Hsrc s' w); specialize (Hall s' w)
    end.
    destruct (setupSession _ _ _ _ _ _ _ _) as [s1 w1]. simpl in *. by rewrite Hall.
  - intros Hlen Hnd.
    destruct (ends_differ _ Hlen Hnd) as (pre & a & b & Hl & Hab).
    assert (Hswapped : (sort random_order (deref (heap (with_random [0.75%float] w)) src)
                          (random (with_random [0.75%float] w))).1
                       <> deref (heap w) src).
    { cbn [with_random heap random]. rewrite Hl, sort_swaps_the_last_two. cbn [fst].
      intros Heq%app_inv_head. by injection Heq as -> _. }
    exists [0.75%float]. split; [by rewrite Hsrc|].
    intros H1 H2 H3 H4 H5. rewrite (Hreset _ H1 H2 H3 H4 H5). by rewrite <- H1.
Qed.
End InPlaceShuffle.

(** ** What holds in every reachable state *)

Section Invariant.
Import JS MCQPractice Spec.
Variable p : Props.
Implicit Types (h : gmap ref (list Types.MCQ)) (s : State) (w : World).

Lemma heap_extends_refl h : heap_extends h h.
Proof. by intros r Hr. Qed.

Lemma heap_extends_trans h1 h2 h3 :
  heap_extends h1 h2 -> heap_extends h2 h3 -> heap_extends h1 h3.
Proof.
  intros H12 H23 r Hr. destruct (H12 r Hr) as [Hr2 Hp2].
  destruct (H23 r Hr2) as [Hr3 Hp3]. split; [done|]. by rewrite Hp3.
Qed.

Lemma heap_extends_alloc h (l : list Types.MCQ) : heap_extends h (alloc h l).2.
Proof.
  intros r Hr. split.
  - simpl. rewrite dom_insert. set_solver.
  - by rewrite deref_alloc_live.
Qed.

Lemma heap_extends_sort h r (t : Tape) :
  heap_extends h (<[r := (sort random_order (deref h r) t).1]> h).
Proof.
  intros r' Hr'. split.
  - rewrite dom_insert. set_solver.
  - destruct (decide (r = r')) as [<-|Hne].
    + rewrite deref_insert. apply sort_perm.
    + by rewrite deref_insert_ne.
Qed.

(** Building a session keeps every live array, up to the order of its
    elements. *)
Lemma setupSession_heap_extends src bookmarks mode topicId limit s w :
  heap_extends (heap w) (heap (setupSession p src bookmarks mode topicId limit s w).2).
Proof.
  unfold setupSession, Array_sort, Array_slice, Array_filter.
  destruct (topic_selected topicId) as [t|];
    destruct (isQuickRevision p || bool_decide (mode = bookmarked));
    repeat match goal with
           | |- context [let '(_, _) := alloc ?h ?l in _] =>
               pose proof (heap_extends_alloc h l);
               destruct (alloc h l) as [? ?] eqn:?; cbn [fst snd] in *
           | |- context [sort ?c (deref ?h ?r) ?t] =>
               pose proof (heap_extends_sort h r t);
               destruct (sort c (deref h r) t) as [? ?] eqn:?; cbn [fst snd] in *
           end;
    cbn [fst snd heap with_heap with_random];
    eauto using heap_extends_trans.
Qed.

Lemma setupSession_questions_live src bookmarks mode topicId limit s w :
  questions (setupSession p src bookmarks mode topicId limit s w).1
  ∈ dom (heap (setupSession p src bookmarks mode topicId limit s w).2).
Proof.
  unfold setupSession, Array_sort, Array_slice, Array_filter.
  destruct (topic_selected topicId) as [t|];
    destruct (isQuickRevision p || bool_decide (mode = bookmarked));
    cbn [fst snd alloc];
    repeat match goal with
           | |- context [sort ?c ?l ?t] => destruct (sort c l t) eqn:?
           end;
    cbn [fst snd heap questions setQuestions setCurrentQuestionIndex
         setSelectedOption setIsAnswerChecked setSessionResults
         setIsSessionComplete with_heap with_random];
    rewrite dom_insert; set_solver.
Qed.

(** The part of the invariant that speaks of the cached questions and of
    the limit survives every extension of the heap. *)
Lemma cached_questions_kept h h' (r : ref) :
  heap_extends h h' -> r ∈ dom h -> NoDup (Types.id <$> deref h r) ->
  r ∈ dom h' /\ NoDup (Types.id <$> deref h' r)
  /\ length (deref h' r) = length (deref h r).
Proof.
  intros Hext Hr Hnd. destruct (Hext r Hr) as [Hr' Hp].
  split; [done|]. split; [by rewrite Hp|by rewrite Hp].
Qed.

(** Built with a limit within 0..100 over a live cache of distinct
    questions, a session satisfies the invariant. *)
Lemma setupSession_invariant src bookmarks mode topicId limit s w :
  0 <= limit <= 100 ->
  plain_ids (stored_questions w) ->
  1 <= tempLimit s <= 100 ->
  allQuestions s ∈ dom (heap w) ->
  NoDup (Types.id <$> deref (heap w) (allQuestions s)) ->
  invariant (setupSession p src bookmarks mode topicId limit s w).
Proof.
  intros Hlimit Hplain Htemp Hlive Hnd.
  pose proof (setupSession_state p src bookmarks mode topicId limit s w) as Hst.
  pose proof (setupSession_questions_live src bookmarks mode topicId limit s w) as Hq.
  pose proof (session_length p src bookmarks mode topicId limit s w ltac:(lia)) as Hlen.
  pose proof (setupSession_frame p src bookmarks mode topicId limit s w) as (Hrem & _).
  destruct (cached_questions_kept _ _ (allQuestions s)
              (setupSession_heap_extends src bookmarks mode topicId limit s w) Hlive Hnd)
    as (Hlive' & Hnd' & _).
  destruct (setupSession p src bookmarks mode topicId limit s w) as [s' w'].
  unfold invariant, Array_length, stored_questions in *. cbn [fst snd] in *.
  assert (Hfields : tempLimit s' = tempLimit s /\ allQuestions s' = allQuestions s
                    /\ currentQuestionIndex s' = 0 /\ sessionResults s' = []
                    /\ isAnswerChecked s' = false) by by rewrite Hst.
  destruct Hfields as (-> & -> & -> & -> & ->). rewrite Hrem.
  repeat (split; [done || lia|]).
  simpl. lia.
Qed.

(** Fetched from a store of plain ids, questions are known by their
    document ids, which are distinct. *)
Lemma fetched_ids_distinct (c : Firestore.Collection) (field : string)
    (v : Firestore.Value) :
  plain_ids c ->
  NoDup (Types.id <$> List.map Types.MCQ_of_doc
           (List.filter (Firestore.matches field v) (map_to_list c))).
Proof.
  intros Hplain.
  assert (Hids : Forall (fun e => Types.id (Types.MCQ_of_doc e) = e.1) (map_to_list c)).
  { apply Forall_forall. intros [i e] Hin%elem_of_map_to_list.
    simpl. unfold Types.field_string. by rewrite (Hplain i e Hin). }
  apply (sublist_NoDup _ ((map_to_list c).*1)); [apply NoDup_fst_map_to_list|].
  revert Hids. generalize (map_to_list c).
  intros l. induction l as [|[i e] l IH]; [done|].
  intros [Hi Hl]%Forall_cons. cbn [List.filter].
  destruct (Firestore.matches field v (i, e)).
  - cbn [List.map fmap list_fmap]. rewrite Hi. constructor. by apply IH.
  - constructor. by apply IH.
Qed.

Lemma invariant_view s w s' w' :
  view s' = view s -> heap w' = heap w -> stored_questions w' = stored_questions w ->
  invariant (s, w) -> invariant (s', w').
Proof.
  unfold view, invariant, Array_length. cbn [fst snd].
  by intros [= -> -> -> -> -> ->] -> ->.
Qed.

Lemma elapse_view ms s w :
  view (elapse ms s w).1 = view s /\ heap (elapse ms s w).2 = heap w
  /\ remote (elapse ms s w).2 = remote w.
Proof.
  unfold elapse. cbn [fst snd heap remote]. split; [|done].
  generalize (List.filter (fun t => t.1 <=? clock w + ms) (timers w)).
  intros due. revert s. induction due as [|[? []] due IH]; intros s; [done|].
  simpl. by rewrite IH.
Qed.

(** The component writes under [users/] only: the stored questions stay. *)
Lemma users_path_not_mcqs (rest : string) : "users/" +:+ rest <> "mcqs".
Proof. discriminate. Qed.

Lemma write_ref_elsewhere (ref : Firestore.DocRef) (data : Firestore.Doc)
    (merge : bool) (d : Firestore.Db) (path : string) :
  Firestore.path ref <> path ->
  Firestore.collection (Firestore.write_ref ref data merge d) path
  = Firestore.collection d path.
Proof.
  intros Hne. unfold Firestore.write_ref, Firestore.collection.
  by rewrite lookup_insert_ne.
Qed.

Lemma delete_ref_elsewhere (ref : Firestore.DocRef) (d : Firestore.Db) (path : string) :
  Firestore.path ref <> path ->
  Firestore.collection (Firestore.delete_ref ref d) path = Firestore.collection d path.
Proof.
  intros Hne. unfold Firestore.delete_ref, Firestore.collection.
  by rewrite lookup_insert_ne.
Qed.

Lemma handleCheckAnswer_stored s w :
  stored_questions (handleCheckAnswer p s w).2 = stored_questions w.
Proof.
  unfold handleCheckAnswer, Firestore.setDoc, Firestore.call, stored_questions.
  destruct (selectedOption s); [|done].
  destruct (isAnswerChecked s); [done|].
  destruct (currentQuestion s w); [|done].
  destruct (Firestore.next_outcome (remote w)) as [[] ?]; [|done].
  cbn [fst snd remote with_remote Firestore.db].
  apply write_ref_elsewhere, users_path_not_mcqs.
Qed.

Lemma clickBookmark_view questionId s w :
  view (clickBookmark p questionId s w).1 = view s
  /\ heap (clickBookmark p questionId s w).2 = heap w
  /\ stored_questions (clickBookmark p questionId s w).2 = stored_questions w.
Proof.
  unfold clickBookmark, handleToggleBookmark, Firestore.setDoc, Firestore.deleteDoc,
    Firestore.call, stored_questions.
  destruct (bool_decide _);
    destruct (Firestore.next_outcome (remote w)) as [[] ?];
    cbn [fst snd remote with_remote setTimeout console_error Firestore.db];
    (split; [done|split; [done|]]); try done.
  - apply delete_ref_elsewhere, users_path_not_mcqs.
  - apply write_ref_elsewhere, users_path_not_mcqs.
Qed.

Lemma fetchQuestions_invariant s w :
  invariant (s, w) -> invariant (fetchQuestions p s w).
Proof.
  intros Hinv. unfold fetchQuestions, Firestore.getDocs, Firestore.call.
  destruct (Firestore.next_outcome (remote w)) as [[] n1]; cbn [fst snd];
    [|by apply (invariant_view s w)].
  cbn [with_remote with_heap remote heap].
  set (fetched := List.map Types.MCQ_of_doc _).
  pose proof (heap_extends_alloc (heap w) fetched) as Hext.
  pose proof (deref_alloc (heap w) fetched) as Hnew.
  assert (Hfresh : (alloc (heap w) fetched).1 ∈ dom (alloc (heap w) fetched).2).
  { simpl. rewrite dom_insert. apply elem_of_union. left. by apply elem_of_singleton. }
  destruct (alloc (heap w) fetched) as [r0 h1] eqn:Halloc. cbn [fst snd] in *.
  cbn [with_remote with_heap remote heap].
  assert (Hinv1 : invariant
            (setAllQuestions r0 (setLoading true s),
             with_heap h1 (with_remote
               {| Firestore.db := Firestore.db (remote w); Firestore.network := n1;
                  Firestore.requests :=
                    Firestore.GetDocs "mcqs" "chapterId" (chapterIs p)
                    :: Firestore.requests (remote w) |} w))).
  { unfold invariant, Array_length, stored_questions in *. cbn [fst snd] in *.
    destruct Hinv as (Hplain & Hl & Ha & Hq & Hnd & Hlen & Hrest).
    destruct (Hext _ Hq) as [Hq1 Hp1].
    cbn [tempLimit allQuestions questions currentQuestionIndex sessionResults
         isAnswerChecked setAllQuestions setLoading heap with_heap with_remote
         remote Firestore.db].
    rewrite Hnew, Hp1.
    repeat (split; [done|]).
    split; [by apply fetched_ids_distinct|done]. }
  destruct (Firestore.next_outcome _) as [[] n2]; cbn [fst snd].
  - match goal with
    | |- context [setupSession p ?a ?b ?c ?d ?e ?s1 ?w1] =>
        pose proof (setupSession_invariant a b c d e s1 w1) as Hset;
        pose proof (setupSession_state p a b c d e s1 w1) as Hst;
        destruct (setupSession p a b c d e s1 w1) as [s2 w2]
    end.
    cbn [fst snd] in *.
    apply (invariant_view s2 w2); [done|done|done|].
    unfold invariant in Hinv1. cbn [fst snd] in Hinv1.
    destruct Hinv1 as (Hplain & Hl & Ha & _ & Hnd & _).
    apply Hset; [|exact Hplain|exact Hl|exact Ha|exact Hnd].
    cbn in Hl |- *. lia.
  - revert Hinv1. by apply invariant_view.
Qed.

Lemma handleCheckAnswer_invariant s w :
  invariant (s, w) -> invariant (handleCheckAnswer p s w).
Proof.
  intros Hinv.
  destruct (selectedOption s) as [selected|] eqn:Hs;
    [|by rewrite handleCheckAnswer_guard by auto].
  destruct (isAnswerChecked s) eqn:Hc;
    [by rewrite handleCheckAnswer_guard by auto|].
  destruct (currentQuestion s w) as [currentQ|] eqn:Hq.
  2: { unfold handleCheckAnswer. by rewrite Hs, Hc, Hq. }
  destruct (handleCheckAnswer_effective p s w selected currentQ Hs Hc Hq)
    as (Hst & _ & Hheap).
  pose proof (handleCheckAnswer_stored s w) as Hstored.
  assert (Hin : currentQuestionIndex s < Array_length (heap w) (questions s)).
  { unfold currentQuestion in Hq.
    destruct (Z.ltb_spec (currentQuestionIndex s) 0); [done|].
    apply lookup_lt_Some in Hq. unfold Array_length. lia. }
  destruct (handleCheckAnswer p s w) as [s' w']. cbn [fst snd] in *. subst s'.
  unfold invariant, Array_length in *. cbn [fst snd] in *.
  rewrite Hheap, Hstored, Hc in *.
  destruct Hinv as (Hplain & Hl & Ha & Hq' & Hnd & Hlen & Hi & Hres & _).
  cbn [tempLimit allQuestions questions currentQuestionIndex sessionResults
       isAnswerChecked setSessionResults setIsAnswerChecked].
  rewrite length_app. simpl length.
  repeat (split; [done || lia|]). by left.
Qed.

Lemma handleNext_invariant s w :
  invariant (s, w) -> invariant (handleNext s w, w).
Proof.
  unfold handleNext.
  destruct (Z.ltb_spec (currentQuestionIndex s)
              (Array_length (heap w) (questions s) - 1)) as [Hlt|Hge];
    [|by apply invariant_view].
  unfold invariant, Array_length in *. cbn [fst snd].
  cbn [tempLimit allQuestions questions currentQuestionIndex sessionResults
       isAnswerChecked setCurrentQuestionIndex setSelectedOption setIsAnswerChecked].
  intros (Hplain & Hl & Ha & Hq' & Hnd & Hlen & Hi & Hres & _).
  repeat (split; [done || lia|]).
  split; [destruct (isAnswerChecked s); lia|]. left. lia.
Qed.

(** Every reaction of the component keeps the invariant. *)
Lemma handle_invariant (e : Event) x : invariant x -> invariant (handle p x e).
Proof.
  destruct x as [s w]. intros Hinv.
  destruct e as [|parsed|value|mode| | | |index| | | |questionId|ms]; cbn [handle fst snd].
  - by apply fetchQuestions_invariant.
  - pose proof (onLimitChange_clamps parsed s).
    unfold invariant in *. cbn [fst snd] in *.
    change (allQuestions (onLimitChange parsed s)) with (allQuestions s).
    change (questions (onLimitChange parsed s)) with (questions s).
    change (currentQuestionIndex (onLimitChange parsed s)) with (currentQuestionIndex s).
    change (sessionResults (onLimitChange parsed s)) with (sessionResults s).
    change (isAnswerChecked (onLimitChange parsed s)) with (isAnswerChecked s).
    tauto.
  - revert Hinv. by apply invariant_view.
  - revert Hinv. by apply invariant_view.
  - revert Hinv. by apply invariant_view.
  - unfold handleApplyFilter.
    match goal with
    | |- context [setupSession p ?a ?b ?c ?d ?e ?s1 ?w1] =>
        pose proof (setupSession_invariant a b c d e s1 w1) as Hset;
        destruct (setupSession p a b c d e s1 w1) as [s2 w2]
    end.
    apply (invariant_view s2 w2); [done|done|done|].
    unfold invariant in Hinv. cbn [fst snd] in Hinv.
    destruct Hinv as (Hplain & Hl & Ha & _ & Hnd & _).
    apply Hset; [lia|exact Hplain|exact Hl|exact Ha|exact Hnd].
  - unfold handleOpenFilter, invariant, Array_length, MAX_QUESTIONS_PER_SESSION in *.
    cbn [fst snd] in *.
    cbn [tempLimit allQuestions questions currentQuestionIndex sessionResults
         isAnswerChecked setTempTopicId setTempLimit setShowFilterModal].
    destruct Hinv as (Hplain & Hl & Ha & Hq' & Hnd & Hlen & Hrest).
    split; [done|]. split; [|done].
    destruct (Z.ltb_spec 0 (Z.of_nat (length (deref (heap w) (questions s))))); lia.
  - unfold selectOption. destruct (isAnswerChecked s) eqn:Hc; [done|].
    revert Hinv. by apply invariant_view.
  - by apply handleCheckAnswer_invariant.
  - by apply handleNext_invariant.
  - unfold handleResetSession.
    match goal with
    | |- context [setupSession p ?a ?b ?c ?d ?e ?s1 ?w1] =>
        pose proof (setupSession_invariant a b c d e s1 w1) as Hset;
        destruct (setupSession p a b c d e s1 w1) as [s2 w2]
    end.
    apply (invariant_view s2 w2); [done|done|done|].
    unfold invariant in Hinv. cbn [fst snd] in Hinv.
    destruct Hinv as (Hplain & Hl & Ha & _ & Hnd & _).
    apply Hset; [lia|exact Hplain|exact Hl|exact Ha|exact Hnd].
  - destruct (clickBookmark_view questionId s w) as (Hv & Hh & Hst).
    destruct (clickBookmark p questionId s w) as [s' w']. revert Hinv.
    by apply invariant_view.
  - destruct (elapse_view ms s w) as (Hv & Hh & Hr).
    destruct (elapse ms s w) as [s' w']. revert Hinv.
    apply invariant_view; [done|done|]. unfold stored_questions. simpl in Hr.
    by rewrite Hr.
Qed.

Lemma initial_invariant (r : Firestore.Remote) (t : Tape) (now : Z) :
  plain_ids (Firestore.collection (Firestore.db r) "mcqs") ->
  invariant (initialState, initialWorld r t now).
Proof.
  intros Hplain.
  unfold invariant, Array_length. cbn [fst snd initialWorld heap].
  split; [done|].
  split; [done|]. split; [by apply elem_of_dom|]. split; [by apply elem_of_dom|].
  split; [constructor|]. split; [done|]. split; [done|]. split; [done|].
  right. done.
Qed.

(** The invariant holds in every reachable state. *)
Lemma reachable_invariant x : reachable p x -> invariant x.
Proof.
  intros (r & t & now & events & Hplain & ->). unfold run.
  generalize (initial_invariant r t now Hplain).
  generalize (initialState, initialWorld r t now).
  induction events as [|e events IH]; intros x Hx; simpl; [done|].
  by apply IH, handle_invariant.
Qed.
End Invariant.

(** ** The session builder and the score, in the states that occur *)

Section Occurring.
Import JS MCQPractice Spec.
Variable p : Props.

(** C1. Setting a limit in the filter panel and applying the filters
    builds a session of exactly min(limit clamped to 1..100, size of the
    filtered set) questions; every one of them is drawn from the filtered
    set, none more often than it occurs there; when the source questions
    have distinct ids, so have the questions of the session, and in every
    state the component can reach they have (fetched questions are known
    by their document ids).  This holds for every source list and every
    typed limit, in particular for non-empty lists and limits from 1
    on. *)
Theorem session_size_members_distinct (s : State) (w : World) (limit : Z) :
  let built := handleApplyFilter p (onLimitChange (Some limit) s) w in
  let source := deref (heap w) (allQuestions s) in
  let filtered :=
    filteredSet p (userBookmarks s) (tempFilterMode s) (tempTopicId s) source in
  let session := deref (heap built.2) (questions built.1) in
  Z.of_nat (length session) = Z.min (clamp limit) (Z.of_nat (length filtered))
  /\ (forall q, q ∈ session -> q ∈ filtered)
  /\ session ⊆+ filtered
  /\ (NoDup (Types.id <$> source) -> NoDup (Types.id <$> session))
  /\ (reachable p (s, w) -> NoDup (Types.id <$> session)).
Proof.
  intros built source filtered session.
  assert (Hsession : session
            = deref (heap (setupSession p (allQuestions s) (userBookmarks s)
                             (tempFilterMode s) (tempTopicId s) (clamp limit)
                             (setTempFilterMode (tempFilterMode s)
                                (setTempLimit (clamp limit)
                                   (setSelectedTopicId (tempTopicId s)
                                      (onLimitChange (Some limit) s)))) w).2)
                (questions (setupSession p (allQuestions s) (userBookmarks s)
                              (tempFilterMode s) (tempTopicId s) (clamp limit)
                              (setTempFilterMode (tempFilterMode s)
                                 (setTempLimit (clamp limit)
                                    (setSelectedTopicId (tempTopicId s)
                                       (onLimitChange (Some limit) s)))) w).1)).
  { subst session built. unfold handleApplyFilter.
    rewrite !onLimitChange_limit.
    change (allQuestions (onLimitChange (Some limit) s)) with (allQuestions s).
    change (userBookmarks (onLimitChange (Some limit) s)) with (userBookmarks s).
    change (tempFilterMode (onLimitChange (Some limit) s)) with (tempFilterMode s).
    change (tempTopicId (onLimitChange (Some limit) s)) with (tempTopicId s).
    by destruct (setupSession _ _ _ _ _ _ _ _). }
  assert (Hsub : session ⊆+ filtered).
  { rewrite Hsession. apply session_drawn_from_filtered. }
  assert (Hdistinct : NoDup (Types.id <$> source) -> NoDup (Types.id <$> session)).
  { intros Hnd. apply (submseteq_fmap_NoDup _ _ filtered); [done|].
    eapply (submseteq_fmap_NoDup _ _ source); [|done].
    apply sublist_submseteq, filteredSet_sublist. }
  split; [|split; [|split; [|split]]].
  - rewrite Hsession. apply session_length. unfold clamp. lia.
  - intros q Hq. by eapply elem_of_submseteq.
  - done.
  - done.
  - intros Hreach%reachable_invariant. apply Hdistinct.
    unfold invariant in Hreach. cbn [fst snd] in Hreach. tauto.
Qed.

(** The results never outnumber the questions of a reachable session. *)
Lemma reachable_score_in_range (s : State) (w : World) :
  reachable p (s, w) ->
  Array_length (heap w) (questions s) <= 100
  /\ (Array_length (heap w) (questions s) = 0
      \/ totalCorrect s <= Array_length (heap w) (questions s)).
Proof.
  intros Hreach%reachable_invariant.
  unfold invariant in Hreach. cbn [fst snd] in Hreach.
  destruct Hreach as (_ & _ & _ & _ & _ & Hlen & Hi & Hres & Hin).
  split; [done|].
  assert (totalCorrect s <= Z.of_nat (length (sessionResults s))).
  { unfold totalCorrect. apply inj_le, sublist_length, filter_sublist. }
  destruct (isAnswerChecked s); lia.
Qed.

(** C5. The score of the completion screen is computed from the result
    log: with [c] the number of results marked correct and [n] the number
    of questions of the session, it is the number [0] when [n] is zero,
    without any division being evaluated, and otherwise [(c / n) * 100]
    rendered by [toFixed(1)]: for every session of 1 to 100 questions it is
    a text with one decimal place whose value is within half a tenth of
    the exact percentage, and 14 correct results in a session of 20
    questions render as 70.0.  Every state the component can reach is
    within these bounds, so there the score is always one of the two. *)
Theorem score_rendered (s : State) (w : World) :
  let n := Array_length (heap w) (questions s) in
  let c := Z.of_nat (length (List.filter (fun r => isCorrect r) (sessionResults s))) in
  let one_decimal_place :=
    exists t, score s w = Text (Some (one_decimal t))
              /\ nearest_to_percentage t c n = true in
  (n = 0 -> score s w = Num 0)
  /\ (1 <= n <= 100 -> c <= n -> one_decimal_place)
  /\ (n = 20 -> c = 14 -> score s w = Text (Some "70.0"))
  /\ (reachable p (s, w) -> (n = 0 /\ score s w = Num 0) \/ one_decimal_place).
Proof.
  intros n c one_decimal_place.
  assert (Hc : totalCorrect s = c) by reflexivity.
  assert (Hzero : n = 0 -> score s w = Num 0).
  { unfold score. fold n. by intros ->. }
  assert (Hrange : 1 <= n <= 100 -> c <= n -> one_decimal_place).
  { intros Hn Hle. subst one_decimal_place.
    unfold score. fold n. rewrite Hc. fold (score_text c n).
    assert (0 <= c) by (unfold c; lia).
    pose proof (score_checked_in_range c n Hn ltac:(lia)) as Hok.
    unfold score_checked in Hok.
    destruct (score_tenths c n) as [t|]; [|done].
    apply andb_true_iff in Hok as [Htext Hnear].
    apply bool_decide_eq_true in Htext.
    exists t. rewrite Htext.
    destruct (Z.ltb_spec 0 n); [done|lia]. }
  split; [done|]. split; [done|]. split.
  - unfold score. fold n. rewrite Hc. fold (score_text c n).
    intros -> ->. vm_compute. reflexivity.
  - intros [Hlen Hle]%reachable_score_in_range. fold n in Hlen, Hle.
    rewrite Hc in Hle.
    assert (0 <= n) by (unfold n, Array_length; lia).
    destruct (decide (n = 0)) as [Hn|Hn]; [left; auto|].
    right. apply Hrange; lia.
Qed.
End Occurring.

(** ** The properties at work on the sample data *)

Section Worked.
Import JS MCQPractice Spec Sample.

(** Quick revision of a user with one bookmark: the hypothesis of C2 holds
    and the session stays within the bookmarks. *)
Lemma bookmarked_session_witness :
  (isQuickRevision (props "u1" true) = true \/ all = bookmarked)
  /\ forall q,
       q ∈ deref (heap (setupSession (props "u1" true) (allQuestions practice.1)
                          {[ "q2" ]} all None 20 practice.1 practice.2).2)
                 (questions (setupSession (props "u1" true) (allQuestions practice.1)
                               {[ "q2" ]} all None 20 practice.1 practice.2).1) ->
       Types.id q ∈ ({[ "q2" ]} : gset string).
Proof.
  split; [left; reflexivity|].
  apply (bookmarked_session_within_bookmarks (props "u1" true)).
  left. reflexivity.
Defined.

(** Checking the first answer of the sample practice. *)
Lemma recorded_correctness_witness :
  selectedOption answering.1 = Some 1
  /\ isAnswerChecked answering.1 = false
  /\ currentQuestion answering.1 answering.2 = Some current
  /\ exists result,
       sessionResults (handleCheckAnswer (props "u1" false) answering.1 answering.2).1
       = sessionResults answering.1 ++ [result]
       /\ (isCorrect result = true <-> 1 = Types.correctAnswer current - 1)
       /\ r_selectedOption result = 1
       /\ r_correctAnswer result = Types.correctAnswer current
       /\ r_questionId result = Types.id current.
Proof.
  assert (H1 : selectedOption answering.1 = Some 1) by (vm_compute; reflexivity).
  assert (H2 : isAnswerChecked answering.1 = false) by (vm_compute; reflexivity).
  assert (H3 : currentQuestion answering.1 answering.2 = Some current)
    by (vm_compute; reflexivity).
  split; [exact H1|]. split; [exact H2|]. split; [exact H3|].
  exact (recorded_correctness_off_by_one (props "u1" false) _ _ 1 current H1 H2 H3).
Defined.

(** Bookmarking and un-bookmarking question [q1] with the network up. *)
Lemma bookmark_round_trip_witness :
  ("q1" ∉ userBookmarks practice.1)
  /\ Forall (fun ok => ok = true) (take 2 (Firestore.network (remote practice.2)))
  /\ userBookmarks
       (handleToggleBookmark (props "u1" false) "q1" true
          (handleToggleBookmark (props "u1" false) "q1" false practice.1 practice.2).1
          (handleToggleBookmark (props "u1" false) "q1" false practice.1 practice.2).2).1
     = userBookmarks practice.1.
Proof.
  assert (H1 : "q1" ∉ userBookmarks practice.1).
  { intros H. vm_compute in H. discriminate H. }
  assert (H2 : Forall (fun ok => ok = true)
                 (take 2 (Firestore.network (remote practice.2)))).
  { vm_compute. constructor. }
  split; [exact H1|]. split; [exact H2|].
  exact (proj1 (proj2 (proj2 (proj2 (proj2
           (bookmark_toggle_round_trip (props "u1" false) "q1" _ _ H1 H2)))))).
Defined.

(** Bookmarking with the network down. *)
Lemma bookmark_failure_witness :
  Firestore.network (remote offline.2) = [false]
  /\ userBookmarks (handleToggleBookmark (props "u1" false) "q1" false
                      offline.1 offline.2).1
     = userBookmarks offline.1.
Proof.
  assert (H1 : Firestore.network (remote offline.2) = [false]) by reflexivity.
  split; [exact H1|].
  exact (proj1 (bookmark_toggle_failure (props "u1" false) "q1" false _ _ [] H1)).
Defined.

(** Resetting the sample practice, which has no filter in force and three
    cached questions. *)
Lemma shuffle_reorders_witness :
  topic_selected None = None
  /\ isQuickRevision (props "u1" false) = false
  /\ all <> bookmarked
  /\ (2 <= length (deref (heap practice.2) (allQuestions practice.1)))%nat
  /\ NoDup (Types.id <$> deref (heap practice.2) (allQuestions practice.1))
  /\ exists t,
       deref (heap (setupSession (props "u1" false) (allQuestions practice.1)
                      (userBookmarks practice.1) all None 20 practice.1
                      (with_random t practice.2)).2)
             (allQuestions practice.1)
       <> deref (heap practice.2) (allQuestions practice.1).
Proof.
  assert (H3 : all <> bookmarked) by discriminate.
  assert (H4 : (2 <= length (deref (heap practice.2) (allQuestions practice.1)))%nat).
  { vm_compute. lia. }
  assert (H5 : NoDup (Types.id <$> deref (heap practice.2) (allQuestions practice.1))).
  { apply (bool_decide_unpack (NoDup _)). vm_compute. exact I. }
  split; [reflexivity|]. split; [reflexivity|]. split; [exact H3|].
  split; [exact H4|]. split; [exact H5|].
  destruct (proj2 (proj2 (proj2 (proj2
              (shuffle_reorders_cached_list (props "u1" false) (allQuestions practice.1)
                 (userBookmarks practice.1) all None 20 practice.1 practice.2
                 eq_refl eq_refl H3)))) H4 H5) as [t [Ht _]].
  exists t. exact Ht.
Defined.


(** The part of C6 that is left open.  With topic [t2] applied, the panel
    is opened, topic [t1] is chosen and the panel is closed without
    applying; a reset then builds a session of topic [t1], while the
    applied topic is still [t2]. *)
Example reset_after_unapplied_edit :
  let x := run (props "u1" false)
             [TopicChange "t2"; ApplyFilter; OpenFilter; TopicChange "t1"; CloseFilter;
              SelectOption 0; CheckAnswer; Next; ResetSession] practice in
  selectedTopicId x.1 = Some "t2"
  /\ Types.topicId <$> deref (heap x.2) (questions x.1) = [Some "t1"].
Proof. vm_compute. done. Qed.

(** The sample practice is a state the component reaches, by loading, and
    so is the state after answering, moving on and resetting. *)
Example practice_is_reachable :
  reachable (props "u1" false) practice
  /\ reachable (props "u1" false)
       (run (props "u1" false) [SelectOption 1; CheckAnswer; Next; ResetSession] practice).
Proof.
  split.
  - exists (online []), tape_swap, 1000, [Fetch].
    split; [by apply (bool_decide_unpack (map_Forall _ _)); vm_compute|].
    vm_compute. reflexivity.
  - exists (online []), tape_swap, 1000,
      [Fetch; SelectOption 1; CheckAnswer; Next; ResetSession].
    split; [by apply (bool_decide_unpack (map_Forall _ _)); vm_compute|].
    vm_compute. reflexivity.
Qed.

(** Two right answers and a wrong one on the three questions of the sample
    practice score 66.7; the revision without bookmarks scores the number
    0. *)
Example sample_scores :
  let finished :=
    run (props "u1" false)
      [SelectOption 1; CheckAnswer; Next; SelectOption 1; CheckAnswer; Next;
       SelectOption 0; CheckAnswer; Next] practice in
  isSessionComplete finished.1 = true
  /\ totalCorrect finished.1 = 2
  /\ score finished.1 finished.2 = Text (Some "66.7")
  /\ score revision_without_bookmarks.1 revision_without_bookmarks.2 = Num 0.
Proof. vm_compute. repeat split. Qed.

(** A limit of 2 on the three questions of the sample chapter. *)
Example session_of_two :
  length (deref (heap (handleApplyFilter (props "u1" false)
                         (onLimitChange (Some 2) practice.1) practice.2).2)
                (questions (handleApplyFilter (props "u1" false)
                              (onLimitChange (Some 2) practice.1) practice.2).1))
  = 2%nat.
Proof. vm_compute. reflexivity. Qed.

(** Deleting chapter [c1] of the sample removes its seven records in one
    batch and leaves chapter [c2] with its records. *)
Example sample_cascade :
  let out := AdminPanel.handleDeleteChapter true "c1" "Arithmetic"
               {| AdminPanel.loading := false; AdminPanel.msg := None;
                  AdminPanel.chapters := []; AdminPanel.selectedSubjectId := "s1" |}
               (online []) in
  let ids (path : string) :=
    (map_to_list (Firestore.collection (Firestore.db out.2) path)).*1 in
  length (AdminPanel.cascade_batch database "c1") = 7%nat
  /\ ids "chapters" = ["c2"] /\ ids "topics" = ["t3"] /\ ids "mcqs" = ["q4"]
  /\ ids "formulas" = ["f2"] /\ ids "users/u1/bookmarks" = ["q2"].
Proof. vm_compute. repeat split. Qed.
End Worked.

(** * Further properties of the practice component *)

(** ** Loading *)

Section Loading.
Import JS MCQPractice Spec.
Variable p : Props.

(** X1. Loading only reads: whatever the outcome of its queries, the
    database is as before, no writing request is issued, at most two
    requests are made, and the loading flag is down at the end. *)
Theorem fetchQuestions_only_reads (s : State) (w : World) :
  let r := fetchQuestions p s w in
  loading r.1 = false
  /\ Firestore.db (remote r.2) = Firestore.db (remote w)
  /\ List.filter Firestore.is_write (Firestore.requests (remote r.2))
     = List.filter Firestore.is_write (Firestore.requests (remote w))
  /\ (length (Firestore.requests (remote r.2))
      <= length (Firestore.requests (remote w)) + 2)%nat.
Proof.
  unfold fetchQuestions, Firestore.getDocs, Firestore.call.
  destruct (Firestore.next_outcome (remote w)) as [[] n1]; cbn [fst snd];
    [|simpl; repeat split; lia].
  cbn [with_remote with_heap remote heap].
  destruct (alloc (heap w) _) as [r0 h1].
  cbn [with_remote with_heap remote heap].
  destruct (Firestore.next_outcome _) as [[] n2]; cbn [fst snd];
    [|simpl; repeat split; lia].
  match goal with
  | |- context [setupSession p ?a ?b ?c ?d ?e ?s1 ?w1] =>
      pose proof (setupSession_frame p a b c d e s1 w1) as (Hrem & _);
      destruct (setupSession p a b c d e s1 w1) as [s2 w2]
  end.
  cbn [fst snd] in *. rewrite Hrem. simpl. repeat split; lia.
Qed.

Lemma chapterQuestions_of_chapter (d : Firestore.Db) (q : Types.MCQ) :
  q ∈ Walkthrough.chapterQuestions p d ->
  Types.chapterId q = Types.chapter_id (chapter p).
Proof.
  unfold Walkthrough.chapterQuestions.
  rewrite list_elem_of_In, in_map_iff.
  intros ([i e] & <- & [_ Hm]%filter_In).
  unfold Firestore.matches, chapterIs in Hm. apply bool_decide_eq_true in Hm.
  simpl in *. unfold Types.field_string. by rewrite Hm.
Qed.

(** What a load leaves when both queries succeed. *)
Lemma fetchQuestions_loaded (s : State) (w : World) :
  Forall (fun ok => ok = true) (take 2 (Firestore.network (remote w))) ->
  exists r0 h1 w1,
    alloc (heap w) (Walkthrough.chapterQuestions p (Firestore.db (remote w))) = (r0, h1)
    /\ heap w1 = h1 /\ random w1 = random w
    /\ fetchQuestions p s w
       = (setLoading false
            (setupSession p r0 (Walkthrough.chapterBookmarks p (Firestore.db (remote w)))
               (tempFilterMode s) (tempTopicId s) (tempLimit s)
               (setUserBookmarks
                  (Walkthrough.chapterBookmarks p (Firestore.db (remote w)))
                  (setAllQuestions r0 (setLoading true s))) w1).1,
          (setupSession p r0 (Walkthrough.chapterBookmarks p (Firestore.db (remote w)))
             (tempFilterMode s) (tempTopicId s) (tempLimit s)
             (setUserBookmarks
                (Walkthrough.chapterBookmarks p (Firestore.db (remote w)))
                (setAllQuestions r0 (setLoading true s))) w1).2).
Proof.
  intros Hnet.
  destruct (next_outcome_succeeds 1 (remote w) Hnet) as [Hok1 Hnet1].
  unfold fetchQuestions, Firestore.getDocs, Firestore.call.
  destruct (Firestore.next_outcome (remote w)) as [ok1 n1]. cbn [fst snd] in *.
  subst ok1. cbn [with_remote with_heap remote heap].
  fold (Walkthrough.chapterQuestions p (Firestore.db (remote w))).
  destruct (alloc (heap w) _) as [r0 h1] eqn:Ha.
  cbn [with_remote with_heap remote heap Firestore.db].
  unfold Firestore.next_outcome at 1. cbn [Firestore.network].
  assert (Hok2 : match n1 with [] => (true, []) | b :: n => (b, n) end
                 = (true, match n1 with [] => [] | _ :: n => n end)).
  { destruct n1 as [|b n]; [done|]. apply Forall_cons in Hnet1 as [-> _]. done. }
  rewrite Hok2. cbn [fst snd with_remote remote Firestore.db].
  fold (Walkthrough.chapterBookmarks p (Firestore.db (remote w))).
  change (tempFilterMode (setUserBookmarks _ _)) with (tempFilterMode s).
  change (tempTopicId (setUserBookmarks _ _)) with (tempTopicId s).
  change (tempLimit (setUserBookmarks _ _)) with (tempLimit s).
  match goal with
  | |- context [setupSession p r0 _ _ _ _ _ ?W] => exists r0, h1, W
  end.
  split; [reflexivity|]. split; [reflexivity|]. split; [reflexivity|].
  by destruct (setupSession _ _ _ _ _ _ _ _).
Qed.

(** X2. When both queries succeed, the cache holds exactly the stored
    questions of the chapter, each once, up to the order the first shuffle
    may have given them; the bookmark set is the set of the user's bookmark
    documents of the chapter; and every question of the cache and of the
    first session belongs to the chapter. *)
Theorem fetchQuestions_caches_the_chapter (s : State) (w : World) :
  Forall (fun ok => ok = true) (take 2 (Firestore.network (remote w))) ->
  let r := fetchQuestions p s w in
  let cache := deref (heap r.2) (allQuestions r.1) in
  let session := deref (heap r.2) (questions r.1) in
  cache ≡ₚ Walkthrough.chapterQuestions p (Firestore.db (remote w))
  /\ userBookmarks r.1 = Walkthrough.chapterBookmarks p (Firestore.db (remote w))
  /\ (forall q, q ∈ cache -> Types.chapterId q = Types.chapter_id (chapter p))
  /\ (forall q, q ∈ session -> Types.chapterId q = Types.chapter_id (chapter p))
  /\ session ⊆+ filteredSet p (userBookmarks r.1) (tempFilterMode s) (tempTopicId s)
                  (Walkthrough.chapterQuestions p (Firestore.db (remote w))).
Proof.
  intros Hnet r cache session.
  destruct (fetchQuestions_loaded s w Hnet) as (r0 & h1 & w1 & Ha & Hh & _ & Hr).
  set (fetched := Walkthrough.chapterQuestions p (Firestore.db (remote w))) in *.
  set (marks := Walkthrough.chapterBookmarks p (Firestore.db (remote w))) in *.
  set (s1 := setUserBookmarks marks (setAllQuestions r0 (setLoading true s))) in *.
  pose proof (setupSession_state p r0 marks (tempFilterMode s) (tempTopicId s)
                (tempLimit s) s1 w1) as Hst.
  pose proof (setupSession_heap_extends p r0 marks (tempFilterMode s) (tempTopicId s)
                (tempLimit s) s1 w1) as Hext.
  pose proof (session_drawn_from_filtered p r0 marks (tempFilterMode s) (tempTopicId s)
                (tempLimit s) s1 w1) as Hsub.
  assert (Hr0 : deref (heap w1) r0 = fetched).
  { rewrite Hh. pose proof (deref_alloc (heap w) fetched) as Hd. by rewrite Ha in Hd. }
  assert (Hlive : r0 ∈ dom (heap w1)).
  { rewrite Hh. assert (h1 = (alloc (heap w) fetched).2) as -> by by rewrite Ha.
    assert (r0 = (alloc (heap w) fetched).1) as -> by by rewrite Ha.
    simpl. rewrite dom_insert. apply elem_of_union. left. by apply elem_of_singleton. }
  destruct (Hext r0 Hlive) as [_ Hperm]. rewrite Hr0 in Hperm, Hsub.
  assert (Hcache : cache ≡ₚ fetched).
  { subst cache r. rewrite Hr. cbn [fst snd]. rewrite Hst. exact Hperm. }
  assert (Hsession : session ⊆+ filteredSet p marks (tempFilterMode s) (tempTopicId s) fetched).
  { subst session r. rewrite Hr. cbn [fst snd]. exact Hsub. }
  assert (Hmarks : userBookmarks r.1 = marks).
  { subst r. rewrite Hr. cbn [fst snd]. by rewrite Hst. }
  split; [done|]. split; [done|]. split; [|split].
  - intros q Hq. rewrite Hcache in Hq. by apply chapterQuestions_of_chapter in Hq.
  - intros q Hq. eapply elem_of_submseteq in Hq; [|exact Hsession].
    eapply elem_of_submseteq in Hq;
      [|apply sublist_submseteq, filteredSet_sublist].
    by apply chapterQuestions_of_chapter in Hq.
  - by rewrite Hmarks.
Qed.

(** X3. When the questions arrive but the bookmark query fails, the load
    stops half way: the cache holds the fetched questions, yet no session
    is built from them and the bookmark set is not touched; the failure is
    only logged. *)
Theorem fetchQuestions_half_loaded (s : State) (w : World) (rest : list bool) :
  Firestore.network (remote w) = true :: false :: rest ->
  questions s ∈ dom (heap w) ->
  let r := fetchQuestions p s w in
  deref (heap r.2) (allQuestions r.1)
  = Walkthrough.chapterQuestions p (Firestore.db (remote w))
  /\ questions r.1 = questions s
  /\ deref (heap r.2) (questions r.1) = deref (heap w) (questions s)
  /\ userBookmarks r.1 = userBookmarks s
  /\ isSessionComplete r.1 = isSessionComplete s
  /\ sessionResults r.1 = sessionResults s
  /\ loading r.1 = false
  /\ console r.2 = console w ++ ["Error fetching data:"].
Proof.
  intros Hnet Hlive.
  unfold fetchQuestions, Firestore.getDocs, Firestore.call, Firestore.next_outcome.
  rewrite Hnet. cbn [fst snd with_remote with_heap remote heap Firestore.db
                     Firestore.network].
  fold (Walkthrough.chapterQuestions p (Firestore.db (remote w))).
  set (fetched := Walkthrough.chapterQuestions p (Firestore.db (remote w))).
  pose proof (deref_alloc (heap w) fetched) as Hnew.
  pose proof (deref_alloc_live (heap w) fetched _ Hlive) as Hold.
  destruct (alloc (heap w) fetched) as [r0 h1].
  cbn [fst snd with_remote with_heap remote heap Firestore.db Firestore.network] in *.
  done.
Qed.
End Loading.

(** ** Bounds that hold throughout *)

Section Bounds.
Import JS MCQPractice Spec.
Variable p : Props.

(** X5. In every state the component can reach, whatever is typed into
    the limit field and however often the filter panel is opened, the
    limit is within 1..100 and the session has at most as many questions
    as the limit allows at most, 100. *)
Theorem limit_and_session_bounded (s : State) (w : World) :
  reachable p (s, w) ->
  1 <= tempLimit s <= 100
  /\ Array_length (heap w) (questions s) <= 100.
Proof.
  intros Hreach%reachable_invariant.
  unfold invariant in Hreach. cbn [fst snd] in Hreach. tauto.
Qed.

(** X6. In every reachable state with a session that is not empty, the
    current index points at a question of the session, so that the
    current question is defined, and no more answers are logged than
    questions have been reached. *)
Theorem current_question_defined (s : State) (w : World) :
  reachable p (s, w) ->
  0 < Array_length (heap w) (questions s) ->
  0 <= currentQuestionIndex s < Array_length (heap w) (questions s)
  /\ is_Some (currentQuestion s w)
  /\ totalAttempted s <= currentQuestionIndex s + 1
  /\ totalAttempted s <= Array_length (heap w) (questions s).
Proof.
  intros Hreach%reachable_invariant Hlen.
  unfold invariant in Hreach. cbn [fst snd] in Hreach.
  destruct Hreach as (_ & _ & _ & _ & _ & _ & Hi & Hres & Hin).
  unfold Array_length, totalAttempted, currentQuestion in *.
  assert (currentQuestionIndex s
          < Z.of_nat (length (deref (heap w) (questions s)))) by lia.
  split; [lia|]. split.
  - destruct (Z.ltb_spec (currentQuestionIndex s) 0); [lia|].
    apply lookup_lt_is_Some_2. lia.
  - destruct (isAnswerChecked s); lia.
Qed.
End Bounds.

(** ** What a checked answer and a toggled bookmark write *)

Section Writes.
Import JS MCQPractice Spec.
Variable p : Props.

(** X7. The session does not wait for the progress record: the state
    after a check is the same whatever the store holds and whether or not
    the write succeeds; a failed write leaves the database as it was and is
    only logged. *)
Theorem check_proceeds_without_persistence (s : State) (w : World)
    (r : Firestore.Remote) :
  (handleCheckAnswer p s (with_remote r w)).1 = (handleCheckAnswer p s w).1
  /\ (forall rest, Firestore.network (remote w) = false :: rest ->
      Firestore.db (remote (handleCheckAnswer p s w).2) = Firestore.db (remote w)).
Proof.
  split.
  - unfold handleCheckAnswer, currentQuestion, Firestore.setDoc, Firestore.call.
    cbn [heap with_remote remote clock].
    destruct (selectedOption s); [|done].
    destruct (isAnswerChecked s); [done|].
    destruct (if currentQuestionIndex s <? 0 then _ else _); [|done].
    by destruct (Firestore.next_outcome r) as [[] ?],
                (Firestore.next_outcome (remote w)) as [[] ?].
  - intros rest Hnet.
    unfold handleCheckAnswer, Firestore.setDoc, Firestore.call, Firestore.next_outcome.
    rewrite Hnet.
    destruct (selectedOption s); [|done].
    destruct (isAnswerChecked s); [done|].
    by destruct (currentQuestion s w).
Qed.

(** X8. A progress write that succeeds is an upsert of the record of the
    current question and of nothing else: the five fields it sets hold the
    new values, with an attempt count of 1 whatever was stored, every
    other field of an existing record is kept, and every other document of
    the store is as before. *)
Theorem progress_is_upserted (s : State) (w : World) (selected : Z)
    (currentQ : Types.MCQ) :
  selectedOption s = Some selected ->
  isAnswerChecked s = false ->
  currentQuestion s w = Some currentQ ->
  (Firestore.next_outcome (remote w)).1 = true ->
  let d' := Firestore.db (remote (handleCheckAnswer p s w).2) in
  let d := Firestore.db (remote w) in
  let new := progressRecord p currentQ (selected =? Types.correctAnswer currentQ - 1)
               (clock w) in
  let old := default ∅ (Firestore.collection d (progressPath p) !! Types.id currentQ) in
  Firestore.collection d' (progressPath p) !! Types.id currentQ = Some (new ∪ old)
  /\ (new ∪ old) !! "attemptCount" = Some (Firestore.VNumber 1)
  /\ (new ∪ old) !! "isCorrect"
     = Some (Firestore.VBoolean (selected =? Types.correctAnswer currentQ - 1))
  /\ (forall f, new !! f = None -> (new ∪ old) !! f = old !! f)
  /\ (forall path i, (path, i) <> (progressPath p, Types.id currentQ) ->
      Firestore.collection d' path !! i = Firestore.collection d path !! i).
Proof.
  intros Hs Hc Hq Hok d' d new old.
  assert (Hd' : d' = Firestore.write_ref (Firestore.doc (progressPath p) (Types.id currentQ))
                       new true d).
  { subst d'. unfold handleCheckAnswer, Firestore.setDoc, Firestore.call.
    rewrite Hs, Hc, Hq.
    destruct (Firestore.next_outcome (remote w)) as [ok n]. simpl in Hok. by subst ok. }
  rewrite Hd'. unfold Firestore.write_ref, Firestore.collection, Firestore.doc.
  cbn [Firestore.path Firestore.docId].
  split; [|split; [|split; [|split]]].
  - rewrite lookup_insert_eq. cbn [from_option id]. by rewrite lookup_insert_eq.
  - apply lookup_union_Some_l. reflexivity.
  - apply lookup_union_Some_l. reflexivity.
  - intros f Hf. by apply lookup_union_r.
  - intros path i Hne.
    destruct (decide (progressPath p = path)) as [<-|Hp].
    + rewrite lookup_insert_eq. cbn [from_option id].
      rewrite lookup_insert_ne; [done|]. by intros <-.
    + by rewrite lookup_insert_ne.
Qed.

(** X9. Toggling a bookmark, whatever its outcome, touches no document but
    the bookmark record of that question, and nothing of the running
    session: questions, index, results and filters are as before. *)
Theorem bookmark_toggle_touches_one_record (questionId : string) (isBookmarked : bool)
    (s : State) (w : World) :
  let r := handleToggleBookmark p questionId isBookmarked s w in
  (forall path i, (path, i) <> (bookmarksPath p, questionId) ->
     Firestore.collection (Firestore.db (remote r.2)) path !! i
     = Firestore.collection (Firestore.db (remote w)) path !! i)
  /\ heap r.2 = heap w
  /\ view r.1 = view s
  /\ filters r.1 = filters s
  /\ isSessionComplete r.1 = isSessionComplete s
  /\ selectedOption r.1 = selectedOption s.
Proof.
  assert (Hw : forall data merge (d : Firestore.Db) path i,
             (path, i) <> (bookmarksPath p, questionId) ->
             Firestore.collection
               (Firestore.write_ref (Firestore.doc (bookmarksPath p) questionId) data merge d)
               path !! i = Firestore.collection d path !! i).
  { intros data merge d path i Hne.
    unfold Firestore.write_ref, Firestore.collection, Firestore.doc.
    cbn [Firestore.path Firestore.docId].
    destruct (decide (bookmarksPath p = path)) as [<-|Hp].
    - rewrite lookup_insert_eq. cbn [from_option id].
      rewrite lookup_insert_ne; [done|]. by intros <-.
    - by rewrite lookup_insert_ne. }
  assert (Hd : forall (d : Firestore.Db) path i,
             (path, i) <> (bookmarksPath p, questionId) ->
             Firestore.collection
               (Firestore.delete_ref (Firestore.doc (bookmarksPath p) questionId) d)
               path !! i = Firestore.collection d path !! i).
  { intros d path i Hne. rewrite collection_delete_ref.
    rewrite bool_decide_eq_false_2; [done|].
    unfold Firestore.doc. by intros [= -> ->]. }
  unfold handleToggleBookmark, Firestore.setDoc, Firestore.deleteDoc, Firestore.call.
  destruct isBookmarked;
    destruct (Firestore.next_outcome (remote w)) as [[] n];
    cbn [fst snd remote with_remote setTimeout console_error Firestore.db heap];
    (split; [intros path i Hne; auto|done]).
Qed.
End Writes.

(** ** Filters *)

Section Filters.
Import JS MCQPractice Spec.
Variable p : Props.

(** X10. With a topic selected, every question of the session built by
    [setupSession] carries that topic; questions without a topic are
    left out. *)
Theorem topic_session_within_topic src bookmarks mode topicId limit s w (t : string) :
  topic_selected topicId = Some t ->
  forall q,
    q ∈ deref (heap (setupSession p src bookmarks mode topicId limit s w).2)
              (questions (setupSession p src bookmarks mode topicId limit s w).1) ->
    Types.topicId q = Some t.
Proof.
  intros Ht q Hq.
  eapply elem_of_submseteq in Hq; [|apply session_drawn_from_filtered].
  unfold filteredSet in Hq. unfold topic_selected in Ht.
  destruct topicId as [t'|]; [|done].
  destruct (bool_decide (t' = "") || bool_decide (t' = "all")); [done|].
  injection Ht as ->.
  destruct (isQuickRevision p || bool_decide (mode = bookmarked)).
  - eapply elem_of_submseteq in Hq; [|apply sublist_submseteq, filter_sublist].
    apply filter_all in Hq. by apply bool_decide_eq_true in Hq.
  - apply filter_all in Hq. by apply bool_decide_eq_true in Hq.
Qed.

(** X11. With a topic or the bookmark filter in force, the shuffle runs on
    a copy: a live source array holds after the call exactly what it held
    before, in the same order. *)
Theorem filtered_build_keeps_source src bookmarks mode topicId limit s w :
  is_Some (topic_selected topicId) \/ isQuickRevision p = true \/ mode = bookmarked ->
  src ∈ dom (heap w) ->
  deref (heap (setupSession p src bookmarks mode topicId limit s w).2) src
  = deref (heap w) src.
Proof.
  intros Hfilter Hlive.
  assert (Hne : forall (h : gmap ref (list Types.MCQ)), src ∈ dom h -> fresh (dom h) <> src).
  { intros h Hin Heq. apply (is_fresh (dom h)). by rewrite Heq. }
  assert (Hin : forall (h : gmap ref (list Types.MCQ)) r l,
             src ∈ dom h -> src ∈ dom (<[r := l]> h)).
  { intros h r l Hh. rewrite dom_insert. apply elem_of_union. by right. }
  unfold setupSession, Array_sort, Array_slice, Array_filter.
  destruct (topic_selected topicId) as [t|] eqn:Ht;
    destruct (isQuickRevision p || bool_decide (mode = bookmarked)) eqn:Hm.
  4: { exfalso. destruct Hfilter as [[? [=]]|[Hq|Hb]].
       - by rewrite Hq in Hm.
       - rewrite Hb, bool_decide_eq_true_2, orb_true_r in Hm; done. }
  all: cbn [fst snd alloc];
    repeat match goal with
           | |- context [sort ?c ?l ?t] => destruct (sort c l t) as [? ?]
           end;
    cbn [fst snd heap with_heap with_random];
    rewrite !deref_insert_ne; auto 10.
Qed.
End Filters.

(** ** The banner and its timers *)

Section Banner.
Import JS MCQPractice Spec.
Variable p : Props.

(** Every toggle shows a banner and arms a timer of two seconds. *)
Lemma toggle_arms_timer (questionId : string) (isBookmarked : bool) s w :
  let r := handleToggleBookmark p questionId isBookmarked s w in
  is_Some (msg r.1)
  /\ timers r.2 = timers w ++ [(clock w + 2000, ClearMsg)]
  /\ clock r.2 = clock w.
Proof.
  unfold handleToggleBookmark, Firestore.setDoc, Firestore.deleteDoc, Firestore.call.
  destruct isBookmarked;
    destruct (Firestore.next_outcome (remote w)) as [[] n];
    cbn [fst snd]; by repeat split.
Qed.

Lemma due_timers_clear_msg (due : list (Z * Callback)) s :
  due <> [] -> msg (foldl (fun s t => runCallback t.2 s) s due) = None.
Proof.
  destruct due as [|c due] using rev_ind; [done|]. intros _. apply timers_clear_msg.
Qed.

(** X12. Timers are never cancelled: when a bookmark is toggled again
    within the two seconds of an earlier toggle, the banner of the later
    toggle is taken down by the timer of the earlier one, after less than
    its two seconds. *)
Theorem later_banner_cleared_early (q1 q2 : string) (b1 b2 : bool)
    (s : State) (w : World) (d : Z) :
  0 < d < 2000 ->
  let first := handleToggleBookmark p q1 b1 s w in
  let waited := elapse d first.1 first.2 in
  let second := handleToggleBookmark p q2 b2 waited.1 waited.2 in
  let after := elapse (2000 - d) second.1 second.2 in
  is_Some (msg second.1)
  /\ msg after.1 = None
  /\ clock after.2 - clock second.2 = 2000 - d.
Proof.
  intros Hd first waited second after.
  destruct (toggle_arms_timer q1 b1 s w) as (_ & Ht1 & Hc1). fold first in Ht1, Hc1.
  destruct (toggle_arms_timer q2 b2 waited.1 waited.2) as (Hm2 & Ht2 & Hc2).
  fold second in Hm2, Ht2, Hc2.
  assert (Hw : clock waited.2 = clock w + d
               /\ (clock w + 2000, ClearMsg) ∈ timers waited.2).
  { subst waited. unfold elapse. cbn [fst snd clock timers]. rewrite Hc1. split; [done|].
    apply list_elem_of_In, filter_In. split.
    - rewrite Ht1. apply in_or_app. right. by left.
    - cbn. destruct (Z.leb_spec (clock w + 2000) (clock w + d)); [lia|done]. }
  destruct Hw as [Hcw Hin].
  split; [done|]. subst after. unfold elapse. cbn [fst snd clock]. split; [|lia].
  apply due_timers_clear_msg. intros Hnil.
  assert (Hdue : (clock w + 2000, ClearMsg)
                 ∈ List.filter (fun t : Z * Callback => t.1 <=? clock second.2 + (2000 - d))
                     (timers second.2)).
  { apply list_elem_of_In, filter_In. split.
    - rewrite Ht2. apply in_or_app. left. by apply list_elem_of_In.
    - cbn. rewrite Hc2, Hcw. apply Z.leb_le. lia. }
  rewrite Hnil in Hdue. by apply elem_of_nil in Hdue.
Qed.
End Banner.

(** * The sign-in screen *)

Section SignIn.
Import AuthScreen.

Lemma errorMessage_shown (c : option string) : errorMessage c <> "".
Proof.
  unfold errorMessage. repeat case_bool_decide; discriminate.
Qed.

(** X13. Signing up with a name that is empty or white space only is
    refused on the spot: the identity provider is not called, the message
    asking for the name is shown, and the form is no longer loading. *)
Theorem signup_needs_a_name (s : State) (pr : Provider) :
  isLogin s = false ->
  Text.blank (name s) = true ->
  let r := handleAuth s pr in
  r.2 = pr /\ error r.1 = nameMissing /\ loading r.1 = false.
Proof.
  intros Hl Hn. unfold handleAuth. cbn [isLogin name setError setLoading].
  by rewrite Hl, Hn.
Qed.

(** X14. Each of the seven known failure codes has a message of its own,
    different from the others and from the generic message; every other
    code, and a failure without a code, gets the generic message. *)
Theorem error_messages_distinct :
  NoDup (genericError :: List.map (fun c => errorMessage (Some c)) knownCodes)
  /\ (forall c, (forall k, c = Some k -> k ∉ knownCodes) -> errorMessage c = genericError).
Proof.
  split.
  - apply (bool_decide_unpack (NoDup _)). vm_compute. exact I.
  - intros c Hc. unfold errorMessage.
    repeat (rewrite bool_decide_eq_false_2;
            [|intros ->; eapply Hc; [reflexivity|
               unfold knownCodes; rewrite !elem_of_cons; auto 10]]).
    reflexivity.
Qed.

(** X15. Whatever happens, the form stops loading and at most two calls
    are made; and no error is shown exactly when the request went through:
    a sign-in whose call resolved, or a sign-up with a name whose account
    creation and profile update both resolved. *)
Theorem handleAuth_settles (s : State) (pr : Provider) :
  let r := handleAuth s pr in
  loading r.1 = false
  /\ (length (calls r.2) <= length (calls pr) + 2)%nat
  /\ (error r.1 = ""
      <-> (isLogin s = true /\ resolves 0 pr = true)
          \/ (isLogin s = false /\ Text.blank (name s) = false
              /\ resolves 0 pr = true /\ resolves 1 pr = true)).
Proof.
  pose proof errorMessage_shown as Hshown.
  unfold handleAuth, request, resolves. cbn [isLogin name email password setError setLoading].
  destruct (isLogin s), (Text.blank (name s));
    destruct (outcomes pr) as [|[|e1] [|[|e2] rest]];
    cbn [fst snd loading error calls length setError setLoading console_error
         outcomes lookup list_lookup];
    (split; [reflexivity|split; [lia|]]);
    split; try (intros [[? ?]|(? & ? & ? & ?)]; discriminate);
    try (intros H; exfalso; (by apply Hshown in H) || discriminate H);
    auto 6.
Qed.
End SignIn.

(** * Further properties of the admin panel *)

Section Listing.
Import Firestore AdminPanel.

(** X16. The chapter list of the panel: with no subject selected it is
    emptied without a request; otherwise one query is sent and, when it
    succeeds, the list holds exactly the stored chapters of the subject,
    each once; when it fails the list is kept and the failure message is
    shown.  The database is not changed. *)
Theorem fetchChapters_lists_the_subject (subjectId : string) (s : State) (r : Remote) :
  let out := fetchChapters subjectId s r in
  chapters out.1
  ≡ₚ (if bool_decide (subjectId = "") then []
      else if (next_outcome r).1
           then List.filter (matches "subjectId" (VString subjectId))
                  (map_to_list (collection (db r) "chapters"))
           else chapters s)
  /\ msg out.1
     = (if bool_decide (subjectId = "") || (next_outcome r).1 then msg s
        else Some {| type := error; text := "Failed to load chapters." |})
  /\ db out.2 = db r
  /\ requests out.2
     = (if bool_decide (subjectId = "") then []
        else [GetDocs "chapters" "subjectId" (VString subjectId)]) ++ requests r.
Proof.
  unfold fetchChapters, getDocs, call.
  destruct (bool_decide (subjectId = "")); [done|].
  destruct (next_outcome r) as [[] n]; cbn [fst snd orb]; [|done].
  split; [|done]. apply sort_perm.
Qed.
End Listing.

Section Orphans.
Import Firestore.
Variable p : MCQPractice.Props.

Lemma cascade_spares_users (d : Db) (chapterId rest i : string) :
  AdminPanel.in_cascade d chapterId ("users/" +:+ rest) i = false.
Proof.
  unfold AdminPanel.in_cascade. by rewrite !bool_decide_eq_false_2 by discriminate.
Qed.

Lemma cascade_deleted (chapterId chapterTitle : string) (s : AdminPanel.State)
    (r : Remote) (path i : string) :
  Forall (fun ok => ok = true) (take 4 (network r)) ->
  collection (db (AdminPanel.handleDeleteChapter true chapterId chapterTitle s r).2) path !! i
  = if AdminPanel.in_cascade (db r) chapterId path i then None
    else collection (db r) path !! i.
Proof.
  intros Hnet%all_succeed.
  destruct (handleDeleteChapter_outcome true chapterId chapterTitle s r) as [Hdb _].
  cbn zeta in Hdb. rewrite Hdb. cbn [andb]. rewrite Hnet, collection_commit.
  destruct (AdminPanel.in_cascade (db r) chapterId path i) eqn:Hc.
  - by rewrite bool_decide_eq_true_2 by by apply cascade_batch_names.
  - rewrite bool_decide_eq_false_2; [done|]. rewrite cascade_batch_names. by rewrite Hc.
Qed.

(** X17. Deleting a chapter leaves the users' records of it behind: after
    a cascade delete that went through, the practice component finds no
    question of the chapter, yet the bookmark and progress records of
    every user are as before; a load of the chapter then ends with an
    empty, completed session and the old bookmarks in its bookmark set. *)
Theorem deleted_chapter_leaves_bookmarks (chapterTitle : string)
    (s : AdminPanel.State) (r : Remote) :
  Forall (fun ok => ok = true) (take 4 (network r)) ->
  let d' := db (AdminPanel.handleDeleteChapter true
                  (Types.chapter_id (MCQPractice.chapter p)) chapterTitle s r).2 in
  Walkthrough.chapterQuestions p d' = []
  /\ collection d' (MCQPractice.bookmarksPath p) = collection (db r) (MCQPractice.bookmarksPath p)
  /\ collection d' (MCQPractice.progressPath p) = collection (db r) (MCQPractice.progressPath p)
  /\ forall s0 w,
       db (MCQPractice.remote w) = d' ->
       Forall (fun ok => ok = true) (take 2 (network (MCQPractice.remote w))) ->
       let x := MCQPractice.fetchQuestions p s0 w in
       JS.deref (MCQPractice.heap x.2) (MCQPractice.questions x.1) = []
       /\ MCQPractice.isSessionComplete x.1 = true
       /\ MCQPractice.userBookmarks x.1 = Walkthrough.chapterBookmarks p (db r).
Proof.
  intros Hnet d'.
  assert (Hq : Walkthrough.chapterQuestions p d' = []).
  { unfold Walkthrough.chapterQuestions.
    destruct (List.filter _ _) as [|[i e] l] eqn:Hf; [done|]. exfalso.
    assert (Hin : In (i, e) (List.filter
                     (matches "chapterId" (MCQPractice.chapterIs p))
                     (map_to_list (collection d' "mcqs")))) by (rewrite Hf; by left).
    apply filter_In in Hin as [Hin Hm].
    apply list_elem_of_In, elem_of_map_to_list in Hin.
    subst d'. rewrite cascade_deleted in Hin by done.
    destruct (AdminPanel.in_cascade _ _ _ _) eqn:Hc; [done|].
    unfold AdminPanel.in_cascade in Hc. rewrite Hin in Hc.
    unfold matches in Hm. cbn [snd from_option] in Hm, Hc.
    unfold AdminPanel.references in Hc. unfold MCQPractice.chapterIs in Hm.
    rewrite Hm in Hc. rewrite (bool_decide_eq_true_2 ("mcqs" = "mcqs")) in Hc by done.
    by rewrite orb_true_r in Hc. }
  assert (Hb : collection d' (MCQPractice.bookmarksPath p)
               = collection (db r) (MCQPractice.bookmarksPath p)).
  { apply map_eq. intros i. subst d'. rewrite cascade_deleted by done.
    unfold MCQPractice.bookmarksPath. by rewrite cascade_spares_users. }
  split; [exact Hq|]. split; [exact Hb|]. split.
  { apply map_eq. intros i. subst d'. rewrite cascade_deleted by done.
    unfold MCQPractice.progressPath. by rewrite cascade_spares_users. }
  intros s0 w Hw Hnet2 x.
  destruct (fetchQuestions_loaded p s0 w Hnet2) as (r0 & h1 & w1 & Ha & Hh & _ & Hr).
  rewrite Hw, Hq in Ha.
  assert (Hmarks : Walkthrough.chapterBookmarks p (db (MCQPractice.remote w))
                   = Walkthrough.chapterBookmarks p (db r)).
  { unfold Walkthrough.chapterBookmarks. by rewrite Hw, Hb. }
  rewrite Hmarks in Hr.
  set (marks := Walkthrough.chapterBookmarks p (db r)) in *.
  set (s1 := MCQPractice.setUserBookmarks marks
               (MCQPractice.setAllQuestions r0 (MCQPractice.setLoading true s0))) in *.
  pose proof (setupSession_state p r0 marks (MCQPractice.tempFilterMode s0)
                (MCQPractice.tempTopicId s0) (MCQPractice.tempLimit s0) s1 w1) as Hst.
  pose proof (setupSession_questions p r0 marks (MCQPractice.tempFilterMode s0)
                (MCQPractice.tempTopicId s0) (MCQPractice.tempLimit s0) s1 w1) as Hsq.
  pose proof (session_drawn_from_filtered p r0 marks (MCQPractice.tempFilterMode s0)
                (MCQPractice.tempTopicId s0) (MCQPractice.tempLimit s0) s1 w1) as Hsub.
  assert (Hr0 : JS.deref (MCQPractice.heap w1) r0 = []).
  { rewrite Hh. pose proof (deref_alloc (MCQPractice.heap w) []) as Hd.
    by rewrite Ha in Hd. }
  rewrite Hr0 in Hsub.
  assert (Hnil : Spec.filteredSet p marks (MCQPractice.tempFilterMode s0)
                   (MCQPractice.tempTopicId s0) [] = []).
  { apply sublist_nil_r, filteredSet_sublist. }
  rewrite Hnil in Hsub. apply submseteq_nil_r in Hsub.
  subst x. rewrite Hr. cbn [fst snd].
  split; [exact Hsub|]. rewrite Hst. cbn.
  rewrite <- Hsq, Hsub. done.
Qed.
End Orphans.

Section Forms.
Import Firestore AdminPanel AdminForms.

(** What adding a document does to the store. *)
Lemma addDoc_collection (p : string) (data : Doc) (autoId : string) (r : Remote)
    (q i : string) :
  collection (db (addDoc p data autoId r).2) q !! i
  = if bool_decide (q = p) && bool_decide (i = autoId) && (next_outcome r).1
       && negb (bool_decide (is_Some (collection (db r) p !! autoId)))
    then Some data
    else collection (db r) q !! i.
Proof.
  unfold addDoc. destruct (next_outcome r) as [ok n]. cbn [fst].
  destruct ok, (bool_decide (is_Some (collection (db r) p !! autoId)));
    cbn [andb negb snd db]; rewrite ?andb_false_r; try done.
  rewrite andb_true_r. unfold write_ref, collection.
  cbn [path docId doc]. rewrite (right_id_L ∅ (∪)).
  destruct (decide (q = p)) as [->|Hp].
  - rewrite lookup_insert_eq, bool_decide_eq_true_2 by done. cbn [from_option id andb].
    destruct (decide (i = autoId)) as [->|Hi].
    + by rewrite lookup_insert_eq, bool_decide_eq_true_2.
    + by rewrite lookup_insert_ne, bool_decide_eq_false_2.
  - by rewrite lookup_insert_ne, bool_decide_eq_false_2.
Qed.

Lemma addDoc_succeeds (p : string) (data : Doc) (autoId : string) (r : Remote) :
  (next_outcome r).1 = true ->
  collection (db r) p !! autoId = None ->
  addDoc p data autoId r
  = (Ok (doc p autoId),
     {| db := write_ref (doc p autoId) data false (db r);
        network := (next_outcome r).2;
        requests := SetDoc (doc p autoId) data false :: requests r |}).
Proof.
  intros Hok Hfree. unfold addDoc. destruct (next_outcome r) as [ok n].
  cbn [fst snd] in *. subst ok. rewrite Hfree.
  by rewrite (bool_decide_eq_false_2 (is_Some None)) by by intros [? ?].
Qed.

(** Adding keeps what is stored and creates at most the new document. *)
Lemma addDoc_keeps (p : string) (data : Doc) (autoId : string) (r : Remote) :
  (forall path i d,
     collection (db r) path !! i = Some d ->
     collection (db (addDoc p data autoId r).2) path !! i = Some d)
  /\ (forall path i,
        collection (db r) path !! i = None ->
        is_Some (collection (db (addDoc p data autoId r).2) path !! i) ->
        path = p /\ i = autoId).
Proof.
  split.
  - intros path i d Hd. rewrite addDoc_collection.
    destruct (bool_decide (path = p)) eqn:Hp; [|done].
    destruct (bool_decide (i = autoId)) eqn:Hi; [|done].
    apply bool_decide_eq_true in Hp, Hi. subst.
    rewrite (bool_decide_eq_true_2 (is_Some _)) by by rewrite Hd.
    by rewrite andb_false_r.
  - intros path i Hn. rewrite addDoc_collection, Hn.
    destruct (bool_decide (path = p)) eqn:Hp; [|by intros [? ?]].
    destruct (bool_decide (i = autoId)) eqn:Hi; [|by intros [? ?]].
    by apply bool_decide_eq_true in Hp, Hi.
Qed.

Lemma fetchTopics_reads (chapterId : string) (s : State) (f : Forms) (r : Remote) :
  db (fetchTopics chapterId s f r).2 = db r.
Proof.
  unfold fetchTopics, getDocs, call.
  destruct (bool_decide (chapterId = "")); [done|].
  by destruct (next_outcome r) as [[] n].
Qed.

Lemma handleAddChapter_db (autoId : string) (now : Z) (s : State) (f : Forms) (r : Remote) :
  handleAddChapter autoId now s f r
  = (failure "Subject selection and chapter title are required." s, f, r)
  \/ db (handleAddChapter autoId now s f r).2
     = db (addDoc "chapters"
             (chapterRecord (selectedSubjectId s) (Text.trim (newChapterTitle f))
                (nextOrder (chapters s)) now) autoId r).2.
Proof.
  unfold handleAddChapter.
  destruct (bool_decide (selectedSubjectId s = "") || Text.blank (newChapterTitle f));
    [by left|right].
  destruct (addDoc _ _ _ _) as [[ref|] r1] eqn:Ha; cbn [snd]; [|done].
  pose proof (fetchChapters_reads
                (selectedSubjectId (succeeded "Chapter added successfully!"
                                      (setLoading true s)))
                (succeeded "Chapter added successfully!" (setLoading true s)) r1) as [Hd _].
  by destruct (fetchChapters _ _ r1).
Qed.

Lemma handleAddTopic_db (autoId : string) (now : Z) (s : State) (f : Forms) (r : Remote) :
  handleAddTopic autoId now s f r
  = (failure "Chapter selection and topic title are required." s, f, r)
  \/ db (handleAddTopic autoId now s f r).2
     = db (addDoc "topics"
             (topicRecord (selectedChapterId f) (Text.trim (newTopicTitle f)) now)
             autoId r).2.
Proof.
  unfold handleAddTopic.
  destruct (bool_decide (selectedChapterId f = "") || Text.blank (newTopicTitle f));
    [by left|right].
  destruct (addDoc _ _ _ _) as [[ref|] r1] eqn:Ha; cbn [snd]; [|done].
  pose proof (fetchTopics_reads
                (selectedChapterId (setNewTopicTitle "" f))
                (succeeded "Topic added successfully!" (setLoading true s))
                (setNewTopicTitle "" f) r1) as Hd.
  by destruct (fetchTopics _ _ _ r1) as [[? ?] ?].
Qed.

Lemma handleAddFormula_db (autoId : string) (now : Z) (s : State) (f : Forms) (r : Remote) :
  handleAddFormula autoId now s f r
  = (failure "Chapter, title, and formula (LaTeX) are required." s, f, r)
  \/ db (handleAddFormula autoId now s f r).2
     = db (addDoc "formulas"
             (formulaRecord (selectedChapterId f) (Text.trim (newFormulaTitle f))
                (Text.trim (newFormulaLatex f)) (Text.trim (newFormulaDescription f)) now)
             autoId r).2.
Proof.
  unfold handleAddFormula.
  destruct (bool_decide (selectedChapterId f = "") || Text.blank (newFormulaTitle f)
            || Text.blank (newFormulaLatex f));
    [by left|right].
  by destruct (addDoc _ _ _ _) as [[ref|] r1] eqn:Ha.
Qed.

(** X18. The three forms only ever add: whatever is typed and whatever the
    network does, every document that was stored is still stored
    unchanged afterwards, in particular the counts and the lock of every
    chapter; and a document that is new is the one with the generated id,
    in the collection of the form. *)
Theorem forms_only_add (autoId : string) (now : Z) (s : State) (f : Forms) (r : Remote) :
  let keeps (target : string) (out : State * Forms * Remote) :=
    (forall path i d,
       collection (db r) path !! i = Some d ->
       collection (db out.2) path !! i = Some d)
    /\ (forall path i,
          collection (db r) path !! i = None ->
          is_Some (collection (db out.2) path !! i) ->
          path = target /\ i = autoId) in
  keeps "chapters" (handleAddChapter autoId now s f r)
  /\ keeps "topics" (handleAddTopic autoId now s f r)
  /\ keeps "formulas" (handleAddFormula autoId now s f r).
Proof.
  cbn zeta. split; [|split].
  - destruct (handleAddChapter_db autoId now s f r) as [->| ->].
    + split; [done|]. cbn [snd]. intros path i -> [? ?]. done.
    + apply addDoc_keeps.
  - destruct (handleAddTopic_db autoId now s f r) as [->| ->].
    + split; [done|]. cbn [snd]. intros path i -> [? ?]. done.
    + apply addDoc_keeps.
  - destruct (handleAddFormula_db autoId now s f r) as [->| ->].
    + split; [done|]. cbn [snd]. intros path i -> [? ?]. done.
    + apply addDoc_keeps.
Qed.




Lemma write_ref_collection (ref : DocRef) (data : Doc) (d : Db) (q i : string) :
  collection (write_ref ref data false d) q !! i
  = if bool_decide (q = path ref) && bool_decide (i = docId ref) then Some data
    else collection d q !! i.
Proof.
  unfold write_ref, collection. rewrite (right_id_L ∅ (∪)).
  destruct (decide (q = path ref)) as [->|Hq].
  - rewrite lookup_insert_eq, bool_decide_eq_true_2 by done. cbn [from_option id andb].
    destruct (decide (i = docId ref)) as [->|Hi].
    + by rewrite lookup_insert_eq, bool_decide_eq_true_2.
    + by rewrite lookup_insert_ne, bool_decide_eq_false_2.
  - by rewrite lookup_insert_ne, bool_decide_eq_false_2.
Qed.

(** X20. A chapter form that is complete, with the network up and the
    generated id free, stores a chapter under that id: of the selected
    subject, with the title trimmed, locked, with both counts zero and the
    time of the call.  The refreshed list shows the new chapter, the title
    field is cleared, the success message is shown and loading ends. *)
Theorem handleAddChapter_appends (autoId : string) (now : Z)
    (s : State) (f : Forms) (r : Remote) :
  selectedSubjectId s <> "" ->
  Text.blank (newChapterTitle f) = false ->
  Forall (fun ok => ok = true) (take 2 (network r)) ->
  collection (db r) "chapters" !! autoId = None ->
  let out := handleAddChapter autoId now s f r in
  exists new,
    collection (db out.2) "chapters" !! autoId = Some new
    /\ new !! "subjectId" = Some (VString (selectedSubjectId s))
    /\ new !! "title" = Some (VString (Text.trim (newChapterTitle f)))
    /\ new !! "isLocked" = Some (VBoolean true)
    /\ new !! "mcqCount" = Some (VNumber 0)
    /\ new !! "formulaCount" = Some (VNumber 0)
    /\ new !! "createdAt" = Some (VTimestamp now)
    /\ (autoId, new) ∈ chapters out.1.1
    /\ newChapterTitle out.1.2 = ""
    /\ msg out.1.1 = Some {| type := success; text := "Chapter added successfully!" |}
    /\ loading out.1.1 = false.
Proof.
  intros Hs Hb Hnet Hfree out.
  set (new := chapterRecord (selectedSubjectId s) (Text.trim (newChapterTitle f))
                (nextOrder (chapters s)) now).
  destruct (next_outcome_succeeds 1 r Hnet) as [Hok1 Hnet1].
  assert (Hfield : forall k v,
            ({[ "subjectId" := VString (selectedSubjectId s);
                "title" := VString (Text.trim (newChapterTitle f));
                "order" := VNumber (nextOrder (chapters s));
                "isLocked" := VBoolean true;
                "mcqCount" := VNumber 0;
                "formulaCount" := VNumber 0;
                "createdAt" := VTimestamp now ]} : Doc) !! k = v ->
            new !! k = v) by done.
  assert (Hsubject : new !! "subjectId" = Some (VString (selectedSubjectId s))).
  { apply Hfield. by rewrite lookup_insert_eq. }
  assert (Htitle : new !! "title" = Some (VString (Text.trim (newChapterTitle f)))).
  { apply Hfield. rewrite !lookup_insert_ne by done. by rewrite lookup_insert_eq. }
  assert (Hlocked : new !! "isLocked" = Some (VBoolean true)).
  { apply Hfield. rewrite !lookup_insert_ne by done. by rewrite lookup_insert_eq. }
  assert (Hmcq : new !! "mcqCount" = Some (VNumber 0)).
  { apply Hfield. rewrite !lookup_insert_ne by done. by rewrite lookup_insert_eq. }
  assert (Hformula : new !! "formulaCount" = Some (VNumber 0)).
  { apply Hfield. rewrite !lookup_insert_ne by done. by rewrite lookup_insert_eq. }
  assert (Hcreated : new !! "createdAt" = Some (VTimestamp now)).
  { apply Hfield. rewrite !lookup_insert_ne by done. by rewrite lookup_singleton_eq. }
  exists new.
  subst out. unfold handleAddChapter.
  rewrite (bool_decide_eq_false_2 _ Hs), Hb. cbn [orb].
  change (selectedSubjectId (setLoading true s)) with (selectedSubjectId s).
  change (chapters (setLoading true s)) with (chapters s).
  fold new. rewrite (addDoc_succeeds "chapters" new autoId r Hok1 Hfree).
  set (r1 := {| db := write_ref (doc "chapters" autoId) new false (db r);
                network := (next_outcome r).2;
                requests := SetDoc (doc "chapters" autoId) new false :: requests r |}).
  assert (Hadd : collection (db r1) "chapters" !! autoId = Some new).
  { unfold r1. cbn [db]. rewrite write_ref_collection. cbn [path docId doc].
    by rewrite !bool_decide_eq_true_2. }
  assert (Hok2 : (next_outcome r1).1 = true).
  { by destruct (next_outcome_succeeds 0 r1 Hnet1). }
  unfold fetchChapters, getDocs, call.
  cbn [selectedSubjectId succeeded setMsg setLoading].
  rewrite (bool_decide_eq_false_2 _ Hs).
  destruct (next_outcome r1) as [ok2 n2]. cbn [fst] in Hok2. subst ok2.
  cbn [fst snd chapters msg loading setLoading setChapters setMsg db
       newChapterTitle setNewChapterTitle].
  split; [exact Hadd|]. split; [exact Hsubject|]. split; [exact Htitle|].
  split; [exact Hlocked|]. split; [exact Hmcq|]. split; [exact Hformula|].
  split; [exact Hcreated|]. split; [|done].
  rewrite (sort_perm by_order _ []).
  apply list_elem_of_In, filter_In. split.
  - apply list_elem_of_In, elem_of_map_to_list. exact Hadd.
  - unfold matches. cbn [snd]. by rewrite Hsubject, bool_decide_eq_true_2.
Qed.

(** X21. Adding a formula does not make its chapter known to have one: a
    chapter created by the chapter form is stored locked with a formula
    count of zero and no revision count, and a formula added to it
    afterwards leaves that record as it is.  So the chapter list still
    shows the chapter, and a click on it gives the "no formulas" alert in
    formula mode, does nothing in practice mode, and opens the chapter
    only in quick-revision mode. *)
Theorem new_chapter_opens_only_for_revision (cid subj title : string) (n now : Z)
    (fid : string) (later : Z) (s : State) (f : Forms) (r : Remote) :
  collection (db r) "chapters" !! cid = Some (chapterRecord subj title n now) ->
  cid <> "" ->
  selectedChapterId f = cid ->
  Text.blank (newFormulaTitle f) = false ->
  Text.blank (newFormulaLatex f) = false ->
  (next_outcome r).1 = true ->
  collection (db r) "formulas" !! fid = None ->
  let out := handleAddFormula fid later s f r in
  let c : ChapterSelection.Chapter := (cid, chapterRecord subj title n now) in
  (exists d, collection (db out.2) "formulas" !! fid = Some d
             /\ references cid d = true)
  /\ collection (db out.2) "chapters" !! cid = Some c.2
  /\ (forall view console,
        (next_outcome out.2).1 = true ->
        c ∈ ChapterSelection.chapters
              (ChapterSelection.fetchChapters subj view out.2 console).1.1)
  /\ forall p,
       ChapterSelection.handleChapterClick p c
       = if ChapterSelection.isFormulaMode p
         then Some (ChapterSelection.Alert
                      "Sorry, no formulas available for this chapter yet.")
         else if ChapterSelection.isQuickRevision p
              then Some (ChapterSelection.SelectChapter c)
              else None.
Proof.
  intros Hc Hcid Hsel Ht Hl Hok Hfree out c.
  subst out. unfold handleAddFormula.
  rewrite Hsel, (bool_decide_eq_false_2 _ Hcid), Ht, Hl. cbn [orb].
  rewrite (addDoc_succeeds "formulas" _ fid r Hok Hfree). cbn [fst snd db].
  split; [|split; [|split]].
  - eexists. split.
    + rewrite write_ref_collection. cbn [path docId doc].
      by rewrite !bool_decide_eq_true_2.
    + unfold references, formulaRecord.
      by rewrite lookup_insert_eq, bool_decide_eq_true_2.
  - rewrite write_ref_collection. cbn [path docId doc].
    by rewrite (bool_decide_eq_false_2 ("chapters" = "formulas")).
  - intros view console Hok2.
    unfold ChapterSelection.fetchChapters, getDocs, call.
    match type of Hok2 with
    | (next_outcome ?R).1 = true => destruct (next_outcome R) as [ok2 n2]
    end.
    cbn [fst] in Hok2. subst ok2.
    cbn [fst snd ChapterSelection.chapters db].
    rewrite (sort_perm by_order _ []).
    apply list_elem_of_In, filter_In. split.
    + apply list_elem_of_In, elem_of_map_to_list.
      rewrite write_ref_collection. cbn [path docId doc].
      by rewrite (bool_decide_eq_false_2 ("chapters" = "formulas")).
    + unfold matches, c, chapterRecord. cbn [snd].
      by rewrite lookup_insert_eq, bool_decide_eq_true_2.
  - intros p. unfold ChapterSelection.handleChapterClick, c, chapterRecord. cbn [snd].
    rewrite !lookup_insert_ne by done. rewrite lookup_insert_eq.
    assert (Hf : ({[ "subjectId" := VString subj; "title" := VString title;
                     "order" := VNumber n; "isLocked" := VBoolean true;
                     "mcqCount" := VNumber 0; "formulaCount" := VNumber 0;
                     "createdAt" := VTimestamp now ]} : Doc) !! "formulaCount"
                 = Some (VNumber 0)).
    { rewrite !lookup_insert_ne by done. by rewrite lookup_insert_eq. }
    assert (Hr : ({[ "subjectId" := VString subj; "title" := VString title;
                     "order" := VNumber n; "isLocked" := VBoolean true;
                     "mcqCount" := VNumber 0; "formulaCount" := VNumber 0;
                     "createdAt" := VTimestamp now ]} : Doc) !! "revisionCount"
                 = None).
    { rewrite !lookup_insert_ne by done. by rewrite lookup_singleton_ne. }
    rewrite Hf, Hr. unfold ChapterSelection.is_zero, ChapterSelection.truthy.
    rewrite bool_decide_eq_true_2, bool_decide_eq_false_2 by done.
    by destruct (ChapterSelection.isQuickRevision p), (ChapterSelection.isFormulaMode p).
Qed.
End Forms.

(** * Worked instances of the further properties *)

Section Instances.
Import JS MCQPractice Spec Sample Walkthrough.

Lemma practice_reached : reachable (props "u1" false) (practice.1, practice.2).
Proof.
  exists (online []), tape_swap, 1000, [Fetch].
  split; [by apply (bool_decide_unpack (map_Forall _ _)); vm_compute|].
  vm_compute. reflexivity.
Qed.

(** A first load with the network up. *)
Lemma fetchQuestions_caches_witness :
  Forall (fun ok => ok = true) (take 2 (Firestore.network (remote Scenario.starting)))
  /\ userBookmarks (fetchQuestions (props "u1" false) initialState Scenario.starting).1
     = chapterBookmarks (props "u1" false) (Firestore.db (remote Scenario.starting)).
Proof.
  assert (H : Forall (fun ok => ok = true)
                (take 2 (Firestore.network (remote Scenario.starting))))
    by (vm_compute; constructor).
  split; [exact H|].
  exact (proj1 (proj2 (fetchQuestions_caches_the_chapter (props "u1" false)
                         initialState Scenario.starting H))).
Defined.

(** A first load whose bookmark query fails. *)
Lemma fetchQuestions_half_loaded_witness :
  Firestore.network (remote Scenario.failing) = [true; false]
  /\ questions initialState ∈ dom (heap Scenario.failing)
  /\ userBookmarks (fetchQuestions (props "u1" false) initialState Scenario.failing).1
     = userBookmarks initialState.
Proof.
  assert (H1 : Firestore.network (remote Scenario.failing) = [true; false])
    by reflexivity.
  assert (H2 : questions initialState ∈ dom (heap Scenario.failing)).
  { apply elem_of_dom. vm_compute. eexists. reflexivity. }
  split; [exact H1|]. split; [exact H2|].
  exact (proj1 (proj2 (proj2 (proj2
           (fetchQuestions_half_loaded (props "u1" false) initialState
              Scenario.failing [] H1 H2))))).
Defined.

(** The sample practice is within the bounds. *)
Lemma limit_and_session_bounded_witness :
  reachable (props "u1" false) (practice.1, practice.2)
  /\ 1 <= tempLimit practice.1 <= 100
  /\ Array_length (heap practice.2) (questions practice.1) <= 100.
Proof.
  split; [exact practice_reached|].
  exact (limit_and_session_bounded (props "u1" false) practice.1 practice.2
           practice_reached).
Defined.

Lemma current_question_defined_witness :
  reachable (props "u1" false) (practice.1, practice.2)
  /\ 0 < Array_length (heap practice.2) (questions practice.1)
  /\ is_Some (currentQuestion practice.1 practice.2).
Proof.
  assert (H : 0 < Array_length (heap practice.2) (questions practice.1))
    by (vm_compute; reflexivity).
  split; [exact practice_reached|]. split; [exact H|].
  exact (proj1 (proj2 (current_question_defined (props "u1" false)
                         practice.1 practice.2 practice_reached H))).
Defined.

(** The first checked answer of the sample practice is stored. *)
Lemma progress_is_upserted_witness :
  selectedOption answering.1 = Some 1
  /\ isAnswerChecked answering.1 = false
  /\ currentQuestion answering.1 answering.2 = Some current
  /\ (Firestore.next_outcome (remote answering.2)).1 = true
  /\ (progressRecord (props "u1" false) current (1 =? Types.correctAnswer current - 1)
        (clock answering.2)
      ∪ default ∅ (Firestore.collection (Firestore.db (remote answering.2))
                     (progressPath (props "u1" false)) !! Types.id current))
     !! "attemptCount" = Some (Firestore.VNumber 1).
Proof.
  assert (H1 : selectedOption answering.1 = Some 1) by (vm_compute; reflexivity).
  assert (H2 : isAnswerChecked answering.1 = false) by (vm_compute; reflexivity).
  assert (H3 : currentQuestion answering.1 answering.2 = Some current)
    by (vm_compute; reflexivity).
  assert (H4 : (Firestore.next_outcome (remote answering.2)).1 = true)
    by (vm_compute; reflexivity).
  split; [exact H1|]. split; [exact H2|]. split; [exact H3|]. split; [exact H4|].
  exact (proj1 (proj2 (progress_is_upserted (props "u1" false) answering.1 answering.2
                         1 current H1 H2 H3 H4))).
Defined.

(** A session of topic [t1] built from the sample practice. *)
Lemma topic_session_witness :
  topic_selected (Some "t1") = Some "t1"
  /\ forall q,
       q ∈ deref (heap (setupSession (props "u1" false) (allQuestions practice.1)
                          ∅ all (Some "t1") 20 practice.1 practice.2).2)
                 (questions (setupSession (props "u1" false) (allQuestions practice.1)
                               ∅ all (Some "t1") 20 practice.1 practice.2).1) ->
       Types.topicId q = Some "t1".
Proof.
  assert (H : topic_selected (Some "t1") = Some "t1") by (vm_compute; reflexivity).
  split; [exact H|].
  exact (topic_session_within_topic (props "u1" false) (allQuestions practice.1)
           ∅ all (Some "t1") 20 practice.1 practice.2 "t1" H).
Defined.

Lemma filtered_build_witness :
  (is_Some (topic_selected (Some "t1")) \/ isQuickRevision (props "u1" false) = true
   \/ all = bookmarked)
  /\ allQuestions practice.1 ∈ dom (heap practice.2)
  /\ deref (heap (setupSession (props "u1" false) (allQuestions practice.1)
                    ∅ all (Some "t1") 20 practice.1 practice.2).2)
           (allQuestions practice.1)
     = deref (heap practice.2) (allQuestions practice.1).
Proof.
  assert (H1 : is_Some (topic_selected (Some "t1"))
               \/ isQuickRevision (props "u1" false) = true \/ all = bookmarked).
  { left. vm_compute. eexists. reflexivity. }
  assert (H2 : allQuestions practice.1 ∈ dom (heap practice.2)).
  { apply elem_of_dom. vm_compute. eexists. reflexivity. }
  split; [exact H1|]. split; [exact H2|].
  exact (filtered_build_keeps_source (props "u1" false) (allQuestions practice.1)
           ∅ all (Some "t1") 20 practice.1 practice.2 H1 H2).
Defined.

(** Two toggles half a second apart. *)
Lemma later_banner_witness :
  0 < 500 < 2000
  /\ msg (elapse (2000 - 500)
            (handleToggleBookmark (props "u1" false) "q2" true
               (elapse 500
                  (handleToggleBookmark (props "u1" false) "q1" false
                     practice.1 practice.2).1
                  (handleToggleBookmark (props "u1" false) "q1" false
                     practice.1 practice.2).2).1
               (elapse 500
                  (handleToggleBookmark (props "u1" false) "q1" false
                     practice.1 practice.2).1
                  (handleToggleBookmark (props "u1" false) "q1" false
                     practice.1 practice.2).2).2).1
            (handleToggleBookmark (props "u1" false) "q2" true
               (elapse 500
                  (handleToggleBookmark (props "u1" false) "q1" false
                     practice.1 practice.2).1
                  (handleToggleBookmark (props "u1" false) "q1" false
                     practice.1 practice.2).2).1
               (elapse 500
                  (handleToggleBookmark (props "u1" false) "q1" false
                     practice.1 practice.2).1
                  (handleToggleBookmark (props "u1" false) "q1" false
                     practice.1 practice.2).2).2).2).1
     = None.
Proof.
  assert (H : 0 < 500 < 2000) by lia.
  split; [exact H|].
  exact (proj1 (proj2 (later_banner_cleared_early (props "u1" false) "q1" "q2"
                         false true practice.1 practice.2 500 H))).
Defined.
End Instances.

Section AdminInstances.
Import Firestore.

(** Signing up with a name of two spaces. *)
Lemma signup_needs_a_name_witness :
  AuthScreen.isLogin Scenario.signup = false
  /\ Text.blank (AuthScreen.name Scenario.signup) = true
  /\ (AuthScreen.handleAuth Scenario.signup Scenario.provider).2 = Scenario.provider.
Proof.
  assert (H1 : AuthScreen.isLogin Scenario.signup = false) by reflexivity.
  assert (H2 : Text.blank (AuthScreen.name Scenario.signup) = true)
    by (vm_compute; reflexivity).
  split; [exact H1|]. split; [exact H2|].
  exact (proj1 (signup_needs_a_name Scenario.signup Scenario.provider H1 H2)).
Defined.

(** Deleting chapter [c1] of the sample store, of which user [u1] has a
    bookmark. *)
Lemma deleted_chapter_witness :
  Forall (fun ok => ok = true) (take 4 (network (Sample.online [])))
  /\ Walkthrough.chapterQuestions (Sample.props "u1" true)
       (db (AdminPanel.handleDeleteChapter true
              (Types.chapter_id (MCQPractice.chapter (Sample.props "u1" true)))
              "Arithmetic" Scenario.panel (Sample.online [])).2)
     = [].
Proof.
  assert (H : Forall (fun ok => ok = true) (take 4 (network (Sample.online []))))
    by (vm_compute; constructor).
  split; [exact H|].
  exact (proj1 (deleted_chapter_leaves_bookmarks (Sample.props "u1" true)
                  "Arithmetic" Scenario.panel (Sample.online []) H)).
Defined.

(** Adding a third chapter to subject [s1]. *)
Lemma handleAddChapter_witness :
  AdminPanel.selectedSubjectId Scenario.panel <> ""
  /\ Text.blank (AdminForms.newChapterTitle Scenario.forms) = false
  /\ Forall (fun ok => ok = true) (take 2 (network (Sample.online [])))
  /\ collection (db (Sample.online [])) "chapters" !! "c3" = None
  /\ exists new,
       collection (db Scenario.added.2) "chapters" !! "c3" = Some new
       /\ new !! "isLocked" = Some (VBoolean true)
       /\ ("c3", new) ∈ AdminPanel.chapters Scenario.added.1.1.
Proof.
  assert (H1 : AdminPanel.selectedSubjectId Scenario.panel <> "") by discriminate.
  assert (H2 : Text.blank (AdminForms.newChapterTitle Scenario.forms) = false)
    by (vm_compute; reflexivity).
  assert (H4 : Forall (fun ok => ok = true) (take 2 (network (Sample.online []))))
    by (vm_compute; constructor).
  assert (H5 : collection (db (Sample.online [])) "chapters" !! "c3" = None)
    by (vm_compute; reflexivity).
  split; [exact H1|]. split; [exact H2|]. split; [exact H4|]. split; [exact H5|].
  destruct (handleAddChapter_appends "c3" 1000 Scenario.panel Scenario.forms
              (Sample.online []) H1 H2 H4 H5)
    as (new & Hnew & _ & _ & Hlocked & _ & _ & _ & Hlisted & _).
  exists new. split; [exact Hnew|]. split; [exact Hlocked|]. exact Hlisted.
Defined.

(** Adding a formula to the chapter just created. *)
Lemma new_chapter_witness :
  collection (db Scenario.added.2) "chapters" !! "c3"
  = Some (AdminForms.chapterRecord "s1" "Fractions" 3 1000)
  /\ "c3" <> ""
  /\ AdminForms.selectedChapterId Scenario.forms = "c3"
  /\ Text.blank (AdminForms.newFormulaTitle Scenario.forms) = false
  /\ Text.blank (AdminForms.newFormulaLatex Scenario.forms) = false
  /\ (next_outcome Scenario.added.2).1 = true
  /\ collection (db Scenario.added.2) "formulas" !! "f3" = None
  /\ collection
       (db (AdminForms.handleAddFormula "f3" 2000 Scenario.added.1.1 Scenario.forms
              Scenario.added.2).2) "chapters" !! "c3"
     = Some (AdminForms.chapterRecord "s1" "Fractions" 3 1000).
Proof.
  assert (H1 : collection (db Scenario.added.2) "chapters" !! "c3"
               = Some (AdminForms.chapterRecord "s1" "Fractions" 3 1000))
    by (vm_compute; reflexivity).
  assert (H2 : "c3" <> "") by discriminate.
  assert (H3 : AdminForms.selectedChapterId Scenario.forms = "c3") by reflexivity.
  assert (H4 : Text.blank (AdminForms.newFormulaTitle Scenario.forms) = false)
    by (vm_compute; reflexivity).
  assert (H5 : Text.blank (AdminForms.newFormulaLatex Scenario.forms) = false)
    by (vm_compute; reflexivity).
  assert (H6 : (next_outcome Scenario.added.2).1 = true) by (vm_compute; reflexivity).
  assert (H7 : collection (db Scenario.added.2) "formulas" !! "f3" = None)
    by (vm_compute; reflexivity).
  split; [exact H1|]. split; [exact H2|]. split; [exact H3|]. split; [exact H4|].
  split; [exact H5|]. split; [exact H6|]. split; [exact H7|].
  exact (proj1 (proj2 (new_chapter_opens_only_for_revision "c3" "s1" "Fractions" 3 1000
                         "f3" 2000 Scenario.added.1.1 Scenario.forms Scenario.added.2
                         H1 H2 H3 H4 H5 H6 H7))).
Defined.
End AdminInstances.
